(** * MinimalVoiceAgent: python/ad_detector.py

    A shallow embedding of the Florence-2 based ad skipper: settings
    loading, the detection filter over the grounding model's output, the
    click/verify sequence, the test-mode batch loop, the live-mode polling
    loop and [main].

    Modelling conventions.
    - Python [str] values are lists of Unicode code points ([pystr]); file
      names and paths, which the script only joins and compares on ASCII
      suffixes, are [string]s.
    - Box coordinates are Python ints ([Z]).  Differences, products and the
      comparison with 50000 are exact on ints.  The midpoint
      [int((a + b) / 2)] goes through a double: true division of two ints
      gives the double nearest to the exact quotient, ties to even, or
      [OverflowError] beyond the range of a double, and [int] truncates
      ([int_of_half]); below 2^53 in absolute value this is
      [Z.quot (a + b) 2].
    - Exceptions are values of [PyExn]; [except Exception] catches the
      classes derived from [Exception] and lets [KeyboardInterrupt] and
      [SystemExit] through.
    - Side effects are threaded through a [World]: a wall clock in seconds,
      the number of screenshots taken so far, and the chronological trace of
      observable events (prints, captures, model calls, saves, clicks,
      sleeps).
    - The processor/model/post-processing pipeline, the screen and the file
      system are the environment ([Env]): an inference call takes the time
      and yields the outcome the environment gives it.  Opening an image,
      and drawing on and saving the annotated copy, fail when the
      environment says so; [glob] lists what the environment holds.  Screen
      capture and the click are taken to succeed; only model calls and
      sleeps take time. *)

From Stdlib Require Import ZArith NArith QArith List String Ascii Bool Lia Lqa.
Import ListNotations.

Set Implicit Arguments.
Set Warnings "-register-all".

(* ------------------------------------------------------------------ *)
(** * Python strings *)

Module PyStr.

Definition codepoint := N.
Definition pystr := list codepoint.

(** An ASCII literal as a Python string. *)
Definition lit (s : string) : pystr :=
  List.map N_of_ascii (list_ascii_of_string s).

(** [str.isspace] on one character: the code points CPython's
    [_PyUnicode_IsWhitespace] accepts. *)
Definition isspace (c : codepoint) : bool :=
  ((9 <=? c) && (c <=? 13) || (28 <=? c) && (c <=? 32)
   || (c =? 133) || (c =? 160) || (c =? 5760)
   || (8192 <=? c) && (c <=? 8202)
   || (c =? 8232) || (c =? 8233) || (c =? 8239) || (c =? 8287)
   || (c =? 12288))%N.

Fixpoint lstrip (s : pystr) : pystr :=
  match s with
  | c :: s' => if isspace c then lstrip s' else s
  | [] => []
  end.

Fixpoint rstrip (s : pystr) : pystr :=
  match s with
  | c :: s' =>
      match rstrip s' with
      | [] => if isspace c then [] else [c]
      | r => c :: r
      end
  | [] => []
  end.

(** [label.strip()] *)
Definition strip (s : pystr) : pystr := rstrip (lstrip s).

End PyStr.
Import PyStr.

(* ------------------------------------------------------------------ *)
(** * The fragment of [re] the script uses

    [SKIP_AD_PATTERNS] holds patterns of the form [(?i)] followed by
    literal lower-case ASCII letters.  Under [re.IGNORECASE] on a [str], a
    literal [lo] matches a character [ch] when the lower-case form of [ch]
    is [lo] or one of the characters that share [lo]'s upper case. *)

Module Re.

(** Lower-casing, restricted to the characters whose lower case is an ASCII
    letter: [A]..[Z], U+0130 (capital I with dot above) and U+212A (Kelvin
    sign).  Every other character is left alone; none of them lower-cases
    to an ASCII letter or to one of the [ignorecase_fixes] below. *)
Definition sre_lower (ch : codepoint) : codepoint :=
  (if (65 <=? ch) && (ch <=? 90) then ch + 32
   else if ch =? 304 then 105
   else if ch =? 8490 then 107
   else ch)%N.

(** Lower-case characters with the same upper case as an ASCII letter:
    dotless i (U+0131) for [i], long s (U+017F) for [s]. *)
Definition ignorecase_fixes (lo : codepoint) : list codepoint :=
  (if lo =? 105 then [305]
   else if lo =? 115 then [383]
   else [])%N.

Definition literal_ignore (lo ch : codepoint) : bool :=
  let l := sre_lower ch in
  (l =? lo)%N || existsb (N.eqb l) (ignorecase_fixes lo).

(** A compiled pattern: the lower-case literals after the [(?i)] flag. *)
Definition pattern := list codepoint.

(** [re.match]: the pattern matches at the start of [s]. *)
Fixpoint match_here (p : pattern) (s : pystr) : bool :=
  match p, s with
  | [], _ => true
  | _ :: _, [] => false
  | lo :: p', ch :: s' => literal_ignore lo ch && match_here p' s'
  end.

(** [re.search(pattern, s)] as a truth value: a match at some position. *)
Fixpoint search (p : pattern) (s : pystr) : bool :=
  match_here p s ||
  match s with
  | [] => false
  | _ :: s' => search p s'
  end.

End Re.

(* ------------------------------------------------------------------ *)
(** * Constants of the script *)

Definition GROUNDING_TASK : pystr := lit "<CAPTION_TO_PHRASE_GROUNDING>".

(** [SKIP_AD_PATTERNS = [r"(?i)skip"]] *)
Definition SKIP_AD_PATTERNS : list Re.pattern := [lit "skip"].

Definition MAX_BBOX_AREA : Z := 50000.

(* ------------------------------------------------------------------ *)
(** * Exceptions *)

Inductive PyExn : Type :=
| IndexError
| TypeError
| AttributeError
| ValueError
| OverflowError
| OSError
| JSONDecodeError
| RuntimeError
| KeyError
| UnboundLocalError
| KeyboardInterrupt
| SystemExit (code : Z).

(** [isinstance(e, Exception)]: everything but the two classes that derive
    from [BaseException] directly. *)
Definition is_Exception (e : PyExn) : bool :=
  match e with
  | KeyboardInterrupt | SystemExit _ => false
  | _ => true
  end.

(* ------------------------------------------------------------------ *)
(** * Values *)

(** What [json.load] returns.  An object keeps its members in document
    order; the dict built from it keeps the last value of a repeated key. *)
Inductive json : Type :=
| JNull
| JBool (b : bool)
| JNum (q : Q)
| JStr (s : pystr)
| JArr (items : list json)
| JObj (members : list (pystr * json)).

Definition pystr_eqb (a b : pystr) : bool :=
  if list_eq_dec N.eq_dec a b then true else false.

(** [d.get(key)] on the dict of an object: [None] when the key is absent. *)
Fixpoint dict_get (members : list (pystr * json)) (key : pystr) : option json :=
  match members with
  | [] => None
  | (k, v) :: rest =>
      match dict_get rest key with
      | Some v' => Some v'
      | None => if pystr_eqb k key then Some v else None
      end
  end.

(** Truth value of a JSON value, as [not x] sees it. *)
Definition truthy (v : json) : bool :=
  match v with
  | JNull => false
  | JBool b => b
  | JNum q => negb (Qeq_bool q 0)
  | JStr s => match s with [] => false | _ => true end
  | JArr items => match items with [] => false | _ => true end
  | JObj members => match members with [] => false | _ => true end
  end.

Record Path : Type := { dirname : string; basename : string }.

(** [os.path.join(dir, name)] *)
Definition path_join (dir name : string) : Path :=
  {| dirname := dir; basename := name |}.

(** A frame: the [k]-th screenshot of the run or an image file, with its
    native size. *)
Inductive Image : Type :=
| Screenshot (k : nat)
| FileImage (p : Path).

(** A bounding box as the post-processor returns it: a list of
    coordinates, [x1, y1, x2, y2] when well formed. *)
Definition Box := list Z.

(** The value under the task key of the parsed result; a missing
    ['bboxes'] or ['labels'] key is [None]. *)
Record GroundingResult : Type := {
  bboxes : option (list Box);
  labels : option (list pystr)
}.

(** One run of processor, [model.generate], [batch_decode] and
    [post_process_generation]: how long it took and what came out, an
    exception or the parsed result ([None] when it lacks the task key). *)
Record ModelResponse : Type := {
  latency : Q;
  output : PyExn + option GroundingResult
}.

(** The settings file on disk. *)
Inductive FileState : Type :=
| Absent
| Present (content : PyExn + json).
    (* [inl e]: [open] or [json.load] raises [e]; [inr v]: it parses to [v] *)

(** Live-mode result dictionary. *)
Record RunResult : Type := {
  status : string;
  message : string;
  clicked_at : option (option (Z * Z))   (* [None]: the key is absent *)
}.

(** Test-mode result record. *)
Record TestRecord : Type := {
  file : Path;
  detected : bool;
  position : option (Z * Z);
  bbox : option Box
}.

(* ------------------------------------------------------------------ *)
(** * Observable events *)

Inductive Msg : Type :=
| MsgSettingsMissing (settings_file : string)
| MsgCaptionNotFound
| MsgErrorLoadingSettings (e : PyExn)
| MsgIgnoringLarge (box : Box) (area : Z)
| MsgDetected (label : pystr) (center : Z * Z) (box : Box)
| MsgNoValidSkip
| MsgErrorDetecting (e : PyExn)
| MsgSavedImage (output_path : Path)
| MsgClicked (x y : Z)
| MsgVerify (success : bool) (message : string)
| MsgProcessing (img_path : Path)
| MsgNoDetectionFor (img_path : Path)
| MsgTestComplete (n_detected total : nat)
| MsgStartingLive (interval max_poll_seconds : Z)
| MsgNoButtonThisPoll
| MsgNoButtonWithin (max_poll_seconds : Z)
| MsgTestDirRequired
| MsgJsonResults (results : list TestRecord)
| MsgJsonResult (result : RunResult)
| MsgFatal (e : PyExn)
| MsgScriptEnded.

Inductive Event : Type :=
| EPrint (m : Msg)
| EMakedirs (dir : string)
| ECapture (k : nat)
| EOpenImage (p : Path)
| EInfer (prompt : pystr) (image : Image)
| ESave (image : Image) (box : Box) (output_path : Path)
| EClick (x y : Z)
| ESleep (seconds : Q)
| ELoadModel
| ELoadProcessor
| EGcCollect
| EEmptyCache.

Record World : Type := {
  clock : Q;             (* [time.time()] *)
  shots : nat;           (* screenshots taken so far *)
  trace : list Event     (* oldest first *)
}.

Record Env : Type := {
  grounding : pystr -> Image -> ModelResponse;
  timestamp : Q -> string;             (* [strftime("%Y%m%d_%H%M%S")] *)
  settings_json : FileState;           (* ["settings.json"] *)
  scandir : string -> list string;     (* entry names directly in a directory *)
  glob_expand : string -> list string; (* the paths a directory pattern matches *)
  normcase : string -> string;         (* [os.path.normcase]: identity on POSIX *)
  image_open : Path -> option PyExn;   (* [Some e]: [Image.open(..).convert] raises *)
  image_save : Image -> Box -> Path -> option PyExn;
                                       (* [Some e]: [draw.rectangle] or [image.save]
                                          raises *)
  cuda_available : bool;
  model_load : option PyExn;           (* [Some e]: [from_pretrained] raises *)
  processor_load : option PyExn
}.

(* ------------------------------------------------------------------ *)
(** * Computations: state, exceptions, and fuel for the polling loop *)

Inductive Outcome (A : Type) : Type :=
| Returns (a : A)
| Raises (e : PyExn)
| Diverges.              (* the loop fuel ran out *)

Arguments Returns {A} a.
Arguments Raises {A} e.
Arguments Diverges {A}.

Definition M (A : Type) : Type := World -> Outcome A * World.

Definition ret {A} (a : A) : M A := fun w => (Returns a, w).

Definition raise {A} (e : PyExn) : M A := fun w => (Raises e, w).

Definition bind {A B} (m : M A) (k : A -> M B) : M B :=
  fun w =>
    match m w with
    | (Returns a, w') => k a w'
    | (Raises e, w') => (Raises e, w')
    | (Diverges, w') => (Diverges, w')
    end.

Declare Scope py_scope.
Delimit Scope py_scope with py.
Notation "x <- m ;; k" := (bind m (fun x => k))
  (at level 61, m at next level, right associativity) : py_scope.
Notation "' p <- m ;; k" := (bind m (fun p => k))
  (at level 61, p pattern, m at next level, right associativity) : py_scope.
Notation "m ;; k" := (bind m (fun _ => k))
  (at level 61, right associativity) : py_scope.
Open Scope py_scope.

(** [try: body / except Exception as e: handler e] *)
Definition try_except_Exception {A} (body : M A) (handler : PyExn -> M A) : M A :=
  fun w =>
    match body w with
    | (Raises e, w') => if is_Exception e then handler e w' else (Raises e, w')
    | r => r
    end.

(** [try: body / finally: cleanup]: an exception of the cleanup replaces
    the outcome of the body. *)
Definition try_finally {A} (body : M A) (cleanup : M unit) : M A :=
  fun w =>
    match body w with
    | (Diverges, w') => (Diverges, w')
    | (o, w') =>
        match cleanup w' with
        | (Returns _, w'') => (o, w'')
        | (Raises e, w'') => (Raises e, w'')
        | (Diverges, w'') => (Diverges, w'')
        end
    end.

Definition emit (ev : Event) : M unit :=
  fun w => (Returns tt, {| clock := clock w; shots := shots w;
                           trace := trace w ++ [ev] |}).

Definition print (m : Msg) : M unit := emit (EPrint m).

(** [time.time()] *)
Definition time_time : M Q := fun w => (Returns (clock w), w).

(** [time.sleep(seconds)]: a negative length is a [ValueError]. *)
Definition time_sleep (seconds : Q) : M unit :=
  if Qle_bool 0 seconds then
    fun w => (Returns tt, {| clock := clock w + seconds; shots := shots w;
                             trace := trace w ++ [ESleep seconds] |})
  else raise ValueError.

(** [capture_screen()] *)
Definition capture_screen : M Image :=
  fun w => (Returns (Screenshot (shots w)),
            {| clock := clock w; shots := S (shots w);
               trace := trace w ++ [ECapture (shots w)] |}).

(** [process_image(image_path)]: [Image.open] and [convert] raise on an
    entry that cannot be read as an image. *)
Definition process_image (env : Env) (image_path : Path) : M Image :=
  emit (EOpenImage image_path) ;;
  match image_open env image_path with
  | Some e => raise e
  | None => ret (FileImage image_path)
  end.

(** [x[i]] on a list *)
Definition getitem {A} (x : list A) (i : nat) : M A :=
  match nth_error x i with
  | Some v => ret v
  | None => raise IndexError
  end.

(** [d.get(key, [])] on the parsed result *)
Definition get_default {A} (field : option (list A)) : list A :=
  match field with
  | Some l => l
  | None => []
  end.

(** The integer nearest to [m >= 0] among those with at most 53 significant
    bits, ties to the even significand: the value of the double nearest
    to [m]. *)
Definition round_to_double (m : Z) : Z :=
  let k := (Z.log2 m + 1 - 53)%Z in
  if (k <=? 0)%Z then m
  else
    let q := Z.shiftr m k in
    let r := (m - Z.shiftl q k)%Z in
    let half := Z.shiftl 1 (k - 1) in
    let q' := if (half <? r)%Z || ((r =? half)%Z && Z.odd q) then (q + 1)%Z else q in
    Z.shiftl q' k.

(** [int(n / 2)] for a Python int [n].  [n / 2] is the double nearest to the
    exact quotient, which is half the double nearest to [n];
    [OverflowError] when it is 2^1024 or more in absolute value.  [int]
    truncates toward zero. *)
Definition int_of_half (n : Z) : PyExn + Z :=
  let m := round_to_double (Z.abs n) in
  if (Z.shiftl 1 1025 <=? m)%Z then inl OverflowError
  else inr (Z.sgn n * (m / 2))%Z.

Definition int_div2 (n : Z) : M Z :=
  match int_of_half n with
  | inl e => raise e
  | inr v => ret v
  end.

Section WithEnv.

Variable env : Env.

(** Lines 63-75: the processor, [model.generate], [batch_decode] and
    [post_process_generation], as one call to the environment. *)
Definition run_grounding (prompt : pystr) (image : Image) : M (option GroundingResult) :=
  fun w =>
    let r := grounding env prompt image in
    let w' := {| clock := clock w + latency r; shots := shots w;
                 trace := trace w ++ [EInfer prompt image] |} in
    match output r with
    | inl e => (Raises e, w')
    | inr parsed => (Returns parsed, w')
    end.

(** The inner loop of lines 84-97 for one (box, label) pair: [Some] is the
    [return] of line 97, [None] is the loop running to its end.  The
    [continue] of line 90 goes on with the next pattern. *)
Fixpoint for_patterns (patterns : list Re.pattern) (box : Box) (label_stripped : pystr)
  : M (option ((Z * Z) * Box)) :=
  match patterns with
  | [] => ret None
  | pattern :: rest =>
      if Re.search pattern label_stripped then
        b2 <- getitem box 2 ;; b0 <- getitem box 0 ;;
        b3 <- getitem box 3 ;; b1 <- getitem box 1 ;;
        let area := ((b2 - b0) * (b3 - b1))%Z in
        if (area >? MAX_BBOX_AREA)%Z then
          print (MsgIgnoringLarge box area) ;;
          for_patterns rest box label_stripped
        else
          let detected_bbox := box in
          c0 <- getitem box 0 ;; c2 <- getitem box 2 ;;
          x_center <- int_div2 (c0 + c2) ;;
          c1 <- getitem box 1 ;; c3 <- getitem box 3 ;;
          y_center <- int_div2 (c1 + c3) ;;
          print (MsgDetected label_stripped (x_center, y_center) box) ;;
          ret (Some ((x_center, y_center), detected_bbox))
      else for_patterns rest box label_stripped
  end.

(** The outer loop of lines 82-97 over [zip(bboxes, labels)]. *)
Fixpoint for_pairs (pairs : list (Box * pystr)) : M (option ((Z * Z) * Box)) :=
  match pairs with
  | [] => ret None
  | (box, label) :: rest =>
      let label_stripped := strip label in
      r <- for_patterns SKIP_AD_PATTERNS box label_stripped ;;
      match r with
      | Some found => ret (Some found)
      | None => for_pairs rest
      end
  end.

(** [GROUNDING_TASK + grounding_caption]: [str + x] is a [TypeError] unless
    [x] is a [str]. *)
Definition make_prompt (grounding_caption : json) : M pystr :=
  match grounding_caption with
  | JStr s => ret (GROUNDING_TASK ++ s)
  | _ => raise TypeError
  end.

(** The body of the [try] block, lines 62-100. *)
Definition detect_body (grounding_caption : json) (image : Image)
  : M (option (Z * Z) * option Box) :=
  prompt <- make_prompt grounding_caption ;;
  parsed_result <- run_grounding prompt image ;;
  let bboxes := get_default (match parsed_result with
                             | Some g => bboxes g | None => None end) in
  let labels := get_default (match parsed_result with
                             | Some g => labels g | None => None end) in
  r <- for_pairs (combine bboxes labels) ;;
  match r with
  | Some (center, detected_bbox) => ret (Some center, Some detected_bbox)
  | None => print MsgNoValidSkip ;; ret (None, None)
  end.

Definition detect_skip_button (grounding_caption : json) (image : Image)
  : M (option (Z * Z) * option Box) :=
  try_except_Exception
    (detect_body grounding_caption image)
    (fun e => print (MsgErrorDetecting e) ;; ret (None, None)).

End WithEnv.

(* ------------------------------------------------------------------ *)
(** * Drawing, clicking, verifying *)

(** Truth value of a detected box ([if bbox:]): not [None], not empty. *)
Definition box_truthy (bbox : option Box) : bool :=
  match bbox with
  | Some (_ :: _) => true
  | _ => false
  end.

(** [bbox is None] *)
Definition is_None {A} (x : option A) : bool :=
  match x with
  | None => true
  | Some _ => false
  end.

(** [draw_bbox_on_image]: the unpacking [x1, y1, x2, y2 = bbox] is a
    [ValueError] unless the box has exactly four coordinates; drawing the
    rectangle and saving the image raise when the environment says so, and
    [ESave] records a copy that was written. *)
Definition draw_bbox_on_image (env : Env) (image : Image) (bbox : option Box)
    (output_path : Path) : M unit :=
  if box_truthy bbox then
    match bbox with
    | Some [x1; y1; x2; y2] =>
        match image_save env image [x1; y1; x2; y2] output_path with
        | Some e => raise e
        | None =>
            emit (ESave image [x1; y1; x2; y2] output_path) ;;
            print (MsgSavedImage output_path)
        end
    | _ => raise ValueError
    end
  else ret tt.

(** [skip_ad_action]: a position is a 2-tuple, true whenever it is not
    [None]. *)
Definition skip_ad_action (position : option (Z * Z)) : M unit :=
  match position with
  | Some (x, y) => emit (EClick x y) ;; print (MsgClicked x y)
  | None => ret tt
  end.

Definition VERIFY_DELAY : Q := 2.

Definition MSG_SKIPPED : string := "Ad skipped successfully!".
Definition MSG_STILL_PRESENT : string :=
  "Clicked, but 'Skip' button may still be present—manual check needed.".
Definition MSG_TIME_LIMIT : string :=
  "No skip ad button detected within time limit. Try again?".

Section Modes.

Variable env : Env.

Definition verify_skip_success (grounding_caption : json) : M (string * string) :=
  time_sleep VERIFY_DELAY ;;
  image <- capture_screen ;;
  '(position, bbox) <- detect_skip_button env grounding_caption image ;;
  let success := is_None bbox in
  let status := if success then "success"%string else "partial"%string in
  let message := if success then MSG_SKIPPED else MSG_STILL_PRESENT in
  print (MsgVerify success message) ;;
  ret (status, message).

(* ---------------------------------------------------------------- *)
(** ** Test mode *)

(** [_ishidden]: the name starts with a dot. *)
Definition ishidden (name : string) : bool := String.prefix "." name.

(** [fnmatch] of a name against ["*" + ext], case-sensitive as on POSIX:
    the name ends with [ext]. *)
Definition ends_with (ext name : string) : bool :=
  let n := String.length name in
  let m := String.length ext in
  (m <=? n)%nat && String.eqb (String.substring (n - m) m name) ext.

(** [glob.has_magic]: the string holds one of [*], [?] and [[]. *)
Fixpoint has_magic (s : string) : bool :=
  match s with
  | EmptyString => false
  | String c rest =>
      Ascii.eqb c "*" || Ascii.eqb c "?" || Ascii.eqb c "[" || has_magic rest
  end.

(** The directories [glob] lists for the directory part of the pattern: the
    part itself, or what it matches when it holds a metacharacter. *)
Definition glob_dirs (dir : string) : list string :=
  if has_magic dir then glob_expand env dir else [dir].

(** [glob.glob(os.path.join(dir, "*" + ext))]: in each of the directories,
    the entries directly in it, hidden ones dropped, whose name matches the
    pattern once [os.path.normcase] has been applied to it, in enumeration
    order. *)
Definition glob_ext (dir ext : string) : list Path :=
  List.flat_map
    (fun d =>
       List.map (path_join d)
         (List.filter (fun name => ends_with ext (normcase env name))
            (List.filter (fun name => negb (ishidden name)) (scandir env d))))
    (glob_dirs dir).

(** The body of the [for img_path in image_files] loop, lines 139-148. *)
Definition test_one (grounding_caption : json) (output_dir : string) (img_path : Path)
  : M TestRecord :=
  print (MsgProcessing img_path) ;;
  image <- process_image env img_path ;;
  '(position, bbox) <- detect_skip_button env grounding_caption image ;;
  let result := {| file := img_path; detected := negb (is_None bbox);
                   position := position; bbox := bbox |} in
  (if box_truthy bbox then
     let output_path := path_join output_dir ("output_" ++ basename img_path) in
     draw_bbox_on_image env image bbox output_path
   else print (MsgNoDetectionFor img_path)) ;;
  ret result.

Fixpoint test_loop (grounding_caption : json) (output_dir : string)
    (image_files : list Path) (results : list TestRecord) : M (list TestRecord) :=
  match image_files with
  | [] => ret results
  | img_path :: rest =>
      result <- test_one grounding_caption output_dir img_path ;;
      test_loop grounding_caption output_dir rest (results ++ [result])
  end.

(** [sum(1 for r in results if r['detected'])] *)
Definition count_detected (results : list TestRecord) : nat :=
  List.length (List.filter detected results).

Definition run_test_mode (grounding_caption : json) (test_dir output_dir : string)
  : M (list TestRecord) :=
  emit (EMakedirs output_dir) ;;
  let image_files := glob_ext test_dir ".png" ++ glob_ext test_dir ".jpg" in
  results <- test_loop grounding_caption output_dir image_files [] ;;
  print (MsgTestComplete (count_detected results) (List.length results)) ;;
  ret results.

(* ---------------------------------------------------------------- *)
(** ** Live mode *)

Definition Qlt_bool (x y : Q) : bool := negb (Qle_bool y x).

(** The [while] loop of lines 162-176; it returns
    [(button_found, click_position)].  [fuel] bounds the number of
    iterations the model follows. *)
Fixpoint poll_loop (fuel : nat) (grounding_caption : json) (interval max_poll_seconds : Z)
    (output_dir : string) (start_time : Q) : M (bool * option (Z * Z)) :=
  match fuel with
  | O => fun w => (Diverges, w)
  | S fuel' =>
      now <- time_time ;;
      if Qlt_bool (now - start_time) (inject_Z max_poll_seconds) then
        image <- capture_screen ;;
        '(position, bbox) <- detect_skip_button env grounding_caption image ;;
        if box_truthy bbox then
          stamp <- time_time ;;
          let output_path :=
            path_join output_dir ("detection_" ++ timestamp env stamp ++ ".png") in
          draw_bbox_on_image env image bbox output_path ;;
          ret (true, position)
        else
          print MsgNoButtonThisPoll ;;
          time_sleep (inject_Z interval) ;;
          poll_loop fuel' grounding_caption interval max_poll_seconds output_dir start_time
      else ret (false, None)
  end.

Definition run_live_mode (fuel : nat) (grounding_caption : json)
    (interval max_poll_seconds : Z) (output_dir : string) : M RunResult :=
  emit (EMakedirs output_dir) ;;
  start_time <- time_time ;;
  print (MsgStartingLive interval max_poll_seconds) ;;
  '(button_found, click_position) <-
     poll_loop fuel grounding_caption interval max_poll_seconds output_dir start_time ;;
  if negb button_found then
    print (MsgNoButtonWithin max_poll_seconds) ;;
    ret {| status := "partial"; message := MSG_TIME_LIMIT; clicked_at := None |}
  else
    skip_ad_action click_position ;;
    '(status, message) <- verify_skip_success grounding_caption ;;
    ret {| status := status; message := message; clicked_at := Some click_position |}.

End Modes.

(* ------------------------------------------------------------------ *)
(** * Settings and [main] *)

Inductive Mode : Type := TestMode | LiveMode.

(** The parsed command line. *)
Record Args : Type := {
  mode : Mode;
  test_dir : option string;
  output_dir : string;
  interval : Z;
  max_poll_seconds : Z
}.

Section Main.

Variable env : Env.

(** [settings.get('grounding_caption')] on whatever [json.load] returned:
    only a dict has [get]. *)
Definition settings_get (settings : json) (key : pystr) : M (option json) :=
  match settings with
  | JObj members => ret (dict_get members key)
  | _ => raise AttributeError
  end.

(** [not x] for the result of [dict.get] *)
Definition falsy (x : option json) : bool :=
  match x with
  | None => true
  | Some v => negb (truthy v)
  end.

Definition load_settings : M (option json) :=
  try_except_Exception
    (match settings_json env with
     | Absent =>
         print (MsgSettingsMissing "settings.json") ;; ret None
     | Present content =>
         settings <- match content with
                     | inl e => raise e
                     | inr v => ret v
                     end ;;
         caption <- settings_get settings (lit "grounding_caption") ;;
         if falsy caption then
           print MsgCaptionNotFound ;; ret None
         else ret (Some settings)
     end)
    (fun e => print (MsgErrorLoadingSettings e) ;; ret None).

(** [sys.exit(code)] *)
Definition sys_exit {A} (code : Z) : M A := raise (SystemExit code).

(** [settings['grounding_caption']] *)
Definition settings_getitem (settings : json) (key : pystr) : M json :=
  match settings with
  | JObj members =>
      match dict_get members key with
      | Some v => ret v
      | None => raise KeyError
      end
  | _ => raise TypeError
  end.

(** [from_pretrained]: the event, then the exception if the load fails. *)
Definition load (ev : Event) (failure : option PyExn) : M unit :=
  emit ev ;;
  match failure with
  | Some e => raise e
  | None => ret tt
  end.

(** [del name] for a local that is bound only once its load succeeded. *)
Definition del_local (bound : bool) : M unit :=
  if bound then ret tt else raise UnboundLocalError.

(** [main], lines 190-232, from the parsed command line on.  [model] and
    [processor] are locals bound by their loads, so the [del] statements
    of the [finally] block raise when a load did not succeed. *)
Definition main (fuel : nat) (args : Args) : M unit :=
  settings <- load_settings ;;
  match settings with
  | None => sys_exit 1
  | Some settings =>
      if negb (truthy settings) then sys_exit 1 else
      grounding_caption <- settings_getitem settings (lit "grounding_caption") ;;
      try_finally
        (try_except_Exception
           (load ELoadModel (model_load env) ;;
            load ELoadProcessor (processor_load env) ;;
            match mode args with
            | TestMode =>
                match test_dir args with
                | None | Some EmptyString =>
                    print MsgTestDirRequired ;; sys_exit 1
                | Some dir =>
                    results <- run_test_mode env grounding_caption dir (output_dir args) ;;
                    print (MsgJsonResults results)
                end
            | LiveMode =>
                result <- run_live_mode env fuel grounding_caption (interval args)
                            (max_poll_seconds args) (output_dir args) ;;
                print (MsgJsonResult result)
            end)
           (fun e => print (MsgFatal e) ;; sys_exit 1))
        (del_local (is_None (model_load env)) ;;
         del_local (is_None (model_load env) && is_None (processor_load env)) ;;
         emit EGcCollect ;;
         (if cuda_available env then emit EEmptyCache else ret tt) ;;
         print MsgScriptEnded)
  end.

End Main.

(** The world a process starts in. *)
Definition boot (t0 : Q) : World := {| clock := t0; shots := 0; trace := [] |}.

(** The detection for an image, as a value: what [detect_skip_button]
    hands back when run from the initial world. *)
Definition detection (env : Env) (grounding_caption : json) (image : Image)
  : Outcome (option (Z * Z) * option Box) :=
  fst (detect_skip_button env grounding_caption image (boot 0)).

(* ------------------------------------------------------------------ *)
(** * Vocabulary of the properties *)

(** A label matches the skip pattern: some pattern of [SKIP_AD_PATTERNS]
    is found in the trimmed label. *)
Definition matches_skip (label : pystr) : bool :=
  existsb (fun pattern => Re.search pattern (strip label)) SKIP_AD_PATTERNS.

(** [(x2 - x1) * (y2 - y1)], defined when the four coordinates exist. *)
Definition bbox_area (box : Box) : option Z :=
  match box with
  | x1 :: y1 :: x2 :: y2 :: _ => Some ((x2 - x1) * (y2 - y1))%Z
  | _ => None
  end.

(** The center of lines 94-95, defined when the four coordinates exist and
    both divisions stay within the range of a double. *)
Definition bbox_center (box : Box) : option (Z * Z) :=
  match box with
  | x1 :: y1 :: x2 :: y2 :: _ =>
      match int_of_half (x1 + x2), int_of_half (y1 + y2) with
      | inr x_center, inr y_center => Some (x_center, y_center)
      | _, _ => None
      end
  | _ => None
  end.

(** The pair passes the filter: matching label, area within the bound. *)
Definition qualifies (pair : Box * pystr) : bool :=
  matches_skip (snd pair) &&
  match bbox_area (fst pair) with
  | Some area => (area <=? MAX_BBOX_AREA)%Z
  | None => false
  end.

(** The pair is passed over: no match, or a match with too large an area. *)
Definition passed_over (pair : Box * pystr) : bool :=
  negb (matches_skip (snd pair)) ||
  match bbox_area (fst pair) with
  | Some area => (area >? MAX_BBOX_AREA)%Z
  | None => false
  end.

(** The pairs the filter scans for a prompt and an image: [zip(bboxes,
    labels)] of the model's answer, or nothing when the call fails. *)
Definition model_pairs (env : Env) (prompt : pystr) (image : Image) : list (Box * pystr) :=
  match output (grounding env prompt image) with
  | inr (Some g) => combine (get_default (bboxes g)) (get_default (labels g))
  | _ => []
  end.

(** The pairs scanned for a caption: none unless the caption is a string. *)
Definition caption_pairs (env : Env) (grounding_caption : json) (image : Image)
  : list (Box * pystr) :=
  match grounding_caption with
  | JStr s => model_pairs env (GROUNDING_TASK ++ s) image
  | _ => []
  end.

(** Case-insensitive containment as a reader of the specification
    understands it: the lower-cased needle occurs in the lower-cased
    text. *)
Fixpoint starts_with (needle text : pystr) : bool :=
  match needle, text with
  | [], _ => true
  | _ :: _, [] => false
  | a :: needle', b :: text' => (a =? b)%N && starts_with needle' text'
  end.

Fixpoint contains (needle text : pystr) : bool :=
  starts_with needle text ||
  match text with
  | [] => false
  | _ :: text' => contains needle text'
  end.

Definition contains_ci (needle text : pystr) : bool :=
  contains (List.map Re.sre_lower needle) (List.map Re.sre_lower text).

(** The world [w'] is [w] after the events [t], the clock and the
    screenshot count untouched. *)
Definition logged (w w' : World) (t : list Event) : Prop :=
  clock w' = clock w /\ shots w' = shots w /\ trace w' = trace w ++ t.

Definition is_click (ev : Event) : bool :=
  match ev with
  | EClick _ _ => true
  | _ => false
  end.

Definition is_load (ev : Event) : bool :=
  match ev with
  | ELoadModel | ELoadProcessor => true
  | _ => false
  end.

(** Number of clicks in a trace. *)
Definition clicks (t : list Event) : nat := List.length (List.filter is_click t).

(* ------------------------------------------------------------------ *)
(** * Sample environments *)

Module Sample.

Definition answer (seconds : Q) (boxes : list Box) (names : list pystr) : ModelResponse :=
  {| latency := seconds;
     output := inr (Some {| bboxes := Some boxes; labels := Some names |}) |}.

Definition failing (seconds : Q) (e : PyExn) : ModelResponse :=
  {| latency := seconds; output := inl e |}.

(** An environment around a grounding function; no settings file, empty
    directories, loads succeed. *)
Definition env_of (g : pystr -> Image -> ModelResponse) : Env :=
  {| grounding := g;
     timestamp := fun _ => "19700101_000000"%string;
     settings_json := Absent;
     scandir := fun _ => [];
     glob_expand := fun _ => [];
     normcase := fun name => name;
     image_open := fun _ => None;
     image_save := fun _ _ _ => None;
     cuda_available := false;
     model_load := None;
     processor_load := None |}.

(** The model always answers one small box labelled "Skip". *)
Definition skip_box : Box := [100; 200; 120; 210]%Z.
Definition env_skip : Env :=
  env_of (fun _ _ => answer 0 [skip_box] [lit "Skip"]).


(** The model call raises. *)
Definition env_model_error : Env :=
  env_of (fun _ _ => failing 0 RuntimeError).

(** Malformed output: a matching label on a box with three coordinates. *)
Definition env_malformed : Env :=
  env_of (fun _ _ => answer 0 [[1; 2; 3]%Z; skip_box] [lit "skip"; lit "skip"]).

(** A box whose label has nothing to do with skipping. *)
Definition env_close : Env :=
  env_of (fun _ _ => answer 0 [skip_box] [lit "Close ad"]).

(** The operator interrupts the model call. *)
Definition env_interrupt : Env :=
  env_of (fun _ _ => failing 0 KeyboardInterrupt).

(** A model that takes ten seconds per call and never sees a button. *)
Definition env_slow : Env :=
  env_of (fun _ _ => answer 10 [] []).

End Sample.

(** The scan of lines 82-97 as a function of the pairs alone. *)
Fixpoint scan (pairs : list (Box * pystr)) : Outcome (option ((Z * Z) * Box)) :=
  match pairs with
  | [] => Returns None
  | (box, label) :: rest =>
      if matches_skip label then
        match bbox_area box with
        | Some area =>
            if (area >? MAX_BBOX_AREA)%Z then scan rest
            else match bbox_center box with
                 | Some center => Returns (Some (center, box))
                 | None => Raises OverflowError
                 end
        | None => Raises IndexError
        end
      else scan rest
  end.

(** What the [try] block of a detection comes to, as a function of the
    model's answer. *)
Definition body_outcome (env : Env) (grounding_caption : json) (image : Image)
  : Outcome (option (Z * Z) * option Box) :=
  match grounding_caption with
  | JStr s =>
      match output (grounding env (GROUNDING_TASK ++ s) image) with
      | inl e => Raises e
      | inr _ =>
          match scan (model_pairs env (GROUNDING_TASK ++ s) image) with
          | Returns (Some (center, box)) => Returns (Some center, Some box)
          | Returns None => Returns (None, None)
          | Raises e => Raises e
          | Diverges => Diverges
          end
      end
  | _ => Raises TypeError
  end.

(** The detection: the body with its exceptions caught. *)
Definition select (env : Env) (grounding_caption : json) (image : Image)
  : Outcome (option (Z * Z) * option Box) :=
  match body_outcome env grounding_caption image with
  | Raises e => if is_Exception e then Returns (None, None) else Raises e
  | r => r
  end.

(** Events of a detection call: prints and the model call. *)
Definition is_quiet (ev : Event) : bool :=
  match ev with
  | EPrint _ | EInfer _ _ => true
  | _ => false
  end.

(** The time a detection call takes: the latency of the model call, which
    is made when the caption is a string. *)
Definition detection_time (env : Env) (grounding_caption : json) (image : Image) : Q :=
  match grounding_caption with
  | JStr s => latency (grounding env (GROUNDING_TASK ++ s) image)
  | _ => 0
  end.

(** A fruitless iteration of the polling loop takes [d] seconds or more:
    the sleep does, or the model call does, which is made when the caption
    is a string. *)
Definition iteration_takes (env : Env) (grounding_caption : json) (interval : Z) (d : Q)
  : Prop :=
  d <= inject_Z interval \/
  exists s, grounding_caption = JStr s /\
            forall prompt image, d <= latency (grounding env prompt image).

(* ------------------------------------------------------------------ *)
(** * One iteration of the polling loop *)

Section PollSteps.

Variable env : Env.
Variable grounding_caption : json.
Variables interval max_poll_seconds : Z.
Variable output_dir : string.
Variable start_time : Q.

(** The loop condition in world [w]. *)
Definition polling (w : World) : bool :=
  Qlt_bool (clock w - start_time) (inject_Z max_poll_seconds).

(** [w2] is [w] after one capture and the detection on it, whose events
    are [t]. *)
Definition polled (w w2 : World) (t : list Event) : Prop :=
  trace w2 = trace w ++ ECapture (shots w) :: t /\
  forallb is_quiet t = true /\
  shots w2 = S (shots w) /\
  clock w2 == clock w + detection_time env grounding_caption (Screenshot (shots w)).

(** The world after the print and the sleep that end a fruitless poll. *)
Definition slept (w2 : World) : World :=
  {| clock := clock w2 + inject_Z interval;
     shots := shots w2;
     trace := (trace w2 ++ [EPrint MsgNoButtonThisPoll]) ++ [ESleep (inject_Z interval)] |}.

(** What an iteration started in [w] comes to, the rest of the loop being
    [rest]. *)
Inductive PollStep (rest : M (bool * option (Z * Z))) (w : World)
  : Outcome (bool * option (Z * Z)) * World -> Prop :=
| PollTimeout :
    polling w = false ->
    PollStep rest w (Returns (false, None), w)
| PollFound center box w2 t w3 saved :
    polling w = true ->
    polled w w2 t ->
    select env grounding_caption (Screenshot (shots w)) = Returns (Some center, Some box) ->
    bbox_center box = Some center ->
    List.length box = 4%nat ->
    clock w3 = clock w2 -> shots w3 = shots w2 ->
    trace w3 = trace w2 ++ [ESave (Screenshot (shots w)) box saved; EPrint (MsgSavedImage saved)] ->
    image_save env (Screenshot (shots w)) box saved = None ->
    PollStep rest w (Returns (true, Some center), w3)
| PollCannotDraw center box w2 t :
    polling w = true ->
    polled w w2 t ->
    select env grounding_caption (Screenshot (shots w)) = Returns (Some center, Some box) ->
    List.length box <> 4%nat ->
    PollStep rest w (Raises ValueError, w2)
| PollAgain w2 t :
    polling w = true ->
    polled w w2 t ->
    select env grounding_caption (Screenshot (shots w)) = Returns (None, None) ->
    Qle_bool 0 (inject_Z interval) = true ->
    PollStep rest w (rest (slept w2))
| PollCannotSleep w2 t w3 :
    polling w = true ->
    polled w w2 t ->
    select env grounding_caption (Screenshot (shots w)) = Returns (None, None) ->
    Qle_bool 0 (inject_Z interval) = false ->
    clock w3 = clock w2 -> shots w3 = shots w2 ->
    trace w3 = trace w2 ++ [EPrint MsgNoButtonThisPoll] ->
    PollStep rest w (Raises ValueError, w3)
| PollInterrupted e w2 t :
    polling w = true ->
    polled w w2 t ->
    select env grounding_caption (Screenshot (shots w)) = Raises e ->
    PollStep rest w (Raises e, w2)
| PollCannotSave e center box w2 t saved :
    polling w = true ->
    polled w w2 t ->
    select env grounding_caption (Screenshot (shots w)) = Returns (Some center, Some box) ->
    List.length box = 4%nat ->
    image_save env (Screenshot (shots w)) box saved = Some e ->
    PollStep rest w (Raises e, w2).

End PollSteps.

(** The world in which the polling loop of a live run starts. *)
Definition live_entry (w : World) (interval max_poll_seconds : Z) (output_dir : string)
  : World :=
  {| clock := clock w; shots := shots w;
     trace := (trace w ++ [EMakedirs output_dir])
              ++ [EPrint (MsgStartingLive interval max_poll_seconds)] |}.

(** The world after the click at a position. *)
Definition clicked (w : World) (position : Z * Z) : World :=
  {| clock := clock w; shots := shots w;
     trace := (trace w ++ [EClick (fst position) (snd position)])
              ++ [EPrint (MsgClicked (fst position) (snd position))] |}.

(** The result of a live run that found nothing in time. *)
Definition timed_out : RunResult :=
  {| status := "partial"; message := MSG_TIME_LIMIT; clicked_at := None |}.

(** The settings files the loader turns down: missing, not valid JSON,
    no caption, or an empty caption. *)
Inductive BadSettings : FileState -> Prop :=
| SettingsMissing :
    BadSettings Absent
| SettingsNotJson :
    BadSettings (Present (inl JSONDecodeError))
| SettingsNoCaption members :
    dict_get members (lit "grounding_caption") = None ->
    BadSettings (Present (inr (JObj members)))
| SettingsEmptyCaption members :
    dict_get members (lit "grounding_caption") = Some (JStr []) ->
    BadSettings (Present (inr (JObj members))).


(** A test-mode record and the file it was made from. *)
Definition recorded (env : Env) (grounding_caption : json)
    (rec : TestRecord) (p : Path) : Prop :=
  file rec = p /\
  select env grounding_caption (FileImage p) = Returns (position rec, bbox rec) /\
  detected rec = negb (is_None (bbox rec)).

(** The file can be processed and annotated: it opens as an image, the
    detection on it comes back, and a box it carries has four coordinates
    and can be drawn and saved under the name of line 145. *)
Definition drawable (env : Env) (grounding_caption : json) (output_dir : string)
    (p : Path) : Prop :=
  image_open env p = None /\
  exists position box,
    select env grounding_caption (FileImage p) = Returns (position, box) /\
    forall b, box = Some b ->
      List.length b = 4%nat /\
      image_save env (FileImage p) b
        (path_join output_dir ("output_" ++ basename p)) = None.

(** The files test mode enumerates in a directory. *)
Definition image_files_of (env : Env) (test_dir : string) : list Path :=
  glob_ext env test_dir ".png" ++ glob_ext env test_dir ".jpg".

Module SampleFiles.

Import Sample.

Definition with_settings (f : FileState) : Env :=
  {| grounding := grounding env_skip;
     timestamp := timestamp env_skip;
     settings_json := f;
     scandir := scandir env_skip;
     glob_expand := glob_expand env_skip;
     normcase := normcase env_skip;
     image_open := image_open env_skip;
     image_save := image_save env_skip;
     cuda_available := false;
     model_load := None;
     processor_load := None |}.

(** [{"caption": "Skip"}]: the required key is missing. *)
Definition no_caption : FileState :=
  Present (inr (JObj [(lit "caption", JStr (lit "Skip"))])).

(** [{"grounding_caption": ""}] *)
Definition empty_caption : FileState :=
  Present (inr (JObj [(lit "grounding_caption", JStr [])])).

Definition live_args : Args :=
  {| mode := LiveMode; test_dir := None; output_dir := "test_outputs";
     interval := 3; max_poll_seconds := 30 |}.

(** A directory with three images, a note, a hidden image and a
    sub-directory; the model sees a "Skip" box in the first two images. *)
Definition listing : list string :=
  ["a.png"; "notes.txt"; "b.jpg"; ".hidden.png"; "c.png"; "more"]%string.

Definition env_dir : Env :=
  {| grounding := fun _ image =>
       match image with
       | FileImage {| dirname := _; basename := "c.png"%string |} => answer 0 [] []
       | _ => answer 0 [[10; 10; 20; 20]%Z] [lit "Skip"]
       end;
     timestamp := timestamp env_skip;
     settings_json := Absent;
     scandir := fun dir => if String.eqb dir "shots" then listing else [];
     glob_expand := fun _ => [];
     normcase := fun name => name;
     image_open := fun _ => None;
     image_save := fun _ _ _ => None;
     cuda_available := false;
     model_load := None;
     processor_load := None |}.

End SampleFiles.

(* ------------------------------------------------------------------ *)
(** * Vocabulary of the further properties *)

(** Events of a run that works on files only: prints, directory creation,
    opening an image, the model call, saving an annotated copy. *)
Definition is_offline (ev : Event) : bool :=
  match ev with
  | EPrint _ | EMakedirs _ | EOpenImage _ | EInfer _ _ | ESave _ _ _ => true
  | _ => false
  end.

(** The paths images were saved to, oldest first. *)
Definition saved_paths (t : list Event) : list Path :=
  List.flat_map (fun ev => match ev with
                           | ESave _ _ p => [p]
                           | _ => []
                           end) t.

(** The images that were opened, oldest first. *)
Definition opened_paths (t : list Event) : list Path :=
  List.flat_map (fun ev => match ev with
                           | EOpenImage p => [p]
                           | _ => []
                           end) t.

(** The annotated copy test mode writes for a file (line 145). *)
Definition annotated (output_dir : string) (img_path : Path) : Path :=
  path_join output_dir ("output_" ++ basename img_path).

Definition is_infer (ev : Event) : bool :=
  match ev with
  | EInfer _ _ => true
  | _ => false
  end.

(** Number of model calls in a trace. *)
Definition infers (t : list Event) : nat := List.length (List.filter is_infer t).

(** The settings file parses to an object whose [grounding_caption] is
    [caption], a value that counts as true. *)
Definition accepted_settings (env : Env) (members : list (pystr * json)) (caption : json)
  : Prop :=
  settings_json env = Present (inr (JObj members)) /\
  dict_get members (lit "grounding_caption") = Some caption /\
  truthy caption = true.

(** The world [w] after the events [t]. *)
Definition extended (w : World) (t : list Event) : World :=
  {| clock := clock w; shots := shots w; trace := trace w ++ t |}.

(** The world after both loads of line 208 and line 210 went through. *)
Definition loaded (w : World) : World :=
  {| clock := clock w; shots := shots w;
     trace := (trace w ++ [ELoadModel]) ++ [ELoadProcessor] |}.

(** Lines 212-220: what [main] runs between the loads and the handlers. *)
Definition dispatch (env : Env) (fuel : nat) (grounding_caption : json) (args : Args)
  : M unit :=
  match mode args with
  | TestMode =>
      match test_dir args with
      | None | Some EmptyString => print MsgTestDirRequired ;; sys_exit 1
      | Some dir =>
          results <- run_test_mode env grounding_caption dir (output_dir args) ;;
          print (MsgJsonResults results)
      end
  | LiveMode =>
      result <- run_live_mode env fuel grounding_caption (interval args)
                  (max_poll_seconds args) (output_dir args) ;;
      print (MsgJsonResult result)
  end.

(** The events of the [finally] block of [main] when both [del] statements
    go through: lines 229-232. *)
Definition cleanup_events (env : Env) : list Event :=
  EGcCollect :: (if cuda_available env then [EEmptyCache] else [])
  ++ [EPrint MsgScriptEnded].

(** What the handler of line 222 adds to the trace for an exception. *)
Definition fatal_events (e : PyExn) : list Event :=
  if is_Exception e then [EPrint (MsgFatal e)] else [].

(** The exception [main] ends with when its [try] block raised [e]. *)
Definition exit_of (e : PyExn) : PyExn :=
  if is_Exception e then SystemExit 1 else e.

Module SampleRuns.

Import Sample.

(** [{"grounding_caption": "Skip"}] *)
Definition skip_settings : FileState :=
  Present (inr (JObj [(lit "grounding_caption", JStr (lit "Skip"))])).

(** An environment with the settings above, a grounding function and the
    outcome of the two loads. *)
Definition configured (g : pystr -> Image -> ModelResponse)
    (model processor : option PyExn) : Env :=
  {| grounding := g;
     timestamp := fun _ => "19700101_000000"%string;
     settings_json := skip_settings;
     scandir := fun _ => [];
     glob_expand := fun _ => [];
     normcase := fun name => name;
     image_open := fun _ => None;
     image_save := fun _ _ _ => None;
     cuda_available := true;
     model_load := model;
     processor_load := processor |}.

Definition test_args (dir : option string) : Args :=
  {| mode := TestMode; test_dir := dir; output_dir := "test_outputs";
     interval := 3; max_poll_seconds := 30 |}.

Definition live_args (interval max_poll_seconds : Z) : Args :=
  {| mode := LiveMode; test_dir := None; output_dir := "test_outputs";
     interval := interval; max_poll_seconds := max_poll_seconds |}.




(** The parsed result lacks the ['labels'] key. *)
Definition env_no_labels : Env :=
  env_of (fun _ _ => {| latency := 0;
                        output := inr (Some {| bboxes := Some [skip_box];
                                               labels := None |}) |}).

End SampleRuns.

(* ================================================================== *)
(** * Properties *)

Unset Implicit Arguments.

Lemma logged_refl w : logged w w [].
Proof. unfold logged. now rewrite app_nil_r. Qed.

Lemma logged_trans w1 w2 w3 t1 t2 :
  logged w1 w2 t1 -> logged w2 w3 t2 -> logged w1 w3 (t1 ++ t2).
Proof.
  unfold logged. intros (c1 & s1 & r1) (c2 & s2 & r2).
  repeat split; try congruence. now rewrite r2, r1, app_assoc.
Qed.

Lemma logged_emit w ev : logged w (snd (emit ev w)) [ev].
Proof. unfold logged; simpl; auto. Qed.

(** The only failure of the midpoint is the overflow of the division. *)
Lemma int_of_half_error n e : int_of_half n = inl e -> e = OverflowError.
Proof.
  unfold int_of_half. destruct (_ <=? _)%Z; [|discriminate].
  intros H. injection H as <-. reflexivity.
Qed.


(** The inner loop only prints; what it hands back depends on the patterns,
    the box and the label alone. *)
Lemma for_patterns_run patterns box l :
  forall w, exists msgs,
    logged w (snd (for_patterns patterns box l w)) (List.map EPrint msgs) /\
    fst (for_patterns patterns box l w) =
      if existsb (fun p => Re.search p l) patterns then
        match bbox_area box with
        | Some area =>
            if (area >? MAX_BBOX_AREA)%Z then Returns None
            else match bbox_center box with
                 | Some center => Returns (Some (center, box))
                 | None => Raises OverflowError
                 end
        | None => Raises IndexError
        end
      else Returns None.
Proof.
  induction patterns as [|p rest IH]; intros w.
  - exists []. split; [apply logged_refl | reflexivity].
  - simpl. destruct (Re.search p l) eqn:Hs; simpl.
    + destruct box as [|x1 [|y1 [|x2 [|y2 more]]]];
        try (exists []; split; [apply logged_refl | reflexivity]).
      cbv [bind getitem nth_error ret print emit int_div2 raise].
      destruct ((x2 - x1) * (y2 - y1) >? MAX_BBOX_AREA)%Z eqn:Ha.
      * match goal with |- context [for_patterns rest _ _ ?w1] =>
          destruct (IH w1) as (msgs & Hl & Hr) end.
        exists (MsgIgnoringLarge (x1 :: y1 :: x2 :: y2 :: more)
                  ((x2 - x1) * (y2 - y1)) :: msgs).
        split.
        -- change (List.map EPrint (?m :: msgs)) with ([EPrint m] ++ List.map EPrint msgs).
           eapply logged_trans; [|exact Hl]. apply (logged_emit w).
        -- rewrite Hr. simpl. rewrite Ha.
           destruct (existsb _ rest); reflexivity.
      * cbn [bbox_area bbox_center]. rewrite Ha.
        destruct (int_of_half (x1 + x2)) as [ex | cx] eqn:Hx.
        { rewrite (int_of_half_error _ _ Hx).
          exists []. split; [apply logged_refl | reflexivity]. }
        destruct (int_of_half (y1 + y2)) as [ey | cy] eqn:Hy.
        { rewrite (int_of_half_error _ _ Hy).
          exists []. split; [apply logged_refl | reflexivity]. }
        exists [MsgDetected l (cx, cy) (x1 :: y1 :: x2 :: y2 :: more)].
        split; [unfold logged; simpl; auto | reflexivity].
    + apply IH.
Qed.

Lemma for_pairs_cons box label rest :
  for_pairs ((box, label) :: rest) =
  (r <- for_patterns SKIP_AD_PATTERNS box (strip label) ;;
   match r with
   | Some found => ret (Some found)
   | None => for_pairs rest
   end).
Proof. reflexivity. Qed.

Lemma scan_cons box label rest :
  scan ((box, label) :: rest) =
  if matches_skip label then
    match bbox_area box with
    | Some area =>
        if (area >? MAX_BBOX_AREA)%Z then scan rest
        else match bbox_center box with
             | Some center => Returns (Some (center, box))
             | None => Raises OverflowError
             end
    | None => Raises IndexError
    end
  else scan rest.
Proof. reflexivity. Qed.

(** The outer loop only prints, and computes [scan]. *)
Lemma for_pairs_run pairs :
  forall w, exists msgs,
    logged w (snd (for_pairs pairs w)) (List.map EPrint msgs) /\
    fst (for_pairs pairs w) = scan pairs.
Proof.
  induction pairs as [|[box label] rest IH]; intros w.
  - exists []. split; [apply logged_refl | reflexivity].
  - rewrite for_pairs_cons, scan_cons. unfold bind.
    destruct (for_patterns_run SKIP_AD_PATTERNS box (strip label) w) as (m1 & Hl & Hr).
    fold (matches_skip label) in Hr.
    destruct (for_patterns SKIP_AD_PATTERNS box (strip label) w) as [o w1].
    simpl in Hl, Hr. subst o.
    destruct (matches_skip label).
    + destruct (bbox_area box) as [a|];
        try (exists m1; split; [exact Hl | reflexivity]).
      destruct (a >? MAX_BBOX_AREA)%Z.
      * destruct (IH w1) as (m2 & Hl2 & Hr2). exists (m1 ++ m2). split.
        -- rewrite map_app. eapply logged_trans; eauto.
        -- exact Hr2.
      * destruct (bbox_center box) as [c|];
          exists m1; split; [exact Hl | reflexivity | exact Hl | reflexivity].
    + destruct (IH w1) as (m2 & Hl2 & Hr2). exists (m1 ++ m2). split.
      * rewrite map_app. eapply logged_trans; eauto.
      * exact Hr2.
Qed.

Lemma scan_outcome pairs :
  (exists e, scan pairs = Raises e /\ is_Exception e = true) \/
  exists r, scan pairs = Returns r.
Proof.
  induction pairs as [|[box label] rest IH]; [right; eexists; reflexivity|].
  rewrite scan_cons.
  destruct (matches_skip label); [|exact IH].
  destruct (bbox_area box); [|left; exists IndexError; split; reflexivity].
  destruct (_ >? _)%Z; [exact IH|].
  destruct (bbox_center box);
    [right; eexists; reflexivity | left; exists OverflowError; split; reflexivity].
Qed.

Lemma forallb_map_print msgs : forallb is_quiet (List.map EPrint msgs) = true.
Proof. induction msgs; simpl; auto. Qed.

Section DetectFacts.

Variable env : Env.

(** The [try] block: its outcome is [body_outcome]; it takes no screenshot,
    its events are prints and the model call, and the clock moves by the
    latency of that call, if it is made. *)
Lemma detect_body_run grounding_caption image w :
  let r := detect_body env grounding_caption image w in
  fst r = body_outcome env grounding_caption image /\
  shots (snd r) = shots w /\
  (exists t, trace (snd r) = trace w ++ t /\ forallb is_quiet t = true) /\
  (clock (snd r) = clock w \/
   exists prompt, clock (snd r) = clock w + latency (grounding env prompt image)).
Proof.
  unfold detect_body, body_outcome.
  destruct grounding_caption as [| b | q | s | items | members];
    try (cbn; repeat split; auto; exists []; split;
         [now rewrite app_nil_r | reflexivity]).
  cbv [make_prompt bind ret run_grounding model_pairs].
  destruct (output (grounding env (GROUNDING_TASK ++ s) image)) as [e | parsed] eqn:Hout.
  - cbn. repeat split; auto.
    + eexists; split; [reflexivity | reflexivity].
    + right; eexists; reflexivity.
  - set (pairs := combine _ _).
    assert (Hp : pairs =
                 match parsed with
                 | Some g => combine (get_default (bboxes g)) (get_default (labels g))
                 | None => []
                 end).
    { subst pairs. destruct parsed; reflexivity. }
    rewrite <- Hp. clear Hp.
    match goal with |- context [for_pairs pairs ?w1] =>
      destruct (for_pairs_run pairs w1) as (msgs & (Hc & Hs & Ht) & Hr);
      destruct (for_pairs pairs w1) as [o w2] end.
    simpl in Hc, Hs, Ht, Hr. subst o.
    destruct (scan_outcome pairs) as [(e & He & _) | [r He]]; rewrite He.
    + cbn. rewrite Ht, Hc, Hs. repeat split; auto.
      * eexists; split; [rewrite <- !app_assoc; reflexivity|].
        simpl. rewrite forallb_map_print. reflexivity.
      * right; eexists; reflexivity.
    + destruct r as [[center box]|]; cbn; rewrite ?Ht, ?Hc, ?Hs; repeat split; auto.
      * eexists; split; [rewrite <- !app_assoc; reflexivity|].
        simpl. rewrite forallb_map_print. reflexivity.
      * right; eexists; reflexivity.
      * eexists; split; [rewrite <- !app_assoc; reflexivity|].
        simpl. rewrite forallb_app, forallb_map_print. reflexivity.
      * right; eexists; reflexivity.
Qed.

Lemma body_outcome_converges grounding_caption image :
  body_outcome env grounding_caption image <> Diverges.
Proof.
  unfold body_outcome. destruct grounding_caption; try discriminate.
  destruct (output _); try discriminate.
  destruct (scan_outcome (model_pairs env (GROUNDING_TASK ++ s) image))
    as [(e & He & _) | [r He]];
    rewrite He; [discriminate|].
  destruct r as [[? ?]|]; discriminate.
Qed.

(** The same for the whole call, with [select] as outcome. *)
Lemma detect_run grounding_caption image w :
  let r := detect_skip_button env grounding_caption image w in
  fst r = select env grounding_caption image /\
  shots (snd r) = shots w /\
  (exists t, trace (snd r) = trace w ++ t /\ forallb is_quiet t = true) /\
  (clock (snd r) = clock w \/
   exists prompt, clock (snd r) = clock w + latency (grounding env prompt image)).
Proof.
  unfold detect_skip_button, try_except_Exception, select.
  destruct (detect_body_run grounding_caption image w) as (Hr & Hs & (t & Ht & Hq) & Hc).
  destruct (detect_body env grounding_caption image w) as [o w1].
  simpl in Hr, Hs, Ht, Hq, Hc. subst o.
  destruct (body_outcome env grounding_caption image) as [v | e |]; cbn;
    try (repeat split; auto; exists t; split; assumption).
  destruct (is_Exception e); cbn.
  - repeat split; auto.
    exists (t ++ [EPrint (MsgErrorDetecting e)]). split.
    + now rewrite Ht, app_assoc.
    + rewrite forallb_app, Hq. reflexivity.
  - repeat split; auto. exists t; split; assumption.
Qed.

(** The clock moves by the time of the model call, when it is made. *)
Lemma detect_body_clock grounding_caption image w :
  clock (snd (detect_body env grounding_caption image w))
  == clock w + detection_time env grounding_caption image.
Proof.
  unfold detect_body, detection_time.
  destruct grounding_caption as [| b | q | s | items | members];
    try (cbn; lra).
  cbv [make_prompt bind ret run_grounding].
  destruct (output (grounding env (GROUNDING_TASK ++ s) image)) as [e | parsed].
  - cbn. reflexivity.
  - match goal with |- context [for_pairs ?pairs ?w1] =>
      destruct (for_pairs_run pairs w1) as (msgs & (Hc & _ & _) & _);
      destruct (for_pairs pairs w1) as [[[[center box]|] | e |] w2] end;
      cbn [fst snd clock] in Hc |- *; cbv [print emit]; cbn [fst snd clock];
      rewrite Hc; reflexivity.
Qed.

Lemma detect_clock grounding_caption image w :
  clock (snd (detect_skip_button env grounding_caption image w))
  == clock w + detection_time env grounding_caption image.
Proof.
  unfold detect_skip_button, try_except_Exception.
  pose proof (detect_body_clock grounding_caption image w) as Hc.
  destruct (detect_body env grounding_caption image w) as [[v | e |] w1];
    cbn [snd] in Hc; try exact Hc.
  destruct (is_Exception e); exact Hc.
Qed.

End DetectFacts.

(** ** The scan *)

Lemma gtb_negb_leb a b : (a >? b)%Z = negb (a <=? b)%Z.
Proof. destruct (Z.gtb_spec a b), (Z.leb_spec a b); simpl; auto; lia. Qed.

(** A pair the scan returns comes after pairs that were passed over, and it
    qualifies. *)
Lemma scan_found pairs c b :
  scan pairs = Returns (Some (c, b)) ->
  exists pre label post,
    pairs = pre ++ (b, label) :: post /\
    forallb passed_over pre = true /\
    qualifies (b, label) = true /\
    bbox_center b = Some c.
Proof.
  induction pairs as [|[box label] rest IH]; [discriminate|].
  rewrite scan_cons. intros H.
  assert (Hrest : scan rest = Returns (Some (c, b)) -> passed_over (box, label) = true ->
                  exists pre label0 post,
                    (box, label) :: rest = pre ++ (b, label0) :: post /\
                    forallb passed_over pre = true /\
                    qualifies (b, label0) = true /\ bbox_center b = Some c).
  { intros Hs Hp. destruct (IH Hs) as (pre & l0 & post & -> & Hpre & Hq & Hc).
    exists ((box, label) :: pre), l0, post. simpl. rewrite Hp, Hpre. auto. }
  unfold passed_over, qualifies in *; simpl in *.
  destruct (matches_skip label) eqn:Hm; [|apply Hrest; auto].
  destruct (bbox_area box) as [a|] eqn:Ha; [|discriminate].
  destruct (a >? MAX_BBOX_AREA)%Z eqn:Hgt; [apply Hrest; auto|].
  destruct (bbox_center box) as [c0|] eqn:Hc0; [|discriminate].
  injection H as <- <-.
  exists [], label, rest. simpl. rewrite Hm, Ha.
  rewrite gtb_negb_leb in Hgt. apply negb_false_iff in Hgt. rewrite Hgt. auto.
Qed.

Lemma scan_passes_over pre rest :
  forallb passed_over pre = true -> scan (pre ++ rest) = scan rest.
Proof.
  induction pre as [|[box label] pre IH]; [reflexivity|].
  simpl app. rewrite scan_cons. simpl forallb. intros H.
  apply andb_true_iff in H. destruct H as [Hp Hpre].
  unfold passed_over in Hp; simpl in Hp.
  destruct (matches_skip label); [|auto].
  simpl in Hp.
  destruct (bbox_area box) as [a|]; [|discriminate].
  rewrite Hp. auto.
Qed.


(** ** Trimming and searching *)

Lemma search_lstrip p s : Re.search p (lstrip s) = true -> Re.search p s = true.
Proof.
  induction s as [|c s IH]; [auto|]. simpl lstrip.
  destruct (isspace c); [|auto]. intros H. simpl.
  rewrite (IH H). apply orb_true_r.
Qed.

Lemma match_here_rstrip s :
  forall p, Re.match_here p (rstrip s) = true -> Re.match_here p s = true.
Proof.
  induction s as [|c s IH]; intros p; [auto|].
  destruct p as [|lo p]; [reflexivity|].
  simpl rstrip. destruct (rstrip s) as [|c' r] eqn:Hr.
  - destruct (isspace c); [discriminate|]. simpl.
    intros H. apply andb_true_iff in H. destruct H as [H1 H2].
    rewrite H1. simpl. apply IH. exact H2.
  - simpl. intros H. apply andb_true_iff in H. destruct H as [H1 H2].
    rewrite H1. simpl. apply IH. exact H2.
Qed.

Lemma search_rstrip p s : Re.search p (rstrip s) = true -> Re.search p s = true.
Proof.
  induction s as [|c s IH]; [auto|].
  intros H.
  assert (Hcase : Re.match_here p (rstrip (c :: s)) = true \/
                  Re.search p (rstrip s) = true).
  { simpl rstrip in *. destruct (rstrip s) as [|c' r] eqn:Hr.
    - destruct (isspace c).
      + right. exact H.
      + simpl in H. apply orb_true_iff in H. destruct H as [H|H]; [left|right].
        * exact H.
        * rewrite orb_false_r in H. simpl. now rewrite H.
    - change (Re.search p (c :: c' :: r)) with
        (Re.match_here p (c :: c' :: r) || Re.search p (c' :: r)) in H.
      apply orb_true_iff in H. tauto. }
  change (Re.search p (c :: s)) with (Re.match_here p (c :: s) || Re.search p s).
  destruct Hcase as [Hm | Hs].
  - rewrite (match_here_rstrip _ _ Hm). reflexivity.
  - rewrite (IH Hs). apply orb_true_r.
Qed.

(** A match in the trimmed label is a match in the label. *)
Lemma search_strip p s : Re.search p (strip s) = true -> Re.search p s = true.
Proof. intros H. apply search_lstrip, search_rstrip, H. Qed.

Lemma matches_skip_search label :
  matches_skip label = true -> Re.search (lit "skip") label = true.
Proof.
  unfold matches_skip, SKIP_AD_PATTERNS. simpl existsb.
  rewrite orb_false_r. apply search_strip.
Qed.

(* ------------------------------------------------------------------ *)
(** * The detection filter *)

Lemma select_found env grounding_caption image position box :
  select env grounding_caption image = Returns (position, Some box) ->
  exists center,
    position = Some center /\
    scan (caption_pairs env grounding_caption image) = Returns (Some (center, box)).
Proof.
  unfold select, body_outcome, caption_pairs.
  destruct grounding_caption as [| b | q | s | items | members]; try discriminate.
  destruct (output (grounding env (GROUNDING_TASK ++ s) image)) as [e|parsed].
  - destruct (is_Exception e); discriminate.
  - destruct (scan_outcome (model_pairs env (GROUNDING_TASK ++ s) image))
      as [(e & He & Hexc) | [r He]]; rewrite He; [rewrite Hexc; discriminate|].
    destruct r as [[center box0]|]; [|discriminate].
    intros H. injection H as <- <-. exists center. auto.
Qed.

Lemma selected_pair env grounding_caption image w position box :
  fst (detect_skip_button env grounding_caption image w) = Returns (position, Some box) ->
  exists label,
    In (box, label) (caption_pairs env grounding_caption image) /\
    qualifies (box, label) = true /\
    position = bbox_center box.
Proof.
  intros H.
  destruct (detect_run env grounding_caption image w) as (Hr & _).
  rewrite Hr in H. apply select_found in H. destruct H as (center & -> & Hs).
  apply scan_found in Hs. destruct Hs as (pre & label & post & Hp & _ & Hq & Hc).
  exists label. repeat split; auto.
  rewrite Hp. apply in_or_app. right. left. reflexivity.
Qed.

(** C1: a box the detection returns is paired, in the model's answer, with
    a label that matches the skip pattern, and its area
    [(x2 - x1) * (y2 - y1)] is at most [MAX_BBOX_AREA]. *)
Theorem selected_box_matches_and_fits env grounding_caption image w position box :
  fst (detect_skip_button env grounding_caption image w) = Returns (position, Some box) ->
  exists label area,
    In (box, label) (caption_pairs env grounding_caption image) /\
    matches_skip label = true /\
    bbox_area box = Some area /\
    (area <= MAX_BBOX_AREA)%Z /\
    MAX_BBOX_AREA = 50000%Z.
Proof.
  intros H. apply selected_pair in H. destruct H as (label & Hin & Hq & _).
  unfold qualifies in Hq; simpl in Hq. apply andb_true_iff in Hq.
  destruct Hq as [Hm Ha].
  destruct (bbox_area box) as [area|]; [|discriminate].
  exists label, area. repeat split; auto.
  apply Z.leb_le. exact Ha.
Qed.

Lemma selected_box_matches_and_fits_witness :
  exists label area,
    In (Sample.skip_box, label)
       (caption_pairs Sample.env_skip (JStr (lit "Skip")) (Screenshot 0)) /\
    matches_skip label = true /\
    bbox_area Sample.skip_box = Some area /\
    (area <= MAX_BBOX_AREA)%Z /\
    MAX_BBOX_AREA = 50000%Z.
Proof.
  apply (@selected_box_matches_and_fits Sample.env_skip (JStr (lit "Skip"))
           (Screenshot 0) (boot 0) (Some (110, 205)%Z) Sample.skip_box).
  vm_compute. reflexivity.
Defined.

(** C2, as stated, fails: with the caption "Skip Ad" in the settings, a box
    labelled "Skip" is selected although the label does not contain the
    caption. *)
Lemma caption_is_not_the_pattern :
  let caption := lit "Skip Ad" in
  let label := lit "Skip" in
  caption_pairs Sample.env_skip (JStr caption) (Screenshot 0)
    = [(Sample.skip_box, label)] /\
  contains_ci caption label = false /\
  fst (detect_skip_button Sample.env_skip (JStr caption) (Screenshot 0) (boot 0))
    = Returns (Some (110, 205)%Z, Some Sample.skip_box).
Proof. vm_compute. repeat split; reflexivity. Qed.

(** C2, amended: the label is matched against the fixed pattern
    [(?i)skip] of [SKIP_AD_PATTERNS], whatever the configured caption: a
    box all of whose labels lack a match of that pattern is not
    selected. *)
Theorem unmatched_label_never_selected env grounding_caption image w box :
  (forall label, In (box, label) (caption_pairs env grounding_caption image) ->
                 Re.search (lit "skip") label = false) ->
  forall position,
    fst (detect_skip_button env grounding_caption image w) <> Returns (position, Some box).
Proof.
  intros Hno position H.
  apply selected_pair in H. destruct H as (label & Hin & Hq & _).
  unfold qualifies in Hq. apply andb_true_iff in Hq. destruct Hq as [Hm _].
  simpl in Hm. apply matches_skip_search in Hm. rewrite (Hno label Hin) in Hm. discriminate.
Qed.

Lemma unmatched_label_never_selected_witness :
  fst (detect_skip_button Sample.env_close (JStr (lit "Close")) (Screenshot 0) (boot 0))
    <> Returns (Some (110, 205)%Z, Some Sample.skip_box).
Proof.
  apply (@unmatched_label_never_selected Sample.env_close (JStr (lit "Close"))
           (Screenshot 0) (boot 0) Sample.skip_box).
  intros label [H | []]. injection H as <-. reflexivity.
Defined.




(* ------------------------------------------------------------------ *)
(** * Failures inside a detection *)

(** C4, as stated, fails: a [KeyboardInterrupt] raised during the model
    call is not an [Exception], and the call hands it to its caller. *)
Lemma interrupt_propagates :
  fst (detect_skip_button Sample.env_interrupt (JStr (lit "Skip")) (Screenshot 0) (boot 0))
    = Raises KeyboardInterrupt.
Proof. reflexivity. Qed.

Lemma body_raises env grounding_caption image e :
  body_outcome env grounding_caption image = Raises e ->
  is_Exception e = true \/
  exists prompt, output (grounding env prompt image) = inl e.
Proof.
  unfold body_outcome.
  destruct grounding_caption as [| b | q | s | items | members];
    try (intros H; injection H as <-; left; reflexivity).
  destruct (output (grounding env (GROUNDING_TASK ++ s) image)) as [e0|parsed] eqn:Hout.
  - intros H; injection H as <-. right. eexists; exact Hout.
  - destruct (scan_outcome (model_pairs env (GROUNDING_TASK ++ s) image))
      as [(e1 & He & Hexc) | [r He]]; rewrite He.
    + intros H; injection H as <-. left; exact Hexc.
    + destruct r as [[c b]|]; discriminate.
Qed.

(** C4, amended: a failure inside the call that is raised as an
    [Exception] (a model error, malformed output, a caption that is not a
    string) gives the result [(None, None)]; the call always comes back;
    and it hands on an exception only when the model call raised one that
    is not an [Exception]. *)
Theorem exception_failures_give_no_detection env grounding_caption image w :
  let result := fst (detect_skip_button env grounding_caption image w) in
  (forall e, fst (detect_body env grounding_caption image w) = Raises e ->
             is_Exception e = true ->
             result = Returns (None, None)) /\
  (forall e, result = Raises e ->
             is_Exception e = false /\
             exists prompt, output (grounding env prompt image) = inl e) /\
  result <> Diverges.
Proof.
  intros result. subst result.
  destruct (detect_run env grounding_caption image w) as (Hr & _).
  destruct (detect_body_run env grounding_caption image w) as (Hb & _).
  rewrite Hr, Hb. unfold select.
  pose proof (@body_outcome_converges env grounding_caption image) as Hconv.
  pose proof (@body_raises env grounding_caption image) as Hraise.
  destruct (body_outcome env grounding_caption image) as [v | e0 |];
    [| | contradiction].
  - repeat split; discriminate.
  - split; [|split].
    + intros e He Hex. injection He as <-. rewrite Hex. reflexivity.
    + intros e. destruct (is_Exception e0) eqn:Hex; [discriminate|].
      intros H; injection H as <-. split; [exact Hex|].
      destruct (Hraise e0 eq_refl) as [Hc | Hm]; [congruence | exact Hm].
    + destruct (is_Exception e0); discriminate.
Qed.

Lemma exception_failures_give_no_detection_witness :
  fst (detect_skip_button Sample.env_model_error (JStr (lit "Skip")) (Screenshot 0) (boot 0))
    = Returns (None, None) /\
  fst (detect_skip_button Sample.env_malformed (JStr (lit "Skip")) (Screenshot 0) (boot 0))
    = Returns (None, None) /\
  (is_Exception KeyboardInterrupt = false /\
   exists prompt,
     output (grounding Sample.env_interrupt prompt (Screenshot 0)) = inl KeyboardInterrupt).
Proof.
  split; [|split].
  - apply (proj1 (@exception_failures_give_no_detection Sample.env_model_error
                    (JStr (lit "Skip")) (Screenshot 0) (boot 0)) RuntimeError);
      reflexivity.
  - apply (proj1 (@exception_failures_give_no_detection Sample.env_malformed
                    (JStr (lit "Skip")) (Screenshot 0) (boot 0)) IndexError);
      reflexivity.
  - apply (proj1 (proj2 (@exception_failures_give_no_detection Sample.env_interrupt
                    (JStr (lit "Skip")) (Screenshot 0) (boot 0))) KeyboardInterrupt).
    reflexivity.
Defined.

(* ------------------------------------------------------------------ *)
(** * Shape of a detection *)

(** A detection is [(None, None)] or a center with its box. *)
Lemma select_shape env grounding_caption image position box :
  select env grounding_caption image = Returns (position, box) ->
  (position = None /\ box = None) \/
  (exists center b, position = Some center /\ box = Some b /\
                    bbox_center b = Some center).
Proof.
  destruct box as [b|].
  - intros H. right. destruct (select_found _ _ _ _ _ H) as (center & -> & Hs).
    apply scan_found in Hs. destruct Hs as (_ & _ & _ & _ & _ & _ & Hc).
    exists center, b. auto.
  - unfold select, body_outcome.
    destruct grounding_caption as [| b | q | s | items | members];
      try (cbn; intros H; injection H as <-; auto).
    destruct (output _) as [e|parsed].
    + destruct (is_Exception e); [|discriminate].
      intros H; injection H as <-; auto.
    + destruct (scan_outcome (model_pairs env (GROUNDING_TASK ++ s) image))
        as [(e1 & He & Hexc) | [r He]]; rewrite He.
      * rewrite Hexc. intros H; injection H as <-; auto.
      * destruct r as [[c b]|]; [discriminate|].
        intros H; injection H as <-; auto.
Qed.

Lemma select_converges env grounding_caption image :
  select env grounding_caption image <> Diverges.
Proof.
  unfold select.
  pose proof (@body_outcome_converges env grounding_caption image).
  destruct (body_outcome env grounding_caption image) as [v|e|]; try discriminate.
  - destruct (is_Exception e); discriminate.
  - contradiction.
Qed.

Lemma detection_select env grounding_caption image :
  detection env grounding_caption image = select env grounding_caption image.
Proof. unfold detection. apply detect_run. Qed.

Lemma center_truthy (b : Box) c : bbox_center b = Some c -> box_truthy (Some b) = true.
Proof. destruct b; [discriminate | reflexivity]. Qed.

Lemma quiet_no_clicks t : forallb is_quiet t = true -> clicks t = 0%nat.
Proof.
  unfold clicks. induction t as [|ev t IH]; [reflexivity|].
  simpl. intros H. apply andb_true_iff in H. destruct H as [Hq Ht].
  destruct ev; try discriminate; simpl; auto.
Qed.

Lemma clicks_app t1 t2 : clicks (t1 ++ t2) = (clicks t1 + clicks t2)%nat.
Proof. unfold clicks. now rewrite filter_app, length_app. Qed.

(* ------------------------------------------------------------------ *)
(** * The polling loop, one iteration at a time *)

Section Polling.

Variable env : Env.
Variable grounding_caption : json.
Variables interval max_poll_seconds : Z.
Variable output_dir : string.
Variable start_time : Q.

Let loop (fuel : nat) : M (bool * option (Z * Z)) :=
  poll_loop env fuel grounding_caption interval max_poll_seconds output_dir start_time.

Lemma poll_loop_S fuel :
  loop (S fuel) =
  (now <- time_time ;;
   if Qlt_bool (now - start_time) (inject_Z max_poll_seconds) then
     image <- capture_screen ;;
     '(position, bbox) <- detect_skip_button env grounding_caption image ;;
     if box_truthy bbox then
       stamp <- time_time ;;
       let output_path :=
         path_join output_dir ("detection_" ++ timestamp env stamp ++ ".png") in
       draw_bbox_on_image env image bbox output_path ;;
       ret (true, position)
     else
       print MsgNoButtonThisPoll ;;
       time_sleep (inject_Z interval) ;;
       loop fuel
   else ret (false, None)).
Proof. reflexivity. Qed.

(** One iteration of the loop is one of the seven cases of [PollStep]. *)
Lemma poll_step fuel w :
  PollStep env grounding_caption interval max_poll_seconds start_time
    (loop fuel) w (loop (S fuel) w).
Proof.
  rewrite poll_loop_S. cbv [bind time_time ret capture_screen].
  fold (polling max_poll_seconds start_time w).
  destruct (polling max_poll_seconds start_time w) eqn:Hpoll;
    [|now apply PollTimeout].
  set (w1 := {| clock := clock w; shots := S (shots w);
                trace := trace w ++ [ECapture (shots w)] |}).
  destruct (detect_run env grounding_caption (Screenshot (shots w)) w1)
    as (Hr & Hs & (t & Ht & Hq) & _).
  pose proof (detect_clock env grounding_caption (Screenshot (shots w)) w1) as Hc.
  destruct (detect_skip_button env grounding_caption (Screenshot (shots w)) w1)
    as [o w2].
  simpl in Hr, Hs, Ht, Hq, Hc. subst o.
  assert (Hpolled : polled env grounding_caption w w2 t).
  { unfold polled. rewrite Ht, Hs. simpl. rewrite <- app_assoc. auto. }
  destruct (select env grounding_caption (Screenshot (shots w)))
    as [[position bbox] | e |] eqn:Hsel.
  - destruct (select_shape _ _ _ _ _ Hsel) as [[-> ->] | (c & b & -> & -> & Hcb)].
    + cbn [box_truthy]. cbv [print emit time_sleep].
      destruct (Qle_bool 0 (inject_Z interval)) eqn:Hiv.
      * change (PollStep env grounding_caption interval max_poll_seconds start_time
                  (loop fuel) w (loop fuel (slept interval w2))).
        eapply PollAgain; eauto.
      * eapply PollCannotSleep; eauto.
    + rewrite (center_truthy _ _ Hcb). cbv [draw_bbox_on_image].
      rewrite (center_truthy _ _ Hcb).
      destruct b as [|x1 [|y1 [|x2 [|y2 [|z more]]]]]; try discriminate.
      * destruct (image_save env (Screenshot (shots w)) [x1; y1; x2; y2]
                    (path_join output_dir
                       ("detection_" ++ timestamp env (clock w2) ++ ".png")))
          as [e|] eqn:Hsave.
        -- eapply PollCannotSave; eauto.
        -- eapply PollFound; eauto; try reflexivity.
           simpl. rewrite <- app_assoc. reflexivity.
      * eapply PollCannotDraw; eauto. simpl. lia.
  - eapply PollInterrupted; eauto.
  - exfalso. eapply select_converges; eauto.
Qed.

(** The loop as a whole: it clicks nothing, it captures the frames from
    [shots w] on, and it stops at the first frame with a detection or when
    the loop condition fails, every earlier frame having given nothing. *)
Lemma poll_loop_run fuel :
  forall w,
    let r := loop fuel w in
    (shots w <= shots (snd r))%nat /\
    (exists t, trace (snd r) = trace w ++ t /\ clicks t = 0%nat /\
               forall k, (shots w <= k < shots (snd r))%nat -> In (ECapture k) t) /\
    match fst r with
    | Returns (true, position) =>
        exists k box center,
          shots (snd r) = S k /\ (shots w <= k)%nat /\
          select env grounding_caption (Screenshot k) = Returns (Some center, Some box) /\
          position = Some center /\
          forall j, (shots w <= j < k)%nat ->
                    select env grounding_caption (Screenshot j) = Returns (None, None)
    | Returns (false, position) =>
        position = None /\
        polling max_poll_seconds start_time (snd r) = false /\
        forall j, (shots w <= j < shots (snd r))%nat ->
                  select env grounding_caption (Screenshot j) = Returns (None, None)
    | _ => True
    end.
Proof.
  induction fuel as [|fuel IH]; intros w r.
  - subst r. simpl. split; [lia|]. split; [|exact I].
    exists []. rewrite app_nil_r. repeat split; auto. intros k Hk. lia.
  - pose proof (poll_step fuel w) as Hstep. fold r in Hstep.
    clearbody r.
    destruct Hstep as [Hpoll
                      | center box w2 t w3 saved Hpoll (Ht & Hq & Hs & Hc) Hsel Hcb Hlen Hc3 Hs3 Ht3
                      | center box w2 t Hpoll (Ht & Hq & Hs & Hc) Hsel Hlen
                      | w2 t Hpoll (Ht & Hq & Hs & Hc) Hsel Hiv
                      | w2 t w3 Hpoll (Ht & Hq & Hs & Hc) Hsel Hiv Hc3 Hs3 Ht3
                      | e w2 t Hpoll (Ht & Hq & Hs & Hc) Hsel
                      | e center box w2 t saved Hpoll (Ht & Hq & Hs & Hc) Hsel Hlen
                          Hsave].
    + simpl. split; [lia|]. split.
      * exists []. rewrite app_nil_r. repeat split; auto. intros k Hk. lia.
      * repeat split; auto. intros j Hj. lia.
    + simpl. rewrite Hs3, Hs. split; [lia|]. split.
      * eexists. split; [rewrite Ht3, Ht, <- app_assoc; reflexivity|].
        split.
        -- change (ECapture (shots w) :: t) with ([ECapture (shots w)] ++ t).
           rewrite !clicks_app, (quiet_no_clicks _ Hq). reflexivity.
        -- intros k Hk. assert (k = shots w) by lia. subst k.
           apply in_or_app. left. left. reflexivity.
      * exists (shots w), box, center. repeat split; auto. intros j Hj. lia.
    + simpl. rewrite Hs. split; [lia|]. split; [|exact I].
      eexists. split; [rewrite Ht; reflexivity|]. split.
      * change (ECapture (shots w) :: t) with ([ECapture (shots w)] ++ t).
        rewrite !clicks_app, (quiet_no_clicks _ Hq). reflexivity.
      * intros k Hk. assert (k = shots w) by lia. subst k. left. reflexivity.
    + destruct (IH (slept interval w2)) as (Hle & (t' & Ht' & Hcl & Hcap) & Hres).
      change (shots (slept interval w2)) with (shots w2) in *.
      rewrite Hs in *.
      split; [lia|]. split.
      * exists ((ECapture (shots w) :: t) ++
                [EPrint MsgNoButtonThisPoll; ESleep (inject_Z interval)] ++ t').
        split; [|split].
        -- rewrite Ht'. simpl trace. rewrite Ht, <- !app_assoc. reflexivity.
        -- change (ECapture (shots w) :: t) with ([ECapture (shots w)] ++ t).
           rewrite !clicks_app, (quiet_no_clicks _ Hq), Hcl. reflexivity.
        -- intros k Hk. destruct (Nat.eq_dec k (shots w)) as [-> | Hne].
           ++ left. reflexivity.
           ++ apply in_or_app. right. apply in_or_app. right. apply Hcap. lia.
      * destruct (fst (loop fuel (slept interval w2))) as [[[|] position] | |]; auto.
        -- destruct Hres as (k & box & center & Hk & Hkle & Hsel' & Hp & Hbefore).
           exists k, box, center. repeat split; auto; try lia.
           intros j Hj. destruct (Nat.eq_dec j (shots w)) as [-> | Hne]; auto.
           apply Hbefore. lia.
        -- destruct Hres as (Hp & Hpoll' & Hall). repeat split; auto.
           intros j Hj. destruct (Nat.eq_dec j (shots w)) as [-> | Hne]; auto.
           apply Hall. lia.
    + simpl. rewrite Hs3, Hs. split; [lia|]. split; [|exact I].
      eexists. split; [rewrite Ht3, Ht, <- app_assoc; reflexivity|]. split.
      * change (ECapture (shots w) :: t) with ([ECapture (shots w)] ++ t).
        rewrite !clicks_app, (quiet_no_clicks _ Hq). reflexivity.
      * intros k Hk. assert (k = shots w) by lia. subst k.
        apply in_or_app. left. left. reflexivity.
    + simpl. rewrite Hs. split; [lia|]. split; [|exact I].
      eexists. split; [rewrite Ht; reflexivity|]. split.
      * change (ECapture (shots w) :: t) with ([ECapture (shots w)] ++ t).
        rewrite !clicks_app, (quiet_no_clicks _ Hq). reflexivity.
      * intros k Hk. assert (k = shots w) by lia. subst k. left. reflexivity.
    + simpl. rewrite Hs. split; [lia|]. split; [|exact I].
      eexists. split; [rewrite Ht; reflexivity|]. split.
      * change (ECapture (shots w) :: t) with ([ECapture (shots w)] ++ t).
        rewrite !clicks_app, (quiet_no_clicks _ Hq). reflexivity.
      * intros k Hk. assert (k = shots w) by lia. subst k. left. reflexivity.
Qed.

End Polling.

(* ------------------------------------------------------------------ *)
(** * Verification after the click *)

(** The verifier sleeps, captures one frame and classifies by the detection
    on it. *)
Lemma verify_run env grounding_caption w :
  let r := verify_skip_success env grounding_caption w in
  shots (snd r) = S (shots w) /\
  (exists t, trace (snd r) = trace w ++ ESleep VERIFY_DELAY :: ECapture (shots w) :: t /\
             clicks t = 0%nat) /\
  (clock (snd r) = clock w + VERIFY_DELAY \/
   exists prompt,
     clock (snd r) =
     clock w + VERIFY_DELAY + latency (grounding env prompt (Screenshot (shots w)))) /\
  fst r =
    match select env grounding_caption (Screenshot (shots w)) with
    | Returns (_, bbox) =>
        Returns (if is_None bbox then ("success"%string, MSG_SKIPPED)
                 else ("partial"%string, MSG_STILL_PRESENT))
    | Raises e => Raises e
    | Diverges => Diverges
    end.
Proof.
  unfold verify_skip_success. cbv [bind time_sleep capture_screen].
  change (Qle_bool 0 VERIFY_DELAY) with true. cbv iota. cbn [clock shots trace].
  set (w1 := {| clock := clock w + VERIFY_DELAY; shots := S (shots w);
                trace := (trace w ++ [ESleep VERIFY_DELAY]) ++ [ECapture (shots w)] |}).
  destruct (detect_run env grounding_caption (Screenshot (shots w)) w1)
    as (Hr & Hs & (t & Ht & Hq) & Hc).
  destruct (detect_skip_button env grounding_caption (Screenshot (shots w)) w1)
    as [o w2].
  simpl in Hr, Hs, Ht, Hq, Hc. subst o.
  destruct (select env grounding_caption (Screenshot (shots w)))
    as [[position bbox] | e |]; simpl.
  - rewrite Ht, Hs. repeat split; auto.
    + exists (t ++ [EPrint (MsgVerify (is_None bbox)
                              (if is_None bbox then MSG_SKIPPED else MSG_STILL_PRESENT))]).
      split; [now rewrite <- !app_assoc|].
      rewrite clicks_app, (quiet_no_clicks _ Hq). reflexivity.
    + destruct (is_None bbox); reflexivity.
  - rewrite Ht, Hs. repeat split; auto.
    exists t. split; [now rewrite <- !app_assoc|]. apply quiet_no_clicks, Hq.
  - rewrite Ht, Hs. repeat split; auto.
    exists t. split; [now rewrite <- !app_assoc|]. apply quiet_no_clicks, Hq.
Qed.

(* ------------------------------------------------------------------ *)
(** * A live run *)

Section Live.

Variable env : Env.
Variable grounding_caption : json.
Variables interval max_poll_seconds : Z.
Variable output_dir : string.

Let run (fuel : nat) : M RunResult :=
  run_live_mode env fuel grounding_caption interval max_poll_seconds output_dir.

Let loop_of (w : World) (fuel : nat) : Outcome (bool * option (Z * Z)) * World :=
  poll_loop env fuel grounding_caption interval max_poll_seconds output_dir (clock w)
    (live_entry w interval max_poll_seconds output_dir).

(** A live run in terms of its polling loop and of the verifier. *)
Lemma live_run fuel w :
  match loop_of w fuel with
  | (Returns (false, _), wp) =>
      run fuel w =
      (Returns timed_out,
       {| clock := clock wp; shots := shots wp;
          trace := trace wp ++ [EPrint (MsgNoButtonWithin max_poll_seconds)] |})
  | (Returns (true, Some center), wp) =>
      run fuel w =
      match verify_skip_success env grounding_caption (clicked wp center) with
      | (Returns (status, message), wv) =>
          (Returns {| status := status; message := message;
                      clicked_at := Some (Some center) |}, wv)
      | (Raises e, wv) => (Raises e, wv)
      | (Diverges, wv) => (Diverges, wv)
      end
  | (Returns (true, None), wp) =>
      run fuel w =
      match verify_skip_success env grounding_caption wp with
      | (Returns (status, message), wv) =>
          (Returns {| status := status; message := message;
                      clicked_at := Some None |}, wv)
      | (Raises e, wv) => (Raises e, wv)
      | (Diverges, wv) => (Diverges, wv)
      end
  | (Raises e, wp) => run fuel w = (Raises e, wp)
  | (Diverges, wp) => run fuel w = (Diverges, wp)
  end.
Proof.
  subst run loop_of. cbv beta. unfold run_live_mode, live_entry.
  cbv [bind emit print time_time ret]. cbn [clock shots trace].
  destruct (poll_loop env fuel grounding_caption interval max_poll_seconds output_dir
              (clock w) _) as [[[[|] [[x y]|]] | e |] wp]; cbn [negb]; try reflexivity.
  - cbv [skip_ad_action bind emit print]. cbn [clock shots trace].
    unfold clicked. cbn [fst snd].
    destruct (verify_skip_success env grounding_caption _) as [[[st msg] | e |] wv];
      reflexivity.
  - cbv [skip_ad_action ret].
    destruct (verify_skip_success env grounding_caption wp) as [[[st msg] | e |] wv];
      reflexivity.
Qed.

(** C5: the trace of a live run holds at most one click; a click comes
    after the capture of a frame whose detection was not null, and it goes
    to that detection's center; a run whose result carries no clicked
    position (the time-out result) holds no click. *)
Theorem live_clicks_at_most_once fuel w :
  let r := run fuel w in
  exists t,
    trace (snd r) = trace w ++ t /\
    (clicks t = 0%nat \/
     exists before x y after k box,
       t = before ++ EClick x y :: after /\
       clicks before = 0%nat /\ clicks after = 0%nat /\
       In (ECapture k) before /\
       detection env grounding_caption (Screenshot k) = Returns (Some (x, y), Some box)) /\
    (forall res, fst r = Returns res -> clicked_at res = None -> clicks t = 0%nat).
Proof.
  intros r. subst r.
  pose proof (live_run fuel w) as Hrun. unfold loop_of in Hrun.
  destruct (poll_loop_run env grounding_caption interval max_poll_seconds output_dir
              (clock w) fuel (live_entry w interval max_poll_seconds output_dir))
    as (Hle & (t & Ht & Hcl & Hcap) & Hres).
  destruct (poll_loop env fuel grounding_caption interval max_poll_seconds output_dir
              (clock w) (live_entry w interval max_poll_seconds output_dir))
    as [o wp].
  cbn [fst snd] in Hle, Ht, Hcl, Hcap, Hres.
  change (trace (live_entry w interval max_poll_seconds output_dir))
    with ((trace w ++ [EMakedirs output_dir])
          ++ [EPrint (MsgStartingLive interval max_poll_seconds)]) in Ht.
  change (shots (live_entry w interval max_poll_seconds output_dir))
    with (shots w) in *.
  set (pre := [EMakedirs output_dir; EPrint (MsgStartingLive interval max_poll_seconds)]).
  assert (Htp : trace wp = trace w ++ pre ++ t).
  { rewrite Ht. subst pre. now rewrite <- !app_assoc. }
  assert (Hpre : clicks (pre ++ t) = 0%nat).
  { rewrite clicks_app, Hcl. reflexivity. }
  destruct o as [[[|] [center|]] | e |].
  - destruct Hres as (k & box & c0 & Hk & Hkle & Hsel & Hp & _).
    injection Hp as <-.
    destruct (verify_run env grounding_caption (clicked wp center))
      as (_ & (tv & Htv & Hclv) & _ & _).
    destruct (verify_skip_success env grounding_caption (clicked wp center))
      as [ov wv].
    cbn [fst snd] in Htv.
    assert (Hfinal : trace (snd (run fuel w)) =
                     trace w ++ (pre ++ t) ++ EClick (fst center) (snd center) ::
                       (EPrint (MsgClicked (fst center) (snd center)) ::
                        ESleep VERIFY_DELAY :: ECapture (shots (clicked wp center)) :: tv)).
    { subst run. cbv beta. rewrite Hrun.
      destruct ov as [[st msg] | e |]; cbn [snd]; rewrite Htv; unfold clicked;
        cbn [trace]; rewrite Htp, <- !app_assoc; reflexivity. }
    eexists. split; [exact Hfinal|]. split.
    + right. exists (pre ++ t), (fst center), (snd center).
      eexists. exists k, box. split; [reflexivity|].
      repeat split; auto.
      * apply in_or_app. right. apply Hcap. lia.
      * rewrite detection_select, Hsel. destruct center; reflexivity.
    + intros res Hret Hnone. exfalso. subst run. cbv beta in Hret.
      rewrite Hrun in Hret.
      destruct ov as [[st msg] | e |]; cbn [fst] in Hret; try discriminate.
      injection Hret as <-. discriminate.
  - destruct Hres as (k & box & c0 & _ & _ & _ & Hp & _). discriminate.
  - subst run. cbv beta. rewrite Hrun. cbn [fst snd trace].
    exists ((pre ++ t) ++ [EPrint (MsgNoButtonWithin max_poll_seconds)]).
    assert (Hz : clicks ((pre ++ t) ++ [EPrint (MsgNoButtonWithin max_poll_seconds)]) = 0%nat).
    { rewrite clicks_app, Hpre. reflexivity. }
    split; [rewrite Htp, <- !app_assoc; reflexivity|]. split; auto.
  - destruct Hres as (Hp & _).
    subst run. cbv beta. rewrite Hrun. cbn [fst snd trace].
    exists ((pre ++ t) ++ [EPrint (MsgNoButtonWithin max_poll_seconds)]).
    assert (Hz : clicks ((pre ++ t) ++ [EPrint (MsgNoButtonWithin max_poll_seconds)]) = 0%nat).
    { rewrite clicks_app, Hpre. reflexivity. }
    split; [rewrite Htp, <- !app_assoc; reflexivity|]. split; auto.
  - subst run. cbv beta. rewrite Hrun. cbn [fst snd].
    exists (pre ++ t). split; [exact Htp|]. split; auto.
  - subst run. cbv beta. rewrite Hrun. cbn [fst snd].
    exists (pre ++ t). split; [exact Htp|]. split; auto.
Qed.

End Live.

Lemma live_clicks_at_most_once_witness :
  let r := run_live_mode Sample.env_skip 31 (JStr (lit "Skip")) 3 30 "live_outputs" (boot 0) in
  exists t,
    trace (snd r) = trace (boot 0) ++ t /\
    (clicks t = 0%nat \/
     exists before x y after k box,
       t = before ++ EClick x y :: after /\
       clicks before = 0%nat /\ clicks after = 0%nat /\
       In (ECapture k) before /\
       detection Sample.env_skip (JStr (lit "Skip")) (Screenshot k)
         = Returns (Some (x, y), Some box)) /\
    (forall res, fst r = Returns res -> clicked_at res = None -> clicks t = 0%nat).
Proof.
  exact (live_clicks_at_most_once Sample.env_skip (JStr (lit "Skip")) 3 30
           "live_outputs" 31%nat (boot 0)).
Defined.

(* ------------------------------------------------------------------ *)
(** * Time *)

Lemma Qlt_bool_iff x y : Qlt_bool x y = true <-> x < y.
Proof.
  unfold Qlt_bool. rewrite negb_true_iff. split.
  - intros H. apply Qnot_le_lt. intros Hle. apply Qle_bool_iff in Hle. congruence.
  - intros H. destruct (Qle_bool y x) eqn:E; [|reflexivity].
    apply Qle_bool_iff in E. exfalso. apply (Qlt_not_le _ _ H E).
Qed.

Lemma Qlt_bool_false x y : Qlt_bool x y = false -> y <= x.
Proof.
  unfold Qlt_bool. rewrite negb_false_iff. apply Qle_bool_iff.
Qed.

Lemma inject_Z_succ n : inject_Z (Z.of_nat (S n)) == inject_Z (Z.of_nat n) + 1.
Proof. rewrite Nat2Z.inj_succ. unfold Z.succ. rewrite inject_Z_plus. reflexivity. Qed.

Lemma detection_time_lower env grounding_caption image :
  (forall prompt image, 0 <= latency (grounding env prompt image)) ->
  0 <= detection_time env grounding_caption image.
Proof.
  intros Hlat. unfold detection_time.
  destruct grounding_caption; try apply Qle_refl. apply Hlat.
Qed.

Lemma detection_time_upper env grounding_caption D image :
  (forall prompt image, 0 <= latency (grounding env prompt image) <= D) ->
  detection_time env grounding_caption image <= D.
Proof.
  intros Hlat. unfold detection_time.
  destruct grounding_caption;
    try (specialize (Hlat [] (Screenshot 0)); lra).
  apply Hlat.
Qed.

Lemma polled_clock_lower env grounding_caption w w2 t :
  (forall prompt image, 0 <= latency (grounding env prompt image)) ->
  polled env grounding_caption w w2 t -> clock w <= clock w2.
Proof.
  intros Hlat (_ & _ & _ & Hc).
  pose proof (detection_time_lower env grounding_caption (Screenshot (shots w)) Hlat). lra.
Qed.

Lemma polled_clock_upper env grounding_caption D w w2 t :
  (forall prompt image, 0 <= latency (grounding env prompt image) <= D) ->
  polled env grounding_caption w w2 t -> clock w2 <= clock w + D.
Proof.
  intros Hlat (_ & _ & _ & Hc).
  pose proof (detection_time_upper env grounding_caption D (Screenshot (shots w)) Hlat). lra.
Qed.

Section PollingTime.

Variable env : Env.
Variable grounding_caption : json.
Variables interval max_poll_seconds : Z.
Variable output_dir : string.
Variable start_time : Q.

Let loop (fuel : nat) : M (bool * option (Z * Z)) :=
  poll_loop env fuel grounding_caption interval max_poll_seconds output_dir start_time.

(** With a positive interval the loop needs at most one iteration per second
    left, and one more to see the time-out. *)
Lemma poll_loop_converges :
  (0 < interval)%Z ->
  (forall prompt image, 0 <= latency (grounding env prompt image)) ->
  forall n fuel w,
    inject_Z max_poll_seconds - (clock w - start_time) <= inject_Z (Z.of_nat n) ->
    (n < fuel)%nat ->
    fst (loop fuel w) <> Diverges.
Proof.
  intros Hiv Hlat.
  assert (Hone : 1 <= inject_Z interval).
  { change 1 with (inject_Z 1). rewrite <- Zle_Qle. lia. }
  induction n as [|n IH]; intros fuel w Hrem Hfuel;
    (destruct fuel as [|fuel]; [lia|]);
    pose proof (poll_step env grounding_caption interval max_poll_seconds output_dir
                  start_time fuel w) as Hstep;
    fold loop in Hstep;
    remember (loop (S fuel) w) as r eqn:Er; clear Er;
    destruct Hstep as [Hpoll
                      | center box w2 t w3 saved Hpoll Hpolled Hsel Hcb Hlen Hc3 Hs3 Ht3
                      | center box w2 t Hpoll Hpolled Hsel Hlen
                      | w2 t Hpoll Hpolled Hsel Hiv'
                      | w2 t w3 Hpoll Hpolled Hsel Hiv' Hc3 Hs3 Ht3
                      | e w2 t Hpoll Hpolled Hsel
                      | e center box w2 t saved Hpoll Hpolled Hsel Hlen Hsave];
    try discriminate.
  - exfalso. apply Qlt_bool_iff in Hpoll. simpl in Hrem.
    change (inject_Z 0) with 0 in Hrem. lra.
  - apply IH; [|lia].
    pose proof (polled_clock_lower _ _ _ _ _ Hlat Hpolled) as Hlow.
    rewrite inject_Z_succ in Hrem. simpl clock. lra.
Qed.

(** The clock when the loop ends: the last iteration started before the
    limit and took at most one model call and one sleep. *)
Lemma poll_loop_clock D :
  (0 <= interval)%Z ->
  (forall prompt image, 0 <= latency (grounding env prompt image) <= D) ->
  forall fuel w,
    let r := loop fuel w in
    clock w <= clock (snd r) /\
    (clock (snd r) == clock w \/
     clock (snd r) - start_time < inject_Z max_poll_seconds + D + inject_Z interval) /\
    match fst r with
    | Returns (true, _) => clock (snd r) - start_time < inject_Z max_poll_seconds + D
    | _ => True
    end.
Proof.
  intros Hiv Hlat.
  assert (Hlat0 : forall prompt image, 0 <= latency (grounding env prompt image)).
  { intros p i. apply Hlat. }
  assert (Hzero : 0 <= inject_Z interval).
  { change 0 with (inject_Z 0). rewrite <- Zle_Qle. lia. }
  induction fuel as [|fuel IH]; intros w r.
  - subst r. simpl. split; [lra|]. split; [left; reflexivity | exact I].
  - pose proof (poll_step env grounding_caption interval max_poll_seconds output_dir
                  start_time fuel w) as Hstep.
    fold loop in Hstep. fold r in Hstep. clearbody r.
    destruct Hstep as [Hpoll
                      | center box w2 t w3 saved Hpoll Hpolled Hsel Hcb Hlen Hc3 Hs3 Ht3
                      | center box w2 t Hpoll Hpolled Hsel Hlen
                      | w2 t Hpoll Hpolled Hsel Hiv'
                      | w2 t w3 Hpoll Hpolled Hsel Hiv' Hc3 Hs3 Ht3
                      | e w2 t Hpoll Hpolled Hsel
                      | e center box w2 t saved Hpoll Hpolled Hsel Hlen Hsave];
      try (pose proof (polled_clock_lower _ _ _ _ _ Hlat0 Hpolled) as Hlow;
           pose proof (polled_clock_upper _ _ _ _ _ _ Hlat Hpolled) as Hup;
           apply Qlt_bool_iff in Hpoll);
      cbn [fst snd].
    + split; [lra|]. split; [left; reflexivity | exact I].
    + rewrite Hc3. split; [lra|]. split; [right; lra | try exact I; try lra].
    + split; [lra|]. split; [right; lra | exact I].
    + destruct (IH (slept interval w2)) as (H1 & H2 & H3).
      simpl clock in H1, H2.
      simpl clock in H3.
      split; [lra|]. split; [right; destruct H2 as [H2 | H2]; lra | exact H3].
    + rewrite Hc3. split; [lra|]. split; [right; lra | try exact I; try lra].
    + split; [lra|]. split; [right; lra | exact I].
    + split; [lra|]. split; [right; lra | exact I].
Qed.

(** With a negative interval the loop ends in its first iteration: the
    sleep of a fruitless poll raises. *)
Lemma poll_loop_clock_negative D :
  (interval < 0)%Z ->
  (forall prompt image, 0 <= latency (grounding env prompt image) <= D) ->
  forall fuel w,
    let r := loop fuel w in
    clock w <= clock (snd r) <= clock w + D /\
    ((0 < fuel)%nat -> fst r <> Diverges).
Proof.
  intros Hiv Hlat.
  assert (Hlat0 : forall prompt image, 0 <= latency (grounding env prompt image)).
  { intros p i. apply Hlat. }
  assert (HD : 0 <= D).
  { specialize (Hlat [] (Screenshot 0)). lra. }
  assert (Hneg : Qle_bool 0 (inject_Z interval) = false).
  { destruct (Qle_bool 0 (inject_Z interval)) eqn:E; [|reflexivity].
    apply Qle_bool_iff in E. change 0 with (inject_Z 0) in E.
    rewrite <- Zle_Qle in E. lia. }
  intros [|fuel] w r.
  - subst r. cbn [loop poll_loop fst snd]. split; [lra | lia].
  - pose proof (poll_step env grounding_caption interval max_poll_seconds output_dir
                  start_time fuel w) as Hstep.
    fold loop in Hstep. fold r in Hstep. clearbody r.
    destruct Hstep as [Hpoll
                      | center box w2 t w3 saved Hpoll Hpolled Hsel Hcb Hlen Hc3 Hs3 Ht3
                      | center box w2 t Hpoll Hpolled Hsel Hlen
                      | w2 t Hpoll Hpolled Hsel Hiv'
                      | w2 t w3 Hpoll Hpolled Hsel Hiv' Hc3 Hs3 Ht3
                      | e w2 t Hpoll Hpolled Hsel
                      | e center box w2 t saved Hpoll Hpolled Hsel Hlen Hsave];
      try congruence;
      try (pose proof (polled_clock_lower _ _ _ _ _ Hlat0 Hpolled) as Hlow;
           pose proof (polled_clock_upper _ _ _ _ _ _ Hlat Hpolled) as Hup);
      cbn [fst snd]; try rewrite Hc3; (split; [lra | discriminate]).
Qed.

(** The loop ends when each fruitless iteration takes [d > 0] seconds or
    more: one iteration per [d] seconds of the limit, and one more to see
    the time-out. *)
Lemma poll_loop_terminates d :
  0 < d ->
  (forall prompt image, 0 <= latency (grounding env prompt image)) ->
  iteration_takes env grounding_caption interval d ->
  forall n fuel w,
    inject_Z max_poll_seconds - (clock w - start_time) <= inject_Z (Z.of_nat n) * d ->
    (n < fuel)%nat ->
    fst (loop fuel w) <> Diverges.
Proof.
  intros Hd Hlat Htakes.
  assert (Hstep_time : forall w w2 t,
             polled env grounding_caption w w2 t ->
             Qle_bool 0 (inject_Z interval) = true ->
             clock w + d <= clock (slept interval w2)).
  { intros w w2 t Hpolled Hiv. cbn [slept clock].
    apply Qle_bool_iff in Hiv.
    pose proof (detection_time_lower env grounding_caption (Screenshot (shots w)) Hlat) as Hlow.
    destruct Hpolled as (_ & _ & _ & Hc).
    destruct Htakes as [Hsleep | (s & Hs & Hcall)].
    - lra.
    - assert (d <= detection_time env grounding_caption (Screenshot (shots w))).
      { unfold detection_time. rewrite Hs. apply Hcall. }
      lra. }
  induction n as [|n IH]; intros fuel w Hrem Hfuel;
    (destruct fuel as [|fuel]; [lia|]);
    pose proof (poll_step env grounding_caption interval max_poll_seconds output_dir
                  start_time fuel w) as Hstep;
    fold loop in Hstep;
    remember (loop (S fuel) w) as r eqn:Er; clear Er;
    destruct Hstep as [Hpoll
                      | center box w2 t w3 saved Hpoll Hpolled Hsel Hcb Hlen Hc3 Hs3 Ht3
                      | center box w2 t Hpoll Hpolled Hsel Hlen
                      | w2 t Hpoll Hpolled Hsel Hiv'
                      | w2 t w3 Hpoll Hpolled Hsel Hiv' Hc3 Hs3 Ht3
                      | e w2 t Hpoll Hpolled Hsel
                      | e center box w2 t saved Hpoll Hpolled Hsel Hlen Hsave];
    try discriminate.
  - exfalso. apply Qlt_bool_iff in Hpoll. simpl in Hrem.
    change (inject_Z 0) with 0 in Hrem. lra.
  - apply IH; [|lia].
    pose proof (Hstep_time _ _ _ Hpolled Hiv') as Hadv.
    assert (Hsucc : inject_Z (Z.of_nat (S n)) * d == inject_Z (Z.of_nat n) * d + d).
    { rewrite inject_Z_succ. ring. }
    rewrite Hsucc in Hrem. lra.
Qed.

End PollingTime.

(** C6, as stated, fails: with a model that takes ten seconds per call and
    never finds a button, the default run (interval 3, limit 30) ends 39
    seconds after it started, later than 30 + 3 + 2.  With a negative limit
    or a negative interval the sum of the claim is negative, and a run
    that ends at once, by time-out or on the [ValueError] of the first
    sleep, is already past it. *)
Lemma slow_model_overruns_bound :
  (let r := run_live_mode Sample.env_slow 20 (JStr (lit "Skip")) 3 30 "live_outputs" (boot 0) in
   fst r = Returns timed_out /\
   clock (snd r) - clock (boot 0) == 39 /\
   ~ clock (snd r) - clock (boot 0) <= inject_Z 30 + inject_Z 3 + VERIFY_DELAY) /\
  (let r := run_live_mode Sample.env_skip 20 (JStr (lit "Skip")) 1 (-100) "live_outputs"
              (boot 0) in
   fst r = Returns timed_out /\
   clock (snd r) - clock (boot 0) == 0 /\
   ~ clock (snd r) - clock (boot 0) <= inject_Z (-100) + inject_Z 1 + VERIFY_DELAY) /\
  (let r := run_live_mode Sample.env_close 20 (JStr (lit "Skip")) (-5) 1 "live_outputs"
              (boot 0) in
   fst r = Raises ValueError /\
   clock (snd r) - clock (boot 0) == 0 /\
   ~ clock (snd r) - clock (boot 0) <= inject_Z 1 + inject_Z (-5) + VERIFY_DELAY).
Proof.
  split; [|split];
    (split; [vm_compute; reflexivity|]; split; [vm_compute; reflexivity|];
     vm_compute; intros H; apply H; reflexivity).
Qed.

(** C6, amended: with every model call taking between 0 and [D] seconds, a
    live run never goes past
    [max 0 max_poll_seconds + max 0 interval + VERIFY_DELAY + 2 * D]
    seconds on the clock, however it ends and whatever the fuel; and it
    ends, given the fuel, when the interval is negative or when each
    fruitless iteration takes some time [d > 0], through the sleep or
    through the model call.  The bound of the claim is the case [D = 0]
    with limit and interval not negative. *)
Theorem live_run_time_bound env grounding_caption interval max_poll_seconds output_dir
    D fuel w :
  (forall prompt image, 0 <= latency (grounding env prompt image) <= D) ->
  let r := run_live_mode env fuel grounding_caption interval max_poll_seconds
             output_dir w in
  clock (snd r) - clock w
    <= inject_Z (Z.max 0 max_poll_seconds) + inject_Z (Z.max 0 interval)
       + VERIFY_DELAY + 2 * D /\
  (forall d n,
      0 < d ->
      (interval < 0)%Z \/ iteration_takes env grounding_caption interval d ->
      inject_Z max_poll_seconds <= inject_Z (Z.of_nat n) * d ->
      (n < fuel)%nat ->
      fst r <> Diverges).
Proof.
  intros Hlat r. subst r.
  assert (Hlat0 : forall prompt image, 0 <= latency (grounding env prompt image)).
  { intros p i. apply Hlat. }
  assert (HD : 0 <= D).
  { specialize (Hlat [] (Screenshot 0)). lra. }
  assert (HM : 0 <= inject_Z (Z.max 0 max_poll_seconds) /\
               inject_Z max_poll_seconds <= inject_Z (Z.max 0 max_poll_seconds)).
  { split; [change 0 with (inject_Z 0)|]; rewrite <- Zle_Qle; lia. }
  assert (HI : 0 <= inject_Z (Z.max 0 interval) /\
               inject_Z interval <= inject_Z (Z.max 0 interval)).
  { split; [change 0 with (inject_Z 0)|]; rewrite <- Zle_Qle; lia. }
  destruct HM as [HM0 HM]. destruct HI as [HI0 HI].
  set (w0 := live_entry w interval max_poll_seconds output_dir).
  pose proof (live_run env grounding_caption interval max_poll_seconds output_dir fuel w)
    as Hrun.
  cbv beta in Hrun. fold w0 in Hrun.
  (* the clock when the loop ends *)
  assert (Hloop : clock w <= clock (snd (poll_loop env fuel grounding_caption interval
                                           max_poll_seconds output_dir (clock w) w0)) /\
                  clock (snd (poll_loop env fuel grounding_caption interval
                                max_poll_seconds output_dir (clock w) w0)) - clock w
                  <= inject_Z (Z.max 0 max_poll_seconds) + inject_Z (Z.max 0 interval) + D /\
                  match fst (poll_loop env fuel grounding_caption interval
                               max_poll_seconds output_dir (clock w) w0) with
                  | Returns (true, _) =>
                      clock (snd (poll_loop env fuel grounding_caption interval
                                    max_poll_seconds output_dir (clock w) w0)) - clock w
                      <= inject_Z (Z.max 0 max_poll_seconds) + D
                  | _ => True
                  end).
  { destruct (Z_le_gt_dec 0 interval) as [Hiv | Hiv].
    - destruct (poll_loop_clock env grounding_caption interval max_poll_seconds output_dir
                  (clock w) D Hiv Hlat fuel w0) as (Hc1 & Hc2 & Hc3).
      change (clock w0) with (clock w) in Hc1, Hc2.
      split; [exact Hc1|]. split; [destruct Hc2 as [Hc2 | Hc2]; lra|].
      destruct (fst (poll_loop env fuel grounding_caption interval max_poll_seconds
                       output_dir (clock w) w0)) as [[[|] position] | |];
        try exact I. lra.
    - destruct (poll_loop_clock_negative env grounding_caption interval max_poll_seconds
                  output_dir (clock w) D ltac:(lia) Hlat fuel w0) as ((Hc1 & Hc2) & _).
      change (clock w0) with (clock w) in Hc1, Hc2.
      split; [exact Hc1|]. split; [lra|].
      destruct (fst (poll_loop env fuel grounding_caption interval max_poll_seconds
                       output_dir (clock w) w0)) as [[[|] position] | |];
        try exact I. lra. }
  (* whether the loop ends *)
  assert (Hends : forall d n,
             0 < d ->
             (interval < 0)%Z \/ iteration_takes env grounding_caption interval d ->
             inject_Z max_poll_seconds <= inject_Z (Z.of_nat n) * d ->
             (n < fuel)%nat ->
             fst (poll_loop env fuel grounding_caption interval max_poll_seconds
                    output_dir (clock w) w0) <> Diverges).
  { intros d n Hd [Hneg | Htakes] Hn Hfuel.
    - apply (poll_loop_clock_negative env grounding_caption interval max_poll_seconds
               output_dir (clock w) D Hneg Hlat fuel w0). lia.
    - apply (poll_loop_terminates env grounding_caption interval max_poll_seconds
               output_dir (clock w) d Hd Hlat0 Htakes n); [|exact Hfuel].
      change (clock w0) with (clock w). lra. }
  destruct (poll_loop env fuel grounding_caption interval max_poll_seconds output_dir
              (clock w) w0) as [o wp].
  cbn [fst snd] in Hloop, Hends. destruct Hloop as (Hc1 & Hc2 & Hc3).
  unfold VERIFY_DELAY.
  destruct o as [[[|] [center|]] | e |]; rewrite Hrun.
  - destruct (verify_run env grounding_caption (clicked wp center))
      as (_ & _ & Hvc & Hvr).
    pose proof (select_converges env grounding_caption
                  (Screenshot (shots (clicked wp center)))) as Hsc.
    destruct (verify_skip_success env grounding_caption (clicked wp center))
      as [ov wv].
    cbn [fst snd] in Hvc, Hvr. change (clock (clicked wp center)) with (clock wp) in Hvc.
    unfold VERIFY_DELAY in Hvc.
    assert (Hv : clock wv <= clock wp + 2 + D).
    { destruct Hvc as [-> | [prompt ->]]; [lra|].
      specialize (Hlat prompt (Screenshot (shots (clicked wp center)))). lra. }
    split.
    + destruct ov as [[st msg] | e |]; cbn [snd]; lra.
    + intros d n _ _ _ _.
      destruct ov as [[st msg] | e |]; try discriminate.
      subst. destruct (select _ _ _) as [[? ?]| |]; try discriminate. contradiction.
  - destruct (verify_run env grounding_caption wp) as (_ & _ & Hvc & Hvr).
    pose proof (select_converges env grounding_caption (Screenshot (shots wp))) as Hsc.
    destruct (verify_skip_success env grounding_caption wp) as [ov wv].
    cbn [fst snd] in Hvc, Hvr. unfold VERIFY_DELAY in Hvc.
    assert (Hv : clock wv <= clock wp + 2 + D).
    { destruct Hvc as [-> | [prompt ->]]; [lra|].
      specialize (Hlat prompt (Screenshot (shots wp))). lra. }
    split.
    + destruct ov as [[st msg] | e |]; cbn [snd]; lra.
    + intros d n _ _ _ _.
      destruct ov as [[st msg] | e |]; try discriminate.
      subst. destruct (select _ _ _) as [[? ?]| |]; try discriminate. contradiction.
  - cbn [fst snd clock]. split; [lra | discriminate].
  - cbn [fst snd clock]. split; [lra | discriminate].
  - cbn [fst snd clock]. split; [lra | discriminate].
  - cbn [fst snd clock]. split; [lra|].
    intros d n Hd Hcase Hn Hfuel Hdiv. apply (Hends d n Hd Hcase Hn Hfuel). reflexivity.
Qed.

Lemma live_run_time_bound_witness :
  let r := run_live_mode Sample.env_slow 31 (JStr (lit "Skip")) 0 30 "live_outputs" (boot 0) in
  clock (snd r) - clock (boot 0)
    <= inject_Z (Z.max 0 30) + inject_Z (Z.max 0 0) + VERIFY_DELAY + 2 * 10 /\
  fst r <> Diverges.
Proof.
  destruct (live_run_time_bound Sample.env_slow (JStr (lit "Skip")) 0 30 "live_outputs"
              10 31 (boot 0)) as (Hbound & Hends).
  - intros prompt image. simpl. split; discriminate.
  - split; [exact Hbound|].
    apply (Hends 10 3%nat).
    + reflexivity.
    + right. right. exists (lit "Skip"). split; [reflexivity|].
      intros prompt image. simpl. discriminate.
    + vm_compute. discriminate.
    + lia.
Defined.

(* ------------------------------------------------------------------ *)
(** * The result of a live run *)

(** C8: a live run with enough fuel comes back (positive interval, model
    calls that take no negative time).  When it returns a result, either
    the loop timed out, every frame polled having given no detection, and
    the result is "partial" with the time-limit message and no clicked
    position; or frame [k] was the first with a detection, the click went
    to its center, that center is the result's clicked position, and after
    the fixed delay frame [k + 1] was captured: the status is "success"
    with no box detected there, "partial" with the advisory message
    otherwise. *)
Theorem live_result env grounding_caption interval max_poll_seconds output_dir :
  (forall fuel w res,
      let r := run_live_mode env fuel grounding_caption interval max_poll_seconds
                 output_dir w in
      fst r = Returns res ->
      (res = timed_out /\
       inject_Z max_poll_seconds <= clock (snd r) - clock w /\
       forall j, (shots w <= j < shots (snd r))%nat ->
                 detection env grounding_caption (Screenshot j) = Returns (None, None))
      \/
      (exists k center box vposition vbox,
          (shots w <= k)%nat /\
          (forall j, (shots w <= j < k)%nat ->
                     detection env grounding_caption (Screenshot j) = Returns (None, None)) /\
          detection env grounding_caption (Screenshot k) = Returns (Some center, Some box) /\
          clicked_at res = Some (Some center) /\
          (exists t1 t2,
              trace (snd r) =
              t1 ++ EClick (fst center) (snd center)
                 :: EPrint (MsgClicked (fst center) (snd center))
                 :: ESleep VERIFY_DELAY :: ECapture (S k) :: t2) /\
          detection env grounding_caption (Screenshot (S k)) = Returns (vposition, vbox) /\
          ((vbox = None /\ status res = "success"%string /\ message res = MSG_SKIPPED) \/
           (vbox <> None /\ status res = "partial"%string /\
            message res = MSG_STILL_PRESENT)))) /\
  ((0 < interval)%Z ->
   (forall prompt image, 0 <= latency (grounding env prompt image)) ->
   forall fuel w,
     (Z.to_nat max_poll_seconds < fuel)%nat ->
     fst (run_live_mode env fuel grounding_caption interval max_poll_seconds
            output_dir w) <> Diverges).
Proof.
  split.
  - intros fuel w res r Hret. subst r.
    pose proof (live_run env grounding_caption interval max_poll_seconds output_dir fuel w)
      as Hrun.
    cbv beta in Hrun.
    destruct (poll_loop_run env grounding_caption interval max_poll_seconds output_dir
                (clock w) fuel (live_entry w interval max_poll_seconds output_dir))
      as (Hle & _ & Hres).
    destruct (poll_loop env fuel grounding_caption interval max_poll_seconds output_dir
                (clock w) (live_entry w interval max_poll_seconds output_dir))
      as [o wp].
    cbn [fst snd] in Hle, Hres.
    change (shots (live_entry w interval max_poll_seconds output_dir))
      with (shots w) in *.
    destruct o as [[[|] [center|]] | e |];
      try (rewrite Hrun in Hret; discriminate Hret).
    + right.
      destruct Hres as (k & box & c0 & Hk & Hkle & Hsel & Hp & Hbefore).
      injection Hp as <-.
      destruct (verify_run env grounding_caption (clicked wp center))
        as (_ & (tv & Htv & _) & _ & Hvr).
      change (shots (clicked wp center)) with (shots wp) in *.
      rewrite Hk in *.
      rewrite Hrun in Hret |- *.
      destruct (verify_skip_success env grounding_caption (clicked wp center))
        as [ov wv].
      cbn [fst snd] in Htv, Hvr.
      destruct (select env grounding_caption (Screenshot (S k)))
        as [[vposition vbox] | e |] eqn:Hvsel; subst ov; try discriminate Hret.
      exists k, center, box, vposition, vbox.
      split; [exact Hkle|]. split.
      { intros j Hj. rewrite detection_select. apply Hbefore, Hj. }
      split; [rewrite detection_select; exact Hsel|].
      destruct vbox as [vb|]; cbn [is_None] in Hret |- *; cbn [fst snd] in Hret |- *;
        injection Hret as <-; cbn [clicked_at status message].
      * split; [reflexivity|]. split.
        { exists (trace wp), tv. rewrite Htv. unfold clicked. cbn [trace].
          rewrite <- !app_assoc. reflexivity. }
        split; [rewrite detection_select; exact Hvsel|].
        right. repeat split; auto. discriminate.
      * split; [reflexivity|]. split.
        { exists (trace wp), tv. rewrite Htv. unfold clicked. cbn [trace].
          rewrite <- !app_assoc. reflexivity. }
        split; [rewrite detection_select; exact Hvsel|].
        left. repeat split; auto.
    + destruct Hres as (k & box & c0 & _ & _ & _ & Hp & _). discriminate.
    + left. destruct Hres as (_ & Hpoll & Hall).
      rewrite Hrun in Hret |- *. cbn [fst snd clock shots] in Hret |- *.
      injection Hret as <-. split; [reflexivity|]. split.
      * apply Qlt_bool_false in Hpoll. exact Hpoll.
      * intros j Hj. rewrite detection_select. apply Hall, Hj.
    + left. destruct Hres as (_ & Hpoll & Hall).
      rewrite Hrun in Hret |- *. cbn [fst snd clock shots] in Hret |- *.
      injection Hret as <-. split; [reflexivity|]. split.
      * apply Qlt_bool_false in Hpoll. exact Hpoll.
      * intros j Hj. rewrite detection_select. apply Hall, Hj.
  - intros Hiv Hlat fuel w Hfuel.
    pose proof (live_run env grounding_caption interval max_poll_seconds output_dir fuel w)
      as Hrun.
    cbv beta in Hrun.
    set (w0 := live_entry w interval max_poll_seconds output_dir) in *.
    assert (Hconv : fst (poll_loop env fuel grounding_caption interval max_poll_seconds
                           output_dir (clock w) w0) <> Diverges).
    { apply (poll_loop_converges env grounding_caption interval max_poll_seconds
               output_dir (clock w) Hiv Hlat (Z.to_nat max_poll_seconds));
        [|exact Hfuel].
      assert (Hm : inject_Z max_poll_seconds
                   <= inject_Z (Z.of_nat (Z.to_nat max_poll_seconds))).
      { rewrite <- Zle_Qle. lia. }
      subst w0. simpl clock. lra. }
    destruct (poll_loop env fuel grounding_caption interval max_poll_seconds output_dir
                (clock w) w0) as [o wp].
    cbn [fst] in Hconv.
    destruct o as [[[|] [center|]] | e |]; try contradiction; rewrite Hrun;
      try discriminate.
    + destruct (verify_run env grounding_caption (clicked wp center)) as (_ & _ & _ & Hvr).
      pose proof (select_converges env grounding_caption
                    (Screenshot (shots (clicked wp center)))) as Hsc.
      destruct (verify_skip_success env grounding_caption (clicked wp center))
        as [ov wv].
      cbn [fst] in Hvr. subst ov.
      change (shots (clicked wp center)) with (shots wp) in *.
      destruct (select env grounding_caption (Screenshot (shots wp))) as [[? b]| |];
        [destruct (is_None b); discriminate | discriminate | contradiction].
    + destruct (verify_run env grounding_caption wp) as (_ & _ & _ & Hvr).
      pose proof (select_converges env grounding_caption (Screenshot (shots wp))) as Hsc.
      destruct (verify_skip_success env grounding_caption wp) as [ov wv].
      cbn [fst] in Hvr. subst ov.
      destruct (select env grounding_caption (Screenshot (shots wp))) as [[? b]| |];
        [destruct (is_None b); discriminate | discriminate | contradiction].
Qed.

Lemma live_result_witness :
  let r := run_live_mode Sample.env_skip 31 (JStr (lit "Skip")) 3 30 "live_outputs" (boot 0) in
  let res := {| status := "partial"; message := MSG_STILL_PRESENT;
                clicked_at := Some (Some (110, 205)%Z) |} in
  ((res = timed_out /\
    inject_Z 30 <= clock (snd r) - clock (boot 0) /\
    forall j, (shots (boot 0) <= j < shots (snd r))%nat ->
              detection Sample.env_skip (JStr (lit "Skip")) (Screenshot j)
              = Returns (None, None))
   \/
   (exists k center box vposition vbox,
       (shots (boot 0) <= k)%nat /\
       (forall j, (shots (boot 0) <= j < k)%nat ->
                  detection Sample.env_skip (JStr (lit "Skip")) (Screenshot j)
                  = Returns (None, None)) /\
       detection Sample.env_skip (JStr (lit "Skip")) (Screenshot k)
         = Returns (Some center, Some box) /\
       clicked_at res = Some (Some center) /\
       (exists t1 t2,
           trace (snd r) =
           t1 ++ EClick (fst center) (snd center)
              :: EPrint (MsgClicked (fst center) (snd center))
              :: ESleep VERIFY_DELAY :: ECapture (S k) :: t2) /\
       detection Sample.env_skip (JStr (lit "Skip")) (Screenshot (S k))
         = Returns (vposition, vbox) /\
       ((vbox = None /\ status res = "success"%string /\ message res = MSG_SKIPPED) \/
        (vbox <> None /\ status res = "partial"%string /\
         message res = MSG_STILL_PRESENT)))) /\
  fst r <> Diverges.
Proof.
  split.
  - apply (proj1 (live_result Sample.env_skip (JStr (lit "Skip")) 3 30 "live_outputs")
             31%nat (boot 0)).
    vm_compute. reflexivity.
  - apply (proj2 (live_result Sample.env_skip (JStr (lit "Skip")) 3 30 "live_outputs")).
    + reflexivity.
    + intros prompt image. simpl. discriminate.
    + vm_compute. lia.
Defined.

(* ------------------------------------------------------------------ *)
(** * A failed inference at verification time *)

(** C10: the verifier's answer is a function of the detection on the
    frame it captures and of nothing else: "success" when that detection
    carries no box, "partial" when it carries one.  So when the [try] block
    of that detection raises an [Exception], the detection is
    [(None, None)] and the verifier answers "success", the answer it gives
    in an environment whose model sees no button. *)
Theorem verify_failure_counts_as_success env grounding_caption w e :
  fst (detect_body env grounding_caption (Screenshot (shots w)) (boot 0)) = Raises e ->
  is_Exception e = true ->
  fst (verify_skip_success env grounding_caption w)
    = Returns ("success"%string, MSG_SKIPPED) /\
  detection env grounding_caption (Screenshot (shots w)) = Returns (None, None) /\
  (forall env' w',
      fst (detect_body env' grounding_caption (Screenshot (shots w')) (boot 0))
        = Returns (None, None) ->
      fst (verify_skip_success env' grounding_caption w')
        = fst (verify_skip_success env grounding_caption w)) /\
  (forall env' w',
      fst (verify_skip_success env' grounding_caption w') =
      match detection env' grounding_caption (Screenshot (shots w')) with
      | Returns (_, bbox) =>
          Returns (if is_None bbox then ("success"%string, MSG_SKIPPED)
                   else ("partial"%string, MSG_STILL_PRESENT))
      | Raises e' => Raises e'
      | Diverges => Diverges
      end) /\
  (forall env' w' position box,
      detection env' grounding_caption (Screenshot (shots w')) = Returns (position, Some box) ->
      fst (verify_skip_success env' grounding_caption w')
        = Returns ("partial"%string, MSG_STILL_PRESENT)).
Proof.
  intros Hbody Hex.
  destruct (detect_body_run env grounding_caption (Screenshot (shots w)) (boot 0))
    as (Hb & _).
  rewrite Hbody in Hb.
  assert (Hsel : select env grounding_caption (Screenshot (shots w)) = Returns (None, None)).
  { unfold select. rewrite <- Hb, Hex. reflexivity. }
  assert (Hv : fst (verify_skip_success env grounding_caption w)
               = Returns ("success"%string, MSG_SKIPPED)).
  { destruct (verify_run env grounding_caption w) as (_ & _ & _ & Hr).
    rewrite Hr, Hsel. reflexivity. }
  assert (Hfun : forall env' w',
             fst (verify_skip_success env' grounding_caption w') =
             match detection env' grounding_caption (Screenshot (shots w')) with
             | Returns (_, bbox) =>
                 Returns (if is_None bbox then ("success"%string, MSG_SKIPPED)
                          else ("partial"%string, MSG_STILL_PRESENT))
             | Raises e' => Raises e'
             | Diverges => Diverges
             end).
  { intros env' w'.
    destruct (verify_run env' grounding_caption w') as (_ & _ & _ & Hr').
    rewrite Hr', detection_select. reflexivity. }
  split; [exact Hv|]. split; [rewrite detection_select; exact Hsel|].
  split; [|split; [exact Hfun|]].
  - intros env' w' Hbody'.
    destruct (detect_body_run env' grounding_caption (Screenshot (shots w')) (boot 0))
      as (Hb' & _).
    rewrite Hbody' in Hb'.
    destruct (verify_run env' grounding_caption w') as (_ & _ & _ & Hr').
    rewrite Hr', Hv. unfold select. rewrite <- Hb'. reflexivity.
  - intros env' w' position box Hdet. rewrite Hfun, Hdet. reflexivity.
Qed.

Lemma verify_failure_counts_as_success_witness :
  fst (verify_skip_success Sample.env_model_error (JStr (lit "Skip")) (boot 0))
    = Returns ("success"%string, MSG_SKIPPED) /\
  detection Sample.env_model_error (JStr (lit "Skip")) (Screenshot (shots (boot 0)))
    = Returns (None, None) /\
  (forall env' w',
      fst (detect_body env' (JStr (lit "Skip")) (Screenshot (shots w')) (boot 0))
        = Returns (None, None) ->
      fst (verify_skip_success env' (JStr (lit "Skip")) w')
        = fst (verify_skip_success Sample.env_model_error (JStr (lit "Skip")) (boot 0))) /\
  fst (verify_skip_success Sample.env_skip (JStr (lit "Skip")) (boot 0))
    = Returns ("partial"%string, MSG_STILL_PRESENT).
Proof.
  destruct (verify_failure_counts_as_success Sample.env_model_error (JStr (lit "Skip"))
              (boot 0) RuntimeError eq_refl eq_refl) as (H1 & H2 & H3 & _ & H5).
  split; [exact H1|]. split; [exact H2|]. split; [exact H3|].
  apply (H5 Sample.env_skip (boot 0) (Some (110, 205)%Z) Sample.skip_box).
  vm_compute. reflexivity.
Defined.

(* ------------------------------------------------------------------ *)
(** * Settings *)

Lemma load_settings_bad env w :
  BadSettings (settings_json env) ->
  exists msg,
    load_settings env w =
    (Returns None,
     {| clock := clock w; shots := shots w; trace := trace w ++ [EPrint msg] |}).
Proof.
  intros H. unfold load_settings, try_except_Exception.
  inversion H as [Heq | Heq | members Hget Heq | members Hget Heq].
  - eexists. reflexivity.
  - eexists. reflexivity.
  - cbv [bind ret settings_get]. rewrite Hget. eexists. reflexivity.
  - cbv [bind ret settings_get]. rewrite Hget. eexists. reflexivity.
Qed.

(** C7: with the settings file missing, not valid JSON, or without a
    non-empty [grounding_caption], [main] ends in [sys.exit(1)] after the
    one line that reports the error: nothing else happens, in particular
    no model or processor load. *)
Theorem bad_settings_exit_before_load env fuel args w :
  BadSettings (settings_json env) ->
  let r := main env fuel args w in
  fst r = Raises (SystemExit 1) /\
  exists t,
    trace (snd r) = trace w ++ t /\
    List.length t = 1%nat /\
    existsb is_load t = false.
Proof.
  intros H r. subst r.
  destruct (load_settings_bad env w H) as (msg & Hload).
  assert (Hmain : main env fuel args w =
                  (Raises (SystemExit 1),
                   {| clock := clock w; shots := shots w;
                      trace := trace w ++ [EPrint msg] |})).
  { unfold main. unfold bind at 1. rewrite Hload. reflexivity. }
  rewrite Hmain. split; [reflexivity|].
  exists [EPrint msg]. repeat split; reflexivity.
Qed.

Lemma bad_settings_exit_before_load_witness :
  (fst (main (SampleFiles.with_settings Absent) 31 SampleFiles.live_args (boot 0))
   = Raises (SystemExit 1)) /\
  (fst (main (SampleFiles.with_settings (Present (inl JSONDecodeError))) 31
          SampleFiles.live_args (boot 0))
   = Raises (SystemExit 1)) /\
  (fst (main (SampleFiles.with_settings SampleFiles.no_caption) 31
          SampleFiles.live_args (boot 0))
   = Raises (SystemExit 1)) /\
  (fst (main (SampleFiles.with_settings SampleFiles.empty_caption) 31
          SampleFiles.live_args (boot 0))
   = Raises (SystemExit 1)).
Proof.
  split; [|split; [|split]].
  - apply (bad_settings_exit_before_load (SampleFiles.with_settings Absent) 31%nat
             SampleFiles.live_args (boot 0)).
    apply SettingsMissing.
  - apply (bad_settings_exit_before_load
             (SampleFiles.with_settings (Present (inl JSONDecodeError))) 31%nat
             SampleFiles.live_args (boot 0)).
    apply SettingsNotJson.
  - apply (bad_settings_exit_before_load
             (SampleFiles.with_settings SampleFiles.no_caption) 31%nat
             SampleFiles.live_args (boot 0)).
    apply SettingsNoCaption. reflexivity.
  - apply (bad_settings_exit_before_load
             (SampleFiles.with_settings SampleFiles.empty_caption) 31%nat
             SampleFiles.live_args (boot 0)).
    apply SettingsEmptyCaption. reflexivity.
Defined.

(* ------------------------------------------------------------------ *)
(** * Test mode *)

Section TestMode.

Variable env : Env.
Variable grounding_caption : json.
Variable output_dir : string.

(** One file of the test loop. *)
Lemma test_one_run img_path w :
  let r := test_one env grounding_caption output_dir img_path w in
  (forall rec, fst r = Returns rec -> recorded env grounding_caption rec img_path) /\
  (drawable env grounding_caption output_dir img_path -> exists rec, fst r = Returns rec).
Proof.
  unfold test_one. cbv [bind print emit process_image ret raise].
  cbn [clock shots trace].
  destruct (image_open env img_path) as [eo|] eqn:Hopen.
  { cbn [fst]. split; [discriminate|]. intros (Hcontra & _). congruence. }
  match goal with |- context [detect_skip_button env grounding_caption _ ?w1] =>
    destruct (detect_run env grounding_caption (FileImage img_path) w1) as (Hr & _);
    destruct (detect_skip_button env grounding_caption (FileImage img_path) w1)
      as [o w2] end.
  cbn [fst] in Hr. subst o. unfold recorded, drawable.
  destruct (select env grounding_caption (FileImage img_path))
    as [[position bbox] | e |] eqn:Hsel.
  - destruct (select_shape _ _ _ _ _ Hsel) as [[-> ->] | (c & b & -> & -> & Hcb)].
    + cbn. split.
      * intros rec H. injection H as <-. cbn. auto.
      * intros _. eexists. reflexivity.
    + rewrite (center_truthy _ _ Hcb). cbv [draw_bbox_on_image].
      rewrite (center_truthy _ _ Hcb).
      destruct b as [|x1 [|y1 [|x2 [|y2 [|z more]]]]]; try discriminate.
      * destruct (image_save env (FileImage img_path) [x1; y1; x2; y2]
                    (path_join output_dir ("output_" ++ basename img_path)))
          as [es|] eqn:Hsave.
        -- cbn. split; [discriminate|].
           intros (_ & position & box & Hs & Hbox). injection Hs as _ <-.
           destruct (Hbox _ eq_refl) as (_ & Hnone).
           discriminate (eq_trans (eq_sym Hsave) Hnone).
        -- cbn. split.
           ++ intros rec H. injection H as <-. cbn. auto.
           ++ intros _. eexists. reflexivity.
      * cbn. split; [discriminate|].
        intros (_ & position & box & Hs & Hbox). injection Hs as _ <-.
        destruct (Hbox _ eq_refl) as (Hlen & _). simpl in Hlen. lia.
  - cbn. split; [discriminate|]. intros (_ & position & box & Hs & _). discriminate.
  - cbn. split; [discriminate|]. intros (_ & position & box & Hs & _). discriminate.
Qed.

Lemma test_loop_cons img_path rest results :
  test_loop env grounding_caption output_dir (img_path :: rest) results =
  (result <- test_one env grounding_caption output_dir img_path ;;
   test_loop env grounding_caption output_dir rest (results ++ [result])).
Proof. reflexivity. Qed.





End TestMode.





(* ================================================================== *)
(** * Further properties of the detection *)

(** ** Trimming does not matter to the match *)

(** The characters a literal of [(?i)skip] accepts. *)
Lemma skip_literal_chars lo ch :
  In lo (lit "skip") ->
  Re.literal_ignore lo ch = true ->
  In ch [83; 115; 383; 75; 107; 8490; 73; 105; 304; 305; 80; 112]%N.
Proof.
  intros Hlo H.
  assert (Hcases : lo = 115%N \/ lo = 107%N \/ lo = 105%N \/ lo = 112%N).
  { vm_compute in Hlo. intuition. }
  unfold Re.literal_ignore, Re.sre_lower, Re.ignorecase_fixes in H.
  destruct Hcases as [-> | [-> | [-> | ->]]]; cbn in H;
    repeat match type of H with
      | context [if ?b then _ else _] => destruct b eqn:?
      end;
    rewrite ?orb_false_r in H;
    repeat match goal with
      | E : andb _ _ = true |- _ => apply andb_true_iff in E; destruct E
      | E : orb _ _ = true |- _ => apply orb_true_iff in E; destruct E
      | E : (_ =? _)%N = true |- _ => apply N.eqb_eq in E
      | E : (_ <=? _)%N = true |- _ => apply N.leb_le in E
      end;
    try discriminate;
    cbn; lia.
Qed.

Lemma skip_literal_not_space lo ch :
  In lo (lit "skip") -> isspace ch = true -> Re.literal_ignore lo ch = false.
Proof.
  intros Hlo Hsp.
  destruct (Re.literal_ignore lo ch) eqn:E; [|reflexivity].
  apply (skip_literal_chars lo ch Hlo) in E.
  cbn in E.
  repeat (destruct E as [E | E]; [subst ch; vm_compute in Hsp; discriminate|]).
  contradiction.
Qed.

Section Trimming.

(** A pattern none of whose literals matches a whitespace character. *)
Variable p : Re.pattern.
Hypothesis solid :
  forall lo ch, In lo p -> isspace ch = true -> Re.literal_ignore lo ch = false.
Hypothesis nonempty : p <> [].

Lemma search_of_match s : Re.match_here p s = true -> Re.search p s = true.
Proof. intros H. destruct s; simpl; rewrite H; reflexivity. Qed.

Lemma match_here_space ch s : isspace ch = true -> Re.match_here p (ch :: s) = false.
Proof.
  intros Hsp. destruct p as [|lo p'] eqn:Ep; [contradiction|].
  simpl. rewrite (solid lo ch (or_introl eq_refl) Hsp). reflexivity.
Qed.

Lemma search_lstrip_eq s : Re.search p (lstrip s) = Re.search p s.
Proof.
  induction s as [|c s IH]; [reflexivity|].
  cbn [lstrip]. destruct (isspace c) eqn:Hc; [|reflexivity].
  rewrite IH. cbn [Re.search]. rewrite (match_here_space c s Hc). reflexivity.
Qed.

Lemma match_here_nil_pattern q : Re.match_here q [] = true -> q = [].
Proof. destruct q; [reflexivity|discriminate]. Qed.

Lemma match_here_into_rstrip s :
  forall q, (forall lo, In lo q -> In lo p) ->
            Re.match_here q s = true -> Re.match_here q (rstrip s) = true.
Proof.
  induction s as [|c s IH]; intros q Hq H; [exact H|].
  destruct q as [|lo q']; [reflexivity|].
  cbn [Re.match_here] in H. apply andb_true_iff in H. destruct H as [Hlit Hrest].
  assert (Hc : isspace c = false).
  { destruct (isspace c) eqn:Hc; [|reflexivity].
    rewrite (solid lo c (Hq lo (or_introl eq_refl)) Hc) in Hlit. discriminate. }
  specialize (IH q' (fun l Hl => Hq l (or_intror Hl)) Hrest).
  cbn [rstrip]. destruct (rstrip s) as [|c' r] eqn:Er.
  - rewrite Hc. apply match_here_nil_pattern in IH. subst q'.
    cbn [Re.match_here]. rewrite Hlit. reflexivity.
  - cbn [Re.match_here]. rewrite Hlit. exact IH.
Qed.

Lemma search_nil_pattern : Re.search p [] = false.
Proof. destruct p; [contradiction|reflexivity]. Qed.

Lemma search_into_rstrip s : Re.search p s = true -> Re.search p (rstrip s) = true.
Proof.
  induction s as [|c s IH]; intros H; [exact H|].
  cbn [Re.search] in H. apply orb_true_iff in H. destruct H as [H | H].
  - apply search_of_match. apply match_here_into_rstrip; [auto|exact H].
  - specialize (IH H). cbn [rstrip].
    destruct (rstrip s) as [|c' r] eqn:Er.
    + rewrite search_nil_pattern in IH. discriminate.
    + cbn [Re.search]. cbn [Re.search] in IH. rewrite IH. apply orb_true_r.
Qed.

Lemma search_strip_eq s : Re.search p (strip s) = Re.search p s.
Proof.
  unfold strip. rewrite <- (search_lstrip_eq s).
  destruct (Re.search p (lstrip s)) eqn:E.
  - apply search_into_rstrip. exact E.
  - destruct (Re.search p (rstrip (lstrip s))) eqn:E'; [|reflexivity].
    apply search_rstrip in E'. congruence.
Qed.

End Trimming.

(** X1.  Trimming the label (line 83) never changes the verdict of line 85:
    a label matches after [strip()] exactly when [(?i)skip] is found in the
    label as the model returned it, because no letter of the pattern matches
    a whitespace character. *)
Theorem trimming_is_immaterial label :
  matches_skip label = Re.search (lit "skip") label.
Proof.
  unfold matches_skip, SKIP_AD_PATTERNS. cbn [existsb]. rewrite orb_false_r.
  apply search_strip_eq.
  - intros lo ch. apply skip_literal_not_space.
  - discriminate.
Qed.

(** ** Where the click lands *)




(** ** The area is signed *)



(** ** Missing keys *)

(** X4.  A parsed result without the task key, or whose entry lacks
    ['bboxes'] or ['labels'], is read with the defaults of lines 77-79: the
    scan has nothing to look at, and the call reports that no valid button
    was detected (line 99), not an error, after the one model call. *)
Theorem missing_keys_mean_no_detection env s image w parsed :
  output (grounding env (GROUNDING_TASK ++ s) image) = inr parsed ->
  match parsed with
  | None => True
  | Some g => bboxes g = None \/ labels g = None
  end ->
  detect_skip_button env (JStr s) image w =
  (Returns (None, None),
   {| clock := clock w + latency (grounding env (GROUNDING_TASK ++ s) image);
      shots := shots w;
      trace := (trace w ++ [EInfer (GROUNDING_TASK ++ s) image])
               ++ [EPrint MsgNoValidSkip] |}).
Proof.
  intros Hout Hmissing.
  unfold detect_skip_button, try_except_Exception, detect_body, make_prompt,
    run_grounding, bind, ret.
  rewrite Hout.
  destruct parsed as [[bs ls]|]; cbn [bboxes labels] in *; [|reflexivity].
  destruct Hmissing as [-> | ->].
  - reflexivity.
  - destruct bs as [[|b bs]|]; reflexivity.
Qed.

Lemma missing_keys_mean_no_detection_witness :
  detect_skip_button SampleRuns.env_no_labels (JStr (lit "Skip")) (Screenshot 0) (boot 0) =
  (Returns (None, None),
   {| clock := clock (boot 0)
               + latency (grounding SampleRuns.env_no_labels
                            (GROUNDING_TASK ++ lit "Skip") (Screenshot 0));
      shots := shots (boot 0);
      trace := (trace (boot 0) ++ [EInfer (GROUNDING_TASK ++ lit "Skip") (Screenshot 0)])
               ++ [EPrint MsgNoValidSkip] |}).
Proof.
  apply (missing_keys_mean_no_detection SampleRuns.env_no_labels (lit "Skip")
           (Screenshot 0) (boot 0)
           (Some {| bboxes := Some [Sample.skip_box]; labels := None |})).
  - reflexivity.
  - right. reflexivity.
Defined.

(** ** Failures inside the detection *)

(** A caption that is not a string makes line 62 raise [TypeError]: the
    detection reports the error without calling the model. *)
Lemma non_string_caption_detects_nothing env caption image w :
  (forall s, caption <> JStr s) ->
  detect_skip_button env caption image w =
  (Returns (None, None), extended w [EPrint (MsgErrorDetecting TypeError)]).
Proof.
  intros Hcaption.
  destruct caption as [| b | q | s | items | members];
    try reflexivity.
  contradiction (Hcaption s). reflexivity.
Qed.

(** X5.  A box with fewer than four coordinates under a matching label
    ends the scan with the [IndexError] of line 87: the detection reports
    the error and returns (None, None), also when a later pair of the same
    answer would have passed the filter. *)
Theorem short_box_hides_later_matches env s image w pre box label post :
  model_pairs env (GROUNDING_TASK ++ s) image = pre ++ (box, label) :: post ->
  forallb passed_over pre = true ->
  matches_skip label = true ->
  (List.length box < 4)%nat ->
  let r := detect_skip_button env (JStr s) image w in
  fst r = Returns (None, None) /\
  exists t, trace (snd r) = trace w ++ t ++ [EPrint (MsgErrorDetecting IndexError)].
Proof.
  intros Hpairs Hpre Hmatch Hshort r. subst r.
  assert (Hbody : body_outcome env (JStr s) image = Raises IndexError).
  { unfold body_outcome.
    destruct (output (grounding env (GROUNDING_TASK ++ s) image)) as [e | parsed] eqn:Hout.
    { unfold model_pairs in Hpairs. rewrite Hout in Hpairs.
      destruct pre; discriminate Hpairs. }
    rewrite Hpairs, (scan_passes_over pre _ Hpre), scan_cons, Hmatch.
    destruct box as [|x1 [|y1 [|x2 [|y2 more]]]]; try reflexivity.
    cbn [List.length] in Hshort. lia. }
  destruct (detect_body_run env (JStr s) image w) as (Hfst & _ & (t & Ht & _) & _).
  unfold detect_skip_button, try_except_Exception.
  destruct (detect_body env (JStr s) image w) as [o wb].
  cbn [fst snd] in Hfst, Ht. rewrite Hbody in Hfst. subst o.
  cbn [is_Exception]. cbv [bind print emit ret]. cbn [fst snd trace].
  split; [reflexivity|]. exists t. rewrite Ht. now rewrite <- app_assoc.
Qed.

Lemma short_box_hides_later_matches_witness :
  let r := detect_skip_button Sample.env_malformed (JStr (lit "Skip")) (Screenshot 0)
             (boot 0) in
  fst r = Returns (None, None) /\
  exists t, trace (snd r) = trace (boot 0) ++ t ++ [EPrint (MsgErrorDetecting IndexError)].
Proof.
  apply (short_box_hides_later_matches Sample.env_malformed (lit "Skip") (Screenshot 0)
           (boot 0) [] [1; 2; 3]%Z (lit "skip") [(Sample.skip_box, lit "skip")]).
  - vm_compute. reflexivity.
  - reflexivity.
  - vm_compute. reflexivity.
  - cbn. lia.
Defined.

(* ================================================================== *)
(** * Further properties of the settings and of [main] *)

Lemma load_settings_accepted env w members caption :
  accepted_settings env members caption ->
  load_settings env w = (Returns (Some (JObj members)), w).
Proof.
  intros (Hfile & Hget & Htrue).
  unfold load_settings, try_except_Exception. rewrite Hfile.
  cbv [bind ret settings_get]. rewrite Hget. cbv [ret falsy]. rewrite Htrue.
  reflexivity.
Qed.

(** X6.  [load_settings] hands back the settings exactly when the file
    parses to a JSON object whose [grounding_caption] counts as true, and
    then it prints nothing.  So a file holding a list or a number, and the
    captions [null], [false], [0], the empty string, list and object are
    all turned down, while a caption that is true without being a string
    (a number, a list) is accepted. *)
Theorem load_settings_accepts env w :
  (forall members caption,
      accepted_settings env members caption ->
      load_settings env w = (Returns (Some (JObj members)), w)) /\
  (forall settings,
      fst (load_settings env w) = Returns (Some settings) ->
      exists members caption,
        settings = JObj members /\ accepted_settings env members caption).
Proof.
  split; [intros members caption; apply load_settings_accepted|].
  intros settings H.
  unfold load_settings, try_except_Exception in H.
  destruct (settings_json env) as [|[e | v]] eqn:Hfile.
  - discriminate H.
  - unfold bind, raise in H. cbn in H. destruct (is_Exception e); discriminate H.
  - destruct v as [| b | q | s | items | members];
      try (cbn in H; discriminate H).
    cbv [bind ret settings_get] in H.
    destruct (dict_get members (lit "grounding_caption")) as [caption|] eqn:Hget;
      [|cbn in H; discriminate H].
    cbv [ret falsy] in H. destruct (truthy caption) eqn:Htrue;
      [|cbn in H; discriminate H].
    cbn in H. injection H as <-.
    exists members, caption. split; [reflexivity|].
    split; [exact Hfile|]. split; assumption.
Qed.

Lemma load_settings_accepts_witness :
  load_settings (SampleRuns.configured (fun _ _ => Sample.answer 0 [] []) None None) (boot 0)
  = (Returns (Some (JObj [(lit "grounding_caption", JStr (lit "Skip"))])), boot 0).
Proof.
  apply (proj1 (load_settings_accepts _ (boot 0)) _ (JStr (lit "Skip"))).
  split; [reflexivity|]. split; reflexivity.
Defined.

Lemma extended_extended w t1 t2 : extended (extended w t1) t2 = extended w (t1 ++ t2).
Proof. unfold extended. cbn [clock shots trace]. rewrite app_assoc. reflexivity. Qed.

Lemma emit_extended ev w : emit ev w = (Returns tt, extended w [ev]).
Proof. reflexivity. Qed.

(** [main] once the settings are accepted: the [try] statement of lines
    207-232 around the two loads and the dispatch on the mode. *)
Lemma main_accepted env fuel args w members caption :
  accepted_settings env members caption ->
  main env fuel args w =
  try_finally
    (try_except_Exception
       (load ELoadModel (model_load env) ;;
        load ELoadProcessor (processor_load env) ;;
        dispatch env fuel caption args)
       (fun e => print (MsgFatal e) ;; sys_exit 1))
    (del_local (is_None (model_load env)) ;;
     del_local (is_None (model_load env) && is_None (processor_load env)) ;;
     emit EGcCollect ;;
     (if cuda_available env then emit EEmptyCache else ret tt) ;;
     print MsgScriptEnded) w.
Proof.
  intros Hacc. pose proof Hacc as (Hfile & Hget & Htrue).
  unfold main. unfold bind at 1.
  rewrite (load_settings_accepted env w members caption Hacc).
  destruct members as [|m members']; [discriminate Hget|].
  cbn [truthy negb]. unfold bind at 1. unfold settings_getitem.
  rewrite Hget. reflexivity.
Qed.

(** The [finally] block when both names are bound. *)
Lemma cleanup_run env w :
  model_load env = None -> processor_load env = None ->
  (del_local (is_None (model_load env)) ;;
   del_local (is_None (model_load env) && is_None (processor_load env)) ;;
   emit EGcCollect ;;
   (if cuda_available env then emit EEmptyCache else ret tt) ;;
   print MsgScriptEnded) w
  = (Returns tt, extended w (cleanup_events env)).
Proof.
  intros Hm Hp. rewrite Hm, Hp. unfold cleanup_events, extended.
  destruct (cuda_available env);
    cbv [bind del_local is_None andb emit print ret];
    cbn [clock shots trace]; rewrite <- ?app_assoc; reflexivity.
Qed.

Lemma loads_run env (k : M unit) w :
  model_load env = None -> processor_load env = None ->
  (load ELoadModel (model_load env) ;; load ELoadProcessor (processor_load env) ;; k) w
  = k (loaded w).
Proof. intros Hm Hp. rewrite Hm, Hp. reflexivity. Qed.

Lemma main_loaded env fuel args w members caption :
  accepted_settings env members caption ->
  model_load env = None -> processor_load env = None ->
  main env fuel args w =
  match dispatch env fuel caption args (loaded w) with
  | (Returns _, w') => (Returns tt, extended w' (cleanup_events env))
  | (Raises e, w') =>
      (Raises (exit_of e), extended w' (fatal_events e ++ cleanup_events env))
  | (Diverges, w') => (Diverges, w')
  end.
Proof.
  intros Hacc Hm Hp.
  rewrite (main_accepted env fuel args w members caption Hacc).
  unfold try_finally, try_except_Exception.
  rewrite (loads_run env (dispatch env fuel caption args) w Hm Hp).
  destruct (dispatch env fuel caption args (loaded w)) as [[[] | e |] w'].
  - rewrite (cleanup_run env w' Hm Hp). reflexivity.
  - unfold exit_of, fatal_events. destruct (is_Exception e).
    + change ((print (MsgFatal e) ;; sys_exit 1) w')
        with (@Raises unit (SystemExit 1), extended w' [EPrint (MsgFatal e)]).
      cbv beta iota. rewrite (cleanup_run env _ Hm Hp).
      rewrite extended_extended. reflexivity.
    + rewrite (cleanup_run env w' Hm Hp). reflexivity.
  - reflexivity.
Qed.

(** X7.  When the model or the processor fails to load, the [finally]
    block of [main] itself fails: the name [model] (or [processor]) was
    never bound, so its [del] raises [UnboundLocalError], which replaces
    the [SystemExit(1)] of the handler.  Nothing after the [del] runs: no
    garbage collection, no cache release, no "Script ended.". *)
Theorem failed_load_breaks_cleanup env fuel args w members caption e :
  accepted_settings env members caption ->
  model_load env = Some e \/ (model_load env = None /\ processor_load env = Some e) ->
  main env fuel args w =
  (Raises UnboundLocalError,
   extended w (ELoadModel :: (if is_None (model_load env) then [ELoadProcessor] else [])
               ++ fatal_events e)).
Proof.
  intros Hacc Hfail.
  rewrite (main_accepted env fuel args w members caption Hacc).
  unfold try_finally, try_except_Exception, fatal_events, extended.
  destruct Hfail as [Hm | [Hm Hp]].
  - rewrite Hm.
    cbv [bind load emit raise del_local is_None andb print ret sys_exit].
    cbn [clock shots trace].
    destruct (is_Exception e); cbn [clock shots trace app];
      rewrite <- ?app_assoc; reflexivity.
  - rewrite Hm, Hp.
    cbv [bind load emit raise del_local is_None andb print ret sys_exit].
    cbn [clock shots trace].
    destruct (is_Exception e); cbn [clock shots trace app];
      rewrite <- ?app_assoc; reflexivity.
Qed.

Lemma failed_load_breaks_cleanup_witness :
  main (SampleRuns.configured (fun _ _ => Sample.answer 0 [] []) (Some OSError) None)
       31 (SampleRuns.live_args 3 30) (boot 0)
  = (Raises UnboundLocalError,
     extended (boot 0) [ELoadModel; EPrint (MsgFatal OSError)]).
Proof.
  apply (failed_load_breaks_cleanup
           (SampleRuns.configured (fun _ _ => Sample.answer 0 [] []) (Some OSError) None)
           31 (SampleRuns.live_args 3 30) (boot 0)
           [(lit "grounding_caption", JStr (lit "Skip"))] (JStr (lit "Skip")) OSError).
  - split; [reflexivity|]. split; reflexivity.
  - left. reflexivity.
Defined.

(** X8.  In test mode without [--test-dir] (or with an empty one) the
    check of line 213 comes only after both loads: the model and the
    processor are loaded, the error is printed, and the process exits with
    code 1 once the cleanup has run.  The [SystemExit] is not an
    [Exception], so no "Fatal error" is printed. *)
Theorem test_mode_needs_directory env fuel args w members caption :
  accepted_settings env members caption ->
  model_load env = None -> processor_load env = None ->
  mode args = TestMode ->
  test_dir args = None \/ test_dir args = Some ""%string ->
  main env fuel args w =
  (Raises (SystemExit 1),
   extended w ([ELoadModel; ELoadProcessor; EPrint MsgTestDirRequired]
               ++ cleanup_events env)).
Proof.
  intros Hacc Hm Hp Hmode Hdir.
  rewrite (main_loaded env fuel args w members caption Hacc Hm Hp).
  assert (Hd : dispatch env fuel caption args (loaded w)
               = (Raises (SystemExit 1), extended (loaded w) [EPrint MsgTestDirRequired])).
  { unfold dispatch. rewrite Hmode. destruct Hdir as [-> | ->]; reflexivity. }
  rewrite Hd. unfold exit_of, fatal_events. cbn [is_Exception app].
  f_equal. unfold extended, loaded. cbn [clock shots trace].
  rewrite <- !app_assoc. reflexivity.
Qed.

Lemma test_mode_needs_directory_witness :
  main (SampleRuns.configured (fun _ _ => Sample.answer 0 [] []) None None)
       31 (SampleRuns.test_args None) (boot 0)
  = (Raises (SystemExit 1),
     extended (boot 0)
       ([ELoadModel; ELoadProcessor; EPrint MsgTestDirRequired]
        ++ [EGcCollect; EEmptyCache; EPrint MsgScriptEnded])).
Proof.
  apply (test_mode_needs_directory
           (SampleRuns.configured (fun _ _ => Sample.answer 0 [] []) None None)
           31 (SampleRuns.test_args None) (boot 0)
           [(lit "grounding_caption", JStr (lit "Skip"))] (JStr (lit "Skip"))).
  - split; [reflexivity|]. split; reflexivity.
  - reflexivity.
  - reflexivity.
  - reflexivity.
  - left. reflexivity.
Defined.

(** X9.  Once both loads have succeeded the cleanup runs on every path out
    of the [try] statement of lines 207-232, and the way [main] ends
    follows the way the selected mode ended: a normal return stays a
    normal return; an [Exception] is reported as "Fatal error" and becomes
    [SystemExit(1)]; a [KeyboardInterrupt] or a [SystemExit] goes through
    unreported.  In each case garbage collection, the cache release on
    CUDA and "Script ended." are the last events. *)
Theorem loaded_run_is_cleaned_up env fuel args w members caption :
  accepted_settings env members caption ->
  model_load env = None -> processor_load env = None ->
  let d := dispatch env fuel caption args (loaded w) in
  let r := main env fuel args w in
  fst r = match fst d with
          | Returns _ => Returns tt
          | Raises e => Raises (if is_Exception e then SystemExit 1 else e)
          | Diverges => Diverges
          end /\
  (fst d <> Diverges ->
   trace (snd r) =
   trace (snd d)
   ++ match fst d with
      | Raises e => if is_Exception e then [EPrint (MsgFatal e)] else []
      | _ => []
      end
   ++ cleanup_events env).
Proof.
  intros Hacc Hm Hp d r. subst r.
  rewrite (main_loaded env fuel args w members caption Hacc Hm Hp).
  fold d. destruct d as [[[] | e |] w']; cbn [fst snd].
  - split; [reflexivity|]. intros _. reflexivity.
  - split; [reflexivity|]. intros _. reflexivity.
  - split; [reflexivity|]. intros H. contradiction H. reflexivity.
Qed.

Lemma loaded_run_is_cleaned_up_witness :
  let env := SampleRuns.configured (fun _ _ => Sample.answer 0 [] []) None None in
  let d := dispatch env 31 (JStr (lit "Skip")) (SampleRuns.live_args (-1) 30)
             (loaded (boot 0)) in
  let r := main env 31 (SampleRuns.live_args (-1) 30) (boot 0) in
  fst r = match fst d with
          | Returns _ => Returns tt
          | Raises e => Raises (if is_Exception e then SystemExit 1 else e)
          | Diverges => Diverges
          end /\
  (fst d <> Diverges ->
   trace (snd r) =
   trace (snd d)
   ++ match fst d with
      | Raises e => if is_Exception e then [EPrint (MsgFatal e)] else []
      | _ => []
      end
   ++ cleanup_events env).
Proof.
  apply (loaded_run_is_cleaned_up
           (SampleRuns.configured (fun _ _ => Sample.answer 0 [] []) None None)
           31 (SampleRuns.live_args (-1) 30) (boot 0)
           [(lit "grounding_caption", JStr (lit "Skip"))] (JStr (lit "Skip"))).
  - split; [reflexivity|]. split; reflexivity.
  - reflexivity.
  - reflexivity.
Defined.

(** X10.  In live mode [main] returns normally, which is exit code 0,
    whenever the run returns a result, whatever its status; the JSON form
    of the result is the last thing printed before the cleanup. *)
Theorem live_mode_exits_with_zero env fuel args w members caption res :
  accepted_settings env members caption ->
  model_load env = None -> processor_load env = None ->
  mode args = LiveMode ->
  let run := run_live_mode env fuel caption (interval args) (max_poll_seconds args)
               (output_dir args) (loaded w) in
  fst run = Returns res ->
  main env fuel args w =
  (Returns tt, extended (snd run) (EPrint (MsgJsonResult res) :: cleanup_events env)).
Proof.
  intros Hacc Hm Hp Hmode run Hrun.
  rewrite (main_loaded env fuel args w members caption Hacc Hm Hp).
  unfold dispatch. rewrite Hmode. unfold bind. fold run.
  destruct run as [o w']. cbn [fst snd] in *. subst o.
  change (print (MsgJsonResult res) w')
    with (Returns tt, extended w' [EPrint (MsgJsonResult res)]).
  cbv beta iota. rewrite extended_extended. reflexivity.
Qed.

Lemma live_mode_exits_with_zero_witness :
  let env := SampleRuns.configured (grounding Sample.env_skip) None None in
  let run := run_live_mode env 31 (JStr (lit "Skip")) 3 30 "test_outputs"
               (loaded (boot 0)) in
  let res := {| status := "partial"; message := MSG_STILL_PRESENT;
                clicked_at := Some (Some (110, 205)%Z) |} in
  main env 31 (SampleRuns.live_args 3 30) (boot 0) =
  (Returns tt, extended (snd run) (EPrint (MsgJsonResult res) :: cleanup_events env)).
Proof.
  apply (live_mode_exits_with_zero
           (SampleRuns.configured (grounding Sample.env_skip) None None)
           31 (SampleRuns.live_args 3 30) (boot 0)
           [(lit "grounding_caption", JStr (lit "Skip"))] (JStr (lit "Skip"))).
  - split; [reflexivity|]. split; reflexivity.
  - reflexivity.
  - reflexivity.
  - reflexivity.
  - vm_compute. reflexivity.
Defined.

(* ================================================================== *)
(** * Further properties of live mode *)

Lemma quiet_saves_nothing t : forallb is_quiet t = true -> saved_paths t = [].
Proof.
  induction t as [|ev t IH]; [reflexivity|].
  cbn [forallb]. intros H. apply andb_true_iff in H. destruct H as [Hev Ht].
  unfold saved_paths. cbn [flat_map]. fold (saved_paths t). rewrite (IH Ht).
  destruct ev; try discriminate Hev; reflexivity.
Qed.

Lemma saved_paths_app t1 t2 : saved_paths (t1 ++ t2) = saved_paths t1 ++ saved_paths t2.
Proof. unfold saved_paths. apply flat_map_app. Qed.

Section LiveEdges.

Variable env : Env.
Variable grounding_caption : json.
Variables interval max_poll_seconds : Z.
Variable output_dir : string.







End LiveEdges.




(** ** A caption that is not a string *)

Lemma infers_app t1 t2 : infers (t1 ++ t2) = (infers t1 + infers t2)%nat.
Proof. unfold infers. rewrite filter_app, length_app. reflexivity. Qed.

Section NoString.

Variable env : Env.
Variable caption : json.
Variables interval max_poll_seconds : Z.
Variable output_dir : string.

Hypothesis not_a_string : forall s, caption <> JStr s.

Lemma poll_loop_no_string start_time fuel :
  forall w,
    let r := poll_loop env fuel caption interval max_poll_seconds output_dir
               start_time w in
    (exists t, trace (snd r) = trace w ++ t /\ infers t = 0%nat /\ clicks t = 0%nat) /\
    (forall found position, fst r = Returns (found, position) -> found = false).
Proof.
  induction fuel as [|fuel IH]; intros w r; subst r.
  - cbn [poll_loop fst snd]. split; [|discriminate].
    exists []. split; [now rewrite app_nil_r|]. split; reflexivity.
  - rewrite (poll_loop_S env caption interval max_poll_seconds output_dir start_time fuel).
    cbv [bind time_time ret capture_screen].
    destruct (Qlt_bool (clock w - start_time) (inject_Z max_poll_seconds)).
    + rewrite (non_string_caption_detects_nothing env caption _ _ not_a_string).
      cbn [box_truthy]. cbv [print emit time_sleep extended raise].
      cbn [clock shots trace].
      destruct (Qle_bool 0 (inject_Z interval)); cbv beta iota;
        cbn [clock shots trace].
      * match goal with |- context [poll_loop env fuel caption interval max_poll_seconds
                                      output_dir start_time ?w4] =>
          destruct (IH w4) as ((t & Ht & Hi & Hc) & Hfound) end.
        cbn [trace] in Ht.
        split; [|exact Hfound].
        exists ([ECapture (shots w); EPrint (MsgErrorDetecting TypeError);
                 EPrint MsgNoButtonThisPoll; ESleep (inject_Z interval)] ++ t).
        split; [rewrite Ht; now rewrite <- !app_assoc|].
        rewrite infers_app, clicks_app, Hi, Hc. split; reflexivity.
      * cbn [fst snd trace]. split; [|discriminate].
        exists [ECapture (shots w); EPrint (MsgErrorDetecting TypeError);
                EPrint MsgNoButtonThisPoll].
        split; [now rewrite <- !app_assoc|]. split; reflexivity.
    + cbn [fst snd]. split.
      * exists []. split; [now rewrite app_nil_r|]. split; reflexivity.
      * intros found position H. injection H as <- _. reflexivity.
Qed.

(** X14.  A caption that counts as true without being a string, a number
    say, is accepted by [load_settings] but makes line 62 raise
    [TypeError] in every detection.  A live run with such a caption never
    calls the model and never clicks, and the only result it can return is
    the time-limit one. *)
Theorem non_string_caption_only_times_out fuel w :
  let r := run_live_mode env fuel caption interval max_poll_seconds output_dir w in
  (exists t, trace (snd r) = trace w ++ t /\ infers t = 0%nat /\ clicks t = 0%nat) /\
  (forall res, fst r = Returns res -> res = timed_out).
Proof.
  intros r. subst r.
  pose proof (live_run env caption interval max_poll_seconds output_dir fuel w) as Hrun.
  destruct (poll_loop_no_string (clock w) fuel
              (live_entry w interval max_poll_seconds output_dir))
    as ((t & Ht & Hi & Hc) & Hfound).
  destruct (poll_loop env fuel caption interval max_poll_seconds output_dir (clock w)
              (live_entry w interval max_poll_seconds output_dir))
    as [[[found position] | e |] wp];
    cbn [fst snd live_entry trace] in Ht, Hfound.
  - rewrite (Hfound found position eq_refl) in Hrun. rewrite Hrun. cbn [fst snd trace].
    split; [|intros res H; injection H as <-; reflexivity].
    exists ([EMakedirs output_dir; EPrint (MsgStartingLive interval max_poll_seconds)]
            ++ t ++ [EPrint (MsgNoButtonWithin max_poll_seconds)]).
    split; [rewrite Ht; now rewrite <- !app_assoc|].
    rewrite infers_app, clicks_app, infers_app, clicks_app, Hi, Hc. split; reflexivity.
  - rewrite Hrun. cbn [fst snd]. split; [|discriminate].
    exists ([EMakedirs output_dir; EPrint (MsgStartingLive interval max_poll_seconds)]
            ++ t).
    split; [rewrite Ht; now rewrite <- !app_assoc|].
    rewrite infers_app, clicks_app, Hi, Hc. split; reflexivity.
  - rewrite Hrun. cbn [fst snd]. split; [|discriminate].
    exists ([EMakedirs output_dir; EPrint (MsgStartingLive interval max_poll_seconds)]
            ++ t).
    split; [rewrite Ht; now rewrite <- !app_assoc|].
    rewrite infers_app, clicks_app, Hi, Hc. split; reflexivity.
Qed.

End NoString.

Lemma non_string_caption_only_times_out_witness :
  let r := run_live_mode Sample.env_skip 31 (JNum 5) 3 30 "live_outputs" (boot 0) in
  (exists t, trace (snd r) = trace (boot 0) ++ t /\ infers t = 0%nat /\ clicks t = 0%nat) /\
  (forall res, fst r = Returns res -> res = timed_out).
Proof.
  apply (non_string_caption_only_times_out Sample.env_skip (JNum 5) 3 30 "live_outputs").
  intros s. discriminate.
Defined.

(** ** The images a live run saves *)

Lemma verify_saves_nothing env grounding_caption w :
  exists t,
    trace (snd (verify_skip_success env grounding_caption w)) = trace w ++ t /\
    saved_paths t = [].
Proof.
  unfold verify_skip_success. cbv [bind time_sleep capture_screen].
  change (Qle_bool 0 VERIFY_DELAY) with true. cbv iota. cbn [clock shots trace].
  set (w1 := {| clock := clock w + VERIFY_DELAY; shots := S (shots w);
                trace := (trace w ++ [ESleep VERIFY_DELAY]) ++ [ECapture (shots w)] |}).
  destruct (detect_run env grounding_caption (Screenshot (shots w)) w1)
    as (_ & _ & (t & Ht & Hq) & _).
  destruct (detect_skip_button env grounding_caption (Screenshot (shots w)) w1)
    as [[[position bbox] | e |] w2];
    cbn [fst snd trace] in Ht; subst w1; cbn [trace] in Ht;
    cbv [print emit ret]; cbn [fst snd trace].
  - exists ([ESleep VERIFY_DELAY; ECapture (shots w)] ++ t
            ++ [EPrint (MsgVerify (is_None bbox)
                          (if is_None bbox then MSG_SKIPPED else MSG_STILL_PRESENT))]).
    split; [rewrite Ht; now rewrite <- !app_assoc|].
    rewrite !saved_paths_app, (quiet_saves_nothing t Hq). reflexivity.
  - exists ([ESleep VERIFY_DELAY; ECapture (shots w)] ++ t).
    split; [rewrite Ht; now rewrite <- !app_assoc|].
    rewrite saved_paths_app, (quiet_saves_nothing t Hq). reflexivity.
  - exists ([ESleep VERIFY_DELAY; ECapture (shots w)] ++ t).
    split; [rewrite Ht; now rewrite <- !app_assoc|].
    rewrite saved_paths_app, (quiet_saves_nothing t Hq). reflexivity.
Qed.

Section LiveSaves.

Variable env : Env.
Variable grounding_caption : json.
Variables interval max_poll_seconds : Z.
Variable output_dir : string.

(** The loop saves one image when it ends with a button found, none
    otherwise. *)
Lemma poll_loop_saves start_time fuel :
  forall w,
    let r := poll_loop env fuel grounding_caption interval max_poll_seconds output_dir
               start_time w in
    exists t,
      trace (snd r) = trace w ++ t /\
      List.length (saved_paths t) = match fst r with
                                    | Returns (true, _) => 1%nat
                                    | _ => 0%nat
                                    end.
Proof.
  induction fuel as [|fuel IH]; intros w r; subst r.
  - exists []. split; [cbn; now rewrite app_nil_r | reflexivity].
  - pose proof (poll_step env grounding_caption interval max_poll_seconds output_dir
                  start_time fuel w) as Hstep.
    remember (poll_loop env (S fuel) grounding_caption interval max_poll_seconds
                output_dir start_time w) as r eqn:Er.
    clear Er.
    destruct Hstep as [Hpoll
                      | center box w2 t w3 saved Hpoll Hpolled Hsel Hcb Hlen Hc3 Hs3 Ht3
                      | center box w2 t Hpoll Hpolled Hsel Hlen
                      | w2 t Hpoll Hpolled Hsel Hiv'
                      | w2 t w3 Hpoll Hpolled Hsel Hiv' Hc3 Hs3 Ht3
                      | e w2 t Hpoll Hpolled Hsel
                      | e center box w2 t saved Hpoll Hpolled Hsel Hlen Hsave];
      cbn [fst snd];
      try (destruct Hpolled as (Ht2 & Hq & _);
           pose proof (quiet_saves_nothing t Hq) as Hnone).
    + exists []. split; [now rewrite app_nil_r | reflexivity].
    + exists ((ECapture (shots w) :: t)
              ++ [ESave (Screenshot (shots w)) box saved; EPrint (MsgSavedImage saved)]).
      split; [rewrite Ht3, Ht2; now rewrite <- app_assoc|].
      rewrite saved_paths_app.
      change (saved_paths (ECapture (shots w) :: t)) with (saved_paths t).
      rewrite Hnone. reflexivity.
    + exists (ECapture (shots w) :: t). split; [exact Ht2|].
      change (saved_paths (ECapture (shots w) :: t)) with (saved_paths t).
      rewrite Hnone. reflexivity.
    + destruct (IH (slept interval w2)) as (t' & Ht' & Hlen').
      exists ((ECapture (shots w) :: t)
              ++ [EPrint MsgNoButtonThisPoll; ESleep (inject_Z interval)] ++ t').
      split.
      * rewrite Ht'. cbn [slept trace]. rewrite Ht2. now rewrite <- !app_assoc.
      * rewrite !saved_paths_app.
        change (saved_paths (ECapture (shots w) :: t)) with (saved_paths t).
        rewrite Hnone. exact Hlen'.
    + exists ((ECapture (shots w) :: t) ++ [EPrint MsgNoButtonThisPoll]).
      split; [rewrite Ht3, Ht2; now rewrite <- app_assoc|].
      rewrite saved_paths_app.
      change (saved_paths (ECapture (shots w) :: t)) with (saved_paths t).
      rewrite Hnone. reflexivity.
    + exists (ECapture (shots w) :: t). split; [exact Ht2|].
      change (saved_paths (ECapture (shots w) :: t)) with (saved_paths t).
      rewrite Hnone. reflexivity.
    + exists (ECapture (shots w) :: t). split; [exact Ht2|].
      change (saved_paths (ECapture (shots w) :: t)) with (saved_paths t).
      rewrite Hnone. reflexivity.
Qed.

(** X15.  A live run saves at most one image: the annotated copy of the
    polled frame on which the button was found.  A run that returns has
    saved one image when its result carries [clicked_at] and none when it
    does not; the verification saves nothing, also when it still sees a
    button. *)
Theorem live_saves_one_image_per_click fuel w :
  let r := run_live_mode env fuel grounding_caption interval max_poll_seconds
             output_dir w in
  exists t,
    trace (snd r) = trace w ++ t /\
    (List.length (saved_paths t) <= 1)%nat /\
    forall res, fst r = Returns res ->
                List.length (saved_paths t) = if is_None (clicked_at res) then 0%nat
                                              else 1%nat.
Proof.
  intros r. subst r.
  pose proof (live_run env grounding_caption interval max_poll_seconds output_dir
                fuel w) as Hrun.
  destruct (poll_loop_saves (clock w) fuel
              (live_entry w interval max_poll_seconds output_dir))
    as (t & Ht & Hlen).
  destruct (poll_loop env fuel grounding_caption interval max_poll_seconds output_dir
              (clock w) (live_entry w interval max_poll_seconds output_dir))
    as [[[[|] [center|]] | e |] wp];
    cbn [fst snd live_entry trace] in Ht, Hlen.
  - destruct (verify_saves_nothing env grounding_caption (clicked wp center))
      as (tv & Htv & Hnone).
    exists ([EMakedirs output_dir; EPrint (MsgStartingLive interval max_poll_seconds)]
            ++ t ++ [EClick (fst center) (snd center);
                     EPrint (MsgClicked (fst center) (snd center))] ++ tv).
    assert (Hsaved : List.length
                       (saved_paths
                          ([EMakedirs output_dir;
                            EPrint (MsgStartingLive interval max_poll_seconds)]
                           ++ t ++ [EClick (fst center) (snd center);
                                    EPrint (MsgClicked (fst center) (snd center))]
                           ++ tv)) = 1%nat).
    { rewrite !saved_paths_app, !length_app, Hnone, Hlen. reflexivity. }
    rewrite Hsaved.
    destruct (verify_skip_success env grounding_caption (clicked wp center))
      as [[[status message] | e |] wv];
      rewrite Hrun; cbn [fst snd clicked trace] in *;
      (split; [rewrite Htv, Ht; now rewrite <- !app_assoc|]);
      (split; [lia|]); try discriminate.
    intros res H. injection H as <-. reflexivity.
  - destruct (verify_saves_nothing env grounding_caption wp) as (tv & Htv & Hnone).
    exists ([EMakedirs output_dir; EPrint (MsgStartingLive interval max_poll_seconds)]
            ++ t ++ tv).
    assert (Hsaved : List.length
                       (saved_paths
                          ([EMakedirs output_dir;
                            EPrint (MsgStartingLive interval max_poll_seconds)]
                           ++ t ++ tv)) = 1%nat).
    { rewrite !saved_paths_app, !length_app, Hnone, Hlen. reflexivity. }
    rewrite Hsaved.
    destruct (verify_skip_success env grounding_caption wp)
      as [[[status message] | e |] wv];
      rewrite Hrun; cbn [fst snd trace] in *;
      (split; [rewrite Htv, Ht; now rewrite <- !app_assoc|]);
      (split; [lia|]); try discriminate.
    intros res H. injection H as <-. reflexivity.
  - rewrite Hrun. cbn [fst snd trace].
    exists ([EMakedirs output_dir; EPrint (MsgStartingLive interval max_poll_seconds)]
            ++ t ++ [EPrint (MsgNoButtonWithin max_poll_seconds)]).
    split; [rewrite Ht; now rewrite <- !app_assoc|].
    rewrite !saved_paths_app, !length_app, Hlen. cbn.
    split; [lia|]. intros res H. injection H as <-. reflexivity.
  - rewrite Hrun. cbn [fst snd trace].
    exists ([EMakedirs output_dir; EPrint (MsgStartingLive interval max_poll_seconds)]
            ++ t ++ [EPrint (MsgNoButtonWithin max_poll_seconds)]).
    split; [rewrite Ht; now rewrite <- !app_assoc|].
    rewrite !saved_paths_app, !length_app, Hlen. cbn.
    split; [lia|]. intros res H. injection H as <-. reflexivity.
  - rewrite Hrun. cbn [fst snd].
    exists ([EMakedirs output_dir; EPrint (MsgStartingLive interval max_poll_seconds)]
            ++ t).
    split; [rewrite Ht; now rewrite <- !app_assoc|].
    rewrite saved_paths_app, length_app, Hlen. cbn.
    split; [lia|]. discriminate.
  - rewrite Hrun. cbn [fst snd].
    exists ([EMakedirs output_dir; EPrint (MsgStartingLive interval max_poll_seconds)]
            ++ t).
    split; [rewrite Ht; now rewrite <- !app_assoc|].
    rewrite saved_paths_app, length_app, Hlen. cbn.
    split; [lia|]. discriminate.
Qed.

End LiveSaves.

Lemma live_saves_one_image_per_click_witness :
  let r := run_live_mode Sample.env_skip 31 (JStr (lit "Skip")) 3 30 "live_outputs" (boot 0) in
  exists t,
    trace (snd r) = trace (boot 0) ++ t /\
    (List.length (saved_paths t) <= 1)%nat /\
    forall res, fst r = Returns res ->
                List.length (saved_paths t) = if is_None (clicked_at res) then 0%nat
                                              else 1%nat.
Proof.
  apply (live_saves_one_image_per_click Sample.env_skip (JStr (lit "Skip")) 3 30
           "live_outputs" 31 (boot 0)).
Defined.

(** ** How many screenshots a run takes *)

Section PollCount.

Variable env : Env.
Variable grounding_caption : json.
Variables interval max_poll_seconds : Z.
Variable output_dir : string.
Variable start_time : Q.

Hypothesis interval_nonneg : (0 <= interval)%Z.
Hypothesis latency_nonneg :
  forall prompt image, 0 <= latency (grounding env prompt image).

(** The loop takes no screenshot, or the last one was taken [k] intervals
    or more after the loop was entered, and before the limit. *)
Lemma poll_loop_count fuel :
  forall w,
    let r := poll_loop env fuel grounding_caption interval max_poll_seconds
               output_dir start_time w in
    shots (snd r) = shots w \/
    exists k,
      shots (snd r) = S (shots w + k) /\
      (clock w - start_time) + inject_Z (Z.of_nat k) * inject_Z interval
        < inject_Z max_poll_seconds.
Proof.
  assert (Hzero : 0 <= inject_Z interval).
  { change 0 with (inject_Z 0). rewrite <- Zle_Qle. exact interval_nonneg. }
  assert (Hfirst : forall w w',
             polling max_poll_seconds start_time w = true ->
             shots w' = S (shots w) ->
             exists k, shots w' = S (shots w + k) /\
                       (clock w - start_time) + inject_Z (Z.of_nat k) * inject_Z interval
                         < inject_Z max_poll_seconds).
  { intros w w' Hpoll Hs. exists 0%nat. split; [rewrite Hs; f_equal; lia|].
    apply Qlt_bool_iff in Hpoll. change (inject_Z (Z.of_nat 0)) with 0. lra. }
  induction fuel as [|fuel IH]; intros w r.
  - left. reflexivity.
  - pose proof (poll_step env grounding_caption interval max_poll_seconds output_dir
                  start_time fuel w) as Hstep.
    subst r.
    remember (poll_loop env (S fuel) grounding_caption interval max_poll_seconds
                output_dir start_time w) as r eqn:Er.
    clear Er.
    destruct Hstep as [Hpoll
                      | center box w2 t w3 saved Hpoll Hpolled Hsel Hcb Hlen Hc3 Hs3 Ht3
                      | center box w2 t Hpoll Hpolled Hsel Hlen
                      | w2 t Hpoll Hpolled Hsel Hiv'
                      | w2 t w3 Hpoll Hpolled Hsel Hiv' Hc3 Hs3 Ht3
                      | e w2 t Hpoll Hpolled Hsel
                      | e center box w2 t saved Hpoll Hpolled Hsel Hlen Hsave];
      cbn [fst snd];
      try (pose proof (polled_clock_lower env _ _ _ _ latency_nonneg Hpolled) as Hlow;
           destruct Hpolled as (_ & _ & Hs2 & _)).
    + left. reflexivity.
    + right. apply (Hfirst w w3 Hpoll). congruence.
    + right. apply (Hfirst w w2 Hpoll). congruence.
    + right. destruct (IH (slept interval w2)) as [Hsame | (k & Hk & Hlt)].
      * apply (Hfirst w _ Hpoll). rewrite Hsame. exact Hs2.
      * exists (S k). cbn [slept shots clock] in Hk, Hlt.
        split; [rewrite Hk, Hs2; f_equal; lia|].
        assert (Hsucc : inject_Z (Z.of_nat (S k)) * inject_Z interval
                        == inject_Z (Z.of_nat k) * inject_Z interval + inject_Z interval).
        { rewrite inject_Z_succ. ring. }
        rewrite Hsucc. lra.
    + right. apply (Hfirst w w3 Hpoll). congruence.
    + right. apply (Hfirst w w2 Hpoll). congruence.
    + right. apply (Hfirst w w2 Hpoll). congruence.
Qed.

End PollCount.

(** X16.  Polling cadence: with an interval that is not negative and model
    calls that take no negative time, a live run that takes [n] screenshots
    has [(n - 2) * interval < max_poll_seconds] unless it takes none.  The
    polls are at least one interval apart and each starts before the limit;
    the one screenshot beyond them is the verifier's. *)
Theorem live_screenshot_budget env grounding_caption interval max_poll_seconds
    output_dir fuel w :
  (0 <= interval)%Z ->
  (forall prompt image, 0 <= latency (grounding env prompt image)) ->
  let r := run_live_mode env fuel grounding_caption interval max_poll_seconds
             output_dir w in
  let n := (shots (snd r) - shots w)%nat in
  n = 0%nat \/ ((Z.of_nat n - 2) * interval < max_poll_seconds)%Z.
Proof.
  intros Hiv Hlat r n. subst n r.
  pose proof (live_run env grounding_caption interval max_poll_seconds output_dir
                fuel w) as Hrun.
  pose proof (poll_loop_count env grounding_caption interval max_poll_seconds
                output_dir (clock w) Hiv Hlat fuel
                (live_entry w interval max_poll_seconds output_dir)) as Hcount.
  pose proof (poll_loop_run env grounding_caption interval max_poll_seconds
                output_dir (clock w) fuel
                (live_entry w interval max_poll_seconds output_dir)) as Hloop.
  cbv zeta in Hcount, Hloop.
  destruct (poll_loop env fuel grounding_caption interval max_poll_seconds output_dir
              (clock w) (live_entry w interval max_poll_seconds output_dir))
    as [o wp].
  cbn [fst snd live_entry shots clock] in Hcount, Hloop.
  assert (Hbudget : shots wp = shots w \/
                    exists k, shots wp = S (shots w + k) /\
                              (Z.of_nat k * interval < max_poll_seconds)%Z).
  { destruct Hcount as [Hsame | (k & Hk & Hlt)]; [left; exact Hsame|].
    right. exists k. split; [exact Hk|].
    rewrite Zlt_Qlt, inject_Z_mult. lra. }
  clear Hcount.
  assert (Hverify : forall w1, shots w1 = shots wp ->
             shots (snd (verify_skip_success env grounding_caption w1)) = S (shots wp)).
  { intros w1 H1.
    destruct (verify_run env grounding_caption w1) as (Hs & _). rewrite Hs, H1.
    reflexivity. }
  assert (Hfound : forall wv, shots wv = S (shots wp) -> (shots w < shots wp)%nat ->
             (shots wv - shots w)%nat = 0%nat \/
             ((Z.of_nat (shots wv - shots w) - 2) * interval < max_poll_seconds)%Z).
  { intros wv Hv Hlt. right. destruct Hbudget as [Hsame | (k & Hk & Hlt')]; [lia|].
    replace (Z.of_nat (shots wv - shots w) - 2)%Z with (Z.of_nat k) by lia.
    exact Hlt'. }
  assert (Hstop : (shots wp - shots w)%nat = 0%nat \/
                  ((Z.of_nat (shots wp - shots w) - 2) * interval < max_poll_seconds)%Z).
  { destruct Hbudget as [Hsame | (k & Hk & Hlt')]; [left; lia|]. right.
    replace (Z.of_nat (shots wp - shots w) - 2)%Z with (Z.of_nat k - 1)%Z by lia.
    nia. }
  destruct o as [[[|] [center|]] | e |].
  - destruct Hloop as (_ & _ & (k & box & c & Hk & Hle & _)).
    specialize (Hverify (clicked wp center) eq_refl).
    destruct (verify_skip_success env grounding_caption (clicked wp center))
      as [[[status message] | e |] wv];
      rewrite Hrun; cbn [fst snd] in *; apply Hfound; [exact Hverify | lia ..].
  - destruct Hloop as (_ & _ & (k & box & c & Hk & Hle & _)).
    specialize (Hverify wp eq_refl).
    destruct (verify_skip_success env grounding_caption wp)
      as [[[status message] | e |] wv];
      rewrite Hrun; cbn [fst snd] in *; apply Hfound; [exact Hverify | lia ..].
  - rewrite Hrun. exact Hstop.
  - rewrite Hrun. exact Hstop.
  - rewrite Hrun. exact Hstop.
  - rewrite Hrun. exact Hstop.
Qed.

Lemma live_screenshot_budget_witness :
  let r := run_live_mode Sample.env_slow 31 (JStr (lit "Skip")) 3 30 "live_outputs" (boot 0) in
  let n := (shots (snd r) - shots (boot 0))%nat in
  n = 0%nat \/ ((Z.of_nat n - 2) * 3 < 30)%Z.
Proof.
  apply (live_screenshot_budget Sample.env_slow (JStr (lit "Skip")) 3 30 "live_outputs"
           31 (boot 0)).
  - discriminate.
  - intros prompt image. simpl. discriminate.
Defined.

(* ================================================================== *)
(** * Further properties of test mode *)

Lemma quiet_offline t : forallb is_quiet t = true -> forallb is_offline t = true.
Proof.
  induction t as [|ev t IH]; [reflexivity|].
  cbn [forallb]. intros H. apply andb_true_iff in H. destruct H as [Hev Ht].
  rewrite (IH Ht). destruct ev; try discriminate Hev; reflexivity.
Qed.

Lemma quiet_opens_nothing t : forallb is_quiet t = true -> opened_paths t = [].
Proof.
  induction t as [|ev t IH]; [reflexivity|].
  cbn [forallb]. intros H. apply andb_true_iff in H. destruct H as [Hev Ht].
  unfold opened_paths. cbn [flat_map]. fold (opened_paths t). rewrite (IH Ht).
  destruct ev; try discriminate Hev; reflexivity.
Qed.

Lemma opened_paths_app t1 t2 :
  opened_paths (t1 ++ t2) = opened_paths t1 ++ opened_paths t2.
Proof. unfold opened_paths. apply flat_map_app. Qed.

Section TestTraces.

Variable env : Env.
Variable grounding_caption : json.
Variable output_dir : string.

(** The events of one file of the test loop. *)
Lemma test_one_trace img_path w :
  let r := test_one env grounding_caption output_dir img_path w in
  shots (snd r) = shots w /\
  exists t,
    trace (snd r) = trace w ++ t /\
    forallb is_offline t = true /\
    opened_paths t = [img_path] /\
    saved_paths t = match fst r with
                    | Returns rec =>
                        if detected rec then [annotated output_dir img_path] else []
                    | _ => []
                    end.
Proof.
  unfold test_one. cbv [bind print emit process_image ret raise].
  cbn [clock shots trace].
  destruct (image_open env img_path) as [eo|].
  { cbn [fst snd shots trace]. split; [reflexivity|].
    exists [EPrint (MsgProcessing img_path); EOpenImage img_path].
    split; [now rewrite <- app_assoc|]. split; [reflexivity|]. split; reflexivity. }
  match goal with |- context [detect_skip_button env grounding_caption _ ?w1] =>
    destruct (detect_run env grounding_caption (FileImage img_path) w1)
      as (Hr & Hs & (t & Ht & Hq) & _);
    destruct (detect_skip_button env grounding_caption (FileImage img_path) w1)
      as [o w2] end.
  cbn [fst snd shots trace] in Hr, Hs, Ht. subst o.
  pose proof (quiet_offline t Hq) as Hoff.
  pose proof (quiet_opens_nothing t Hq) as Hopen.
  pose proof (quiet_saves_nothing t Hq) as Hsave.
  assert (Hmid : forall t2,
             forallb is_offline ([EPrint (MsgProcessing img_path); EOpenImage img_path]
                                 ++ t ++ t2) = forallb is_offline t2 /\
             opened_paths ([EPrint (MsgProcessing img_path); EOpenImage img_path]
                           ++ t ++ t2) = img_path :: opened_paths t2 /\
             saved_paths ([EPrint (MsgProcessing img_path); EOpenImage img_path]
                          ++ t ++ t2) = saved_paths t2).
  { intros t2. cbn [app forallb is_offline andb].
    rewrite forallb_app, Hoff.
    unfold opened_paths, saved_paths. cbn [flat_map app].
    fold (opened_paths (t ++ t2)). fold (saved_paths (t ++ t2)).
    rewrite opened_paths_app, saved_paths_app, Hopen, Hsave. auto. }
  destruct (select env grounding_caption (FileImage img_path))
    as [[position bbox] | e |] eqn:Hsel.
  - destruct (select_shape _ _ _ _ _ Hsel) as [[-> ->] | (c & b & -> & -> & Hcb)].
    + cbn [box_truthy is_None negb detected fst snd shots trace].
      split; [exact Hs|].
      exists ([EPrint (MsgProcessing img_path); EOpenImage img_path]
              ++ t ++ [EPrint (MsgNoDetectionFor img_path)]).
      destruct (Hmid [EPrint (MsgNoDetectionFor img_path)]) as (H1 & H2 & H3).
      rewrite H1, H2, H3. split; [|auto].
      rewrite Ht. rewrite <- !app_assoc. reflexivity.
    + rewrite (center_truthy _ _ Hcb). cbv [draw_bbox_on_image].
      rewrite (center_truthy _ _ Hcb).
      destruct b as [|x1 [|y1 [|x2 [|y2 [|z more]]]]]; try discriminate.
      * destruct (image_save env (FileImage img_path) [x1; y1; x2; y2]
                    (path_join output_dir ("output_" ++ basename img_path)))
          as [es|].
        { cbv [raise]. cbn [fst snd]. split; [exact Hs|].
          exists ([EPrint (MsgProcessing img_path); EOpenImage img_path] ++ t ++ []).
          destruct (Hmid []) as (H1 & H2 & H3).
          rewrite H1, H2, H3. split; [|auto].
          rewrite Ht. rewrite app_nil_r. rewrite <- !app_assoc. reflexivity. }
        cbv [bind emit print ret].
        cbn [is_None negb detected fst snd shots trace clock].
        split; [exact Hs|].
        exists ([EPrint (MsgProcessing img_path); EOpenImage img_path]
                ++ t ++ [ESave (FileImage img_path) [x1; y1; x2; y2]
                           (annotated output_dir img_path);
                         EPrint (MsgSavedImage (annotated output_dir img_path))]).
        destruct (Hmid [ESave (FileImage img_path) [x1; y1; x2; y2]
                          (annotated output_dir img_path);
                        EPrint (MsgSavedImage (annotated output_dir img_path))])
          as (H1 & H2 & H3).
        rewrite H1, H2, H3. split; [|auto].
        rewrite Ht. unfold annotated. rewrite <- !app_assoc. reflexivity.
      * cbv [raise]. cbn [fst snd]. split; [exact Hs|].
        exists ([EPrint (MsgProcessing img_path); EOpenImage img_path] ++ t ++ []).
        destruct (Hmid []) as (H1 & H2 & H3).
        rewrite H1, H2, H3. split; [|auto].
        rewrite Ht. rewrite app_nil_r. rewrite <- !app_assoc. reflexivity.
  - cbn [fst snd]. split; [exact Hs|].
    exists ([EPrint (MsgProcessing img_path); EOpenImage img_path] ++ t ++ []).
    destruct (Hmid []) as (H1 & H2 & H3).
    rewrite H1, H2, H3. split; [|auto].
    rewrite Ht. rewrite app_nil_r. rewrite <- !app_assoc. reflexivity.
  - cbn [fst snd]. split; [exact Hs|].
    exists ([EPrint (MsgProcessing img_path); EOpenImage img_path] ++ t ++ []).
    destruct (Hmid []) as (H1 & H2 & H3).
    rewrite H1, H2, H3. split; [|auto].
    rewrite Ht. rewrite app_nil_r. rewrite <- !app_assoc. reflexivity.
Qed.

(** The events of the test loop: one image opened per file, one annotated
    copy saved per record with a detection. *)
Lemma test_loop_trace image_files :
  forall acc w,
    let r := test_loop env grounding_caption output_dir image_files acc w in
    shots (snd r) = shots w /\
    exists t,
      trace (snd r) = trace w ++ t /\
      forallb is_offline t = true /\
      forall results,
        fst r = Returns results ->
        exists new,
          results = acc ++ new /\
          opened_paths t = image_files /\
          saved_paths t =
            List.map (fun rec => annotated output_dir (file rec))
              (List.filter detected new).
Proof.
  induction image_files as [|p rest IH]; intros acc w r; subst r.
  - cbn [test_loop ret fst snd]. split; [reflexivity|].
    exists []. split; [now rewrite app_nil_r|]. split; [reflexivity|].
    intros results H. injection H as <-. exists []. rewrite app_nil_r. auto.
  - rewrite test_loop_cons. unfold bind.
    destruct (test_one_trace p w) as (Hs1 & t1 & Ht1 & Hoff1 & Hop1 & Hsv1).
    destruct (test_one_run env grounding_caption output_dir p w) as (Hone & _).
    destruct (test_one env grounding_caption output_dir p w) as [[rec | e |] w1];
      cbn [fst snd] in Hs1, Ht1, Hsv1, Hone.
    + destruct (IH (acc ++ [rec]) w1) as (Hs2 & t2 & Ht2 & Hoff2 & Hres).
      split; [congruence|].
      exists (t1 ++ t2). split; [rewrite Ht2, Ht1; now rewrite <- app_assoc|].
      split; [rewrite forallb_app, Hoff1, Hoff2; reflexivity|].
      intros results H. destruct (Hres results H) as (new & -> & Hop2 & Hsv2).
      exists (rec :: new). split; [now rewrite <- app_assoc|].
      rewrite opened_paths_app, saved_paths_app, Hop1, Hop2, Hsv1, Hsv2.
      split; [reflexivity|].
      destruct (Hone rec eq_refl) as (Hfile & _).
      cbn [filter]. destruct (detected rec); [|reflexivity].
      cbn [map app]. rewrite Hfile. reflexivity.
    + cbn [fst snd]. split; [exact Hs1|].
      exists t1. split; [exact Ht1|]. split; [exact Hoff1|]. discriminate.
    + cbn [fst snd]. split; [exact Hs1|].
      exists t1. split; [exact Ht1|]. split; [exact Hoff1|]. discriminate.
Qed.

(** The events of a test-mode run. *)
Lemma run_test_mode_trace test_dir w :
  let r := run_test_mode env grounding_caption test_dir output_dir w in
  shots (snd r) = shots w /\
  exists t,
    trace (snd r) = trace w ++ t /\
    forallb is_offline t = true /\
    forall results,
      fst r = Returns results ->
      opened_paths t = image_files_of env test_dir /\
      saved_paths t =
        List.map (fun rec => annotated output_dir (file rec))
          (List.filter detected results).
Proof.
  unfold run_test_mode. cbv [bind emit print ret]. cbn [clock shots trace].
  change (glob_ext env test_dir ".png" ++ glob_ext env test_dir ".jpg")
    with (image_files_of env test_dir).
  set (w1 := {| clock := clock w; shots := shots w;
                trace := trace w ++ [EMakedirs output_dir] |}).
  destruct (test_loop_trace (image_files_of env test_dir) [] w1)
    as (Hs & t & Ht & Hoff & Hres).
  destruct (test_loop env grounding_caption output_dir (image_files_of env test_dir)
              [] w1) as [[results | e |] w2];
    cbn [fst snd shots trace] in Hs, Ht, Hres; subst w1;
    cbn [fst snd shots trace] in Hs, Ht |- *.
  - split; [exact Hs|].
    exists ([EMakedirs output_dir] ++ t
            ++ [EPrint (MsgTestComplete (count_detected results) (List.length results))]).
    split; [rewrite Ht; now rewrite <- !app_assoc|].
    split.
    { cbn [app forallb is_offline andb]. rewrite forallb_app, Hoff. reflexivity. }
    intros results' H. injection H as <-.
    destruct (Hres results eq_refl) as (new & Hnew & Hop & Hsv).
    cbn [app] in Hnew. subst new.
    unfold opened_paths, saved_paths. cbn [app flat_map].
    fold (opened_paths (t ++ [EPrint (MsgTestComplete (count_detected results)
                                        (List.length results))])).
    fold (saved_paths (t ++ [EPrint (MsgTestComplete (count_detected results)
                                       (List.length results))])).
    rewrite opened_paths_app, saved_paths_app, Hop, Hsv.
    cbn [opened_paths saved_paths flat_map]. rewrite !app_nil_r. auto.
  - cbn [fst snd]. split; [exact Hs|].
    exists ([EMakedirs output_dir] ++ t).
    split; [rewrite Ht; now rewrite <- !app_assoc|].
    split; [exact Hoff|]. discriminate.
  - cbn [fst snd]. split; [exact Hs|].
    exists ([EMakedirs output_dir] ++ t).
    split; [rewrite Ht; now rewrite <- !app_assoc|].
    split; [exact Hoff|]. discriminate.
Qed.

End TestTraces.

(** X17.  Test mode works on files only: whatever the model answers and
    however the run ends, it takes no screenshot, clicks nothing and never
    sleeps.  Every event is a print, the creation of the output directory,
    an image being opened, a model call or an annotated copy being
    saved. *)
Theorem test_mode_is_offline env grounding_caption test_dir output_dir w :
  let r := run_test_mode env grounding_caption test_dir output_dir w in
  shots (snd r) = shots w /\
  exists t,
    trace (snd r) = trace w ++ t /\
    forallb is_offline t = true /\
    clicks t = 0%nat.
Proof.
  intros r. subst r.
  destruct (run_test_mode_trace env grounding_caption output_dir test_dir w)
    as (Hs & t & Ht & Hoff & _).
  split; [exact Hs|]. exists t. split; [exact Ht|]. split; [exact Hoff|].
  clear Ht. induction t as [|ev t IH]; [reflexivity|].
  cbn [forallb] in Hoff. apply andb_true_iff in Hoff. destruct Hoff as [Hev Hoff].
  specialize (IH Hoff). unfold clicks in *. cbn [filter].
  destruct ev; try discriminate Hev; exact IH.
Qed.

(** X18.  A test-mode run that returns has opened the enumerated files once
    each, in order, and has saved one annotated copy for each record with
    [detected] set and none for the others, in the order of the records;
    the copy of a file goes to [output_dir] under the name
    [output_<basename>]. *)
Theorem test_mode_saves_detections env grounding_caption test_dir output_dir w results :
  let r := run_test_mode env grounding_caption test_dir output_dir w in
  fst r = Returns results ->
  exists t,
    trace (snd r) = trace w ++ t /\
    opened_paths t = image_files_of env test_dir /\
    saved_paths t =
      List.map (fun rec => path_join output_dir ("output_" ++ basename (file rec)))
        (List.filter detected results).
Proof.
  intros r Hret. subst r.
  destruct (run_test_mode_trace env grounding_caption output_dir test_dir w)
    as (_ & t & Ht & _ & Hres).
  destruct (Hres results Hret) as (Hop & Hsv).
  exists t. split; [exact Ht|]. split; [exact Hop|exact Hsv].
Qed.

Lemma test_mode_saves_detections_witness :
  let r := run_test_mode SampleFiles.env_dir (JStr (lit "Skip")) "shots" "test_outputs"
             (boot 0) in
  let hit p := {| file := path_join "shots" p; detected := true;
                  position := Some (15, 15)%Z; bbox := Some [10; 10; 20; 20]%Z |} in
  let miss p := {| file := path_join "shots" p; detected := false;
                   position := None; bbox := None |} in
  exists t,
    trace (snd r) = trace (boot 0) ++ t /\
    opened_paths t = image_files_of SampleFiles.env_dir "shots" /\
    saved_paths t =
      List.map (fun rec => path_join "test_outputs" ("output_" ++ basename (file rec)))
        (List.filter detected [hit "a.png"; miss "c.png"; hit "b.jpg"]%string).
Proof.
  apply (test_mode_saves_detections SampleFiles.env_dir (JStr (lit "Skip")) "shots"
           "test_outputs" (boot 0)).
  vm_compute. reflexivity.
Defined.


